(** * UK property valuation: pipeline orchestration and resilient calls

    A shallow embedding of the Flask application [app_improved.py] and
    of the agent base classes [agents/base_agent.py] and
    [agents/base_agent_improved.py], with the response-parsing blocks of
    [agents/openai_research_agent.py] and
    [agents/openai_evaluation_agent.py], and of the research and the
    accessor agent as a whole ([agents/openai_research_agent.py],
    [agents/openai_accessor_agent.py]).

    Python [str] values are modelled as [string]: a sequence of code
    points below 256, one [ascii] per code point.  Python [dict]s with
    string keys that are built from literals or decoded from JSON are
    association lists in insertion order ([JObj]); the global [reports]
    dictionary of the application is a [gmap] from report id to record. *)

From Stdlib Require Import ZArith String Ascii List Bool Lia QArith Qminmax Sorted.
From stdpp Require Import gmap strings list.

Open Scope string_scope.
Open Scope Z_scope.

(** ** JSON values *)

(** A Python float by its exact value: every finite double is a
    rational number. *)
Inductive pyfloat : Type :=
  | FFinite (q : Q)
  | FInf (negative : bool)
  | FNaN.

(** What [json.loads] produces and [jsonify] consumes.  The fields of an
    object are kept in insertion order; a lookup takes the first field
    with the key and an update replaces it in place, so that the
    objects built by the code never have two fields with one key. *)
#[local] Unset Elimination Schemes.
Inductive json : Type :=
  | JNull
  | JBool (b : bool)
  | JInt (z : Z)
  | JFloat (f : pyfloat)
  | JStr (s : string)
  | JArr (items : list json)
  | JObj (fields : list (string * json)).
#[local] Set Elimination Schemes.

(** [d.get(k)], [k in d] and [d[k] = v] on an insertion-ordered dict. *)
Fixpoint dict_get (k : string) (d : list (string * json)) : option json :=
  match d with
  | [] => None
  | (k', v) :: d' => if String.eqb k' k then Some v else dict_get k d'
  end.

Definition dict_has (k : string) (d : list (string * json)) : bool :=
  match dict_get k d with Some _ => true | None => false end.

Fixpoint dict_set (k : string) (v : json) (d : list (string * json))
  : list (string * json) :=
  match d with
  | [] => [(k, v)]
  | (k', v') :: d' =>
      if String.eqb k' k then (k, v) :: d' else (k', v') :: dict_set k v d'
  end.

(** [{**a, **b}]: the keys of [b] are written over [a] in order. *)
Definition dict_merge (a b : list (string * json)) : list (string * json) :=
  fold_left (fun acc kv => dict_set (fst kv) (snd kv) acc) b a.

(** Field access on a JSON value that is expected to be an object. *)
Definition field (k : string) (j : json) : option json :=
  match j with JObj d => dict_get k d | _ => None end.

(** ** Python string primitives *)

Module PyStr.

(** [c in s] for a one-character [c]. *)
Fixpoint contains (c : ascii) (s : string) : bool :=
  match s with
  | EmptyString => false
  | String a s' => if Ascii.eqb a c then true else contains c s'
  end.

Fixpoint find_from (c : ascii) (s : string) (i : Z) : Z :=
  match s with
  | EmptyString => -1
  | String a s' => if Ascii.eqb a c then i else find_from c s' (i + 1)
  end.

(** [s.find(c)]: index of the first occurrence, [-1] when absent. *)
Definition find (c : ascii) (s : string) : Z := find_from c s 0.

Fixpoint rfind_from (c : ascii) (s : string) (i last : Z) : Z :=
  match s with
  | EmptyString => last
  | String a s' =>
      rfind_from c s' (i + 1) (if Ascii.eqb a c then i else last)
  end.

(** [s.rfind(c)]: index of the last occurrence, [-1] when absent. *)
Definition rfind (c : ascii) (s : string) : Z := rfind_from c s 0 (-1).

(** How a slice bound is normalised: a negative bound counts from the
    end, and every bound is clipped to [0 .. len]. *)
Definition clip (n k : Z) : Z :=
  if k <? 0 then Z.max 0 (k + n) else Z.min k n.

(** [s[i:j]]. *)
Definition slice (s : string) (i j : Z) : string :=
  let n := Z.of_nat (String.length s) in
  let lo := clip n i in
  let hi := clip n j in
  if lo <? hi then substring (Z.to_nat lo) (Z.to_nat (hi - lo)) s
  else EmptyString.

(** [len(s)]. *)
Definition len (s : string) : Z := Z.of_nat (String.length s).

(** Truthiness of a string: [not s] holds of the empty string only. *)
Definition truthy (s : string) : bool :=
  match s with EmptyString => false | String _ _ => true end.

End PyStr.

(** ** Regular expressions: the fragment the postcode pattern uses *)

Module Re.

(** A character class, a sequence, a greedy optional item. *)
Inductive re : Type :=
  | Cls (p : ascii -> bool)
  | Seq (r1 r2 : re)
  | Opt (r : re).

(** Backtracking matcher in continuation style: [rmatch r s k] tries
    the alternatives of [r] at the start of [s] in the engine's order
    (a greedy optional item is tried present first) and hands the
    rest of the text to [k]; the first success wins. *)
Fixpoint rmatch {A : Type} (r : re) (s : string) (k : string -> option A)
  : option A :=
  match r with
  | Cls p =>
      match s with
      | EmptyString => None
      | String a s' => if p a then k s' else None
      end
  | Seq r1 r2 => rmatch r1 s (fun s' => rmatch r2 s' k)
  | Opt r1 =>
      match rmatch r1 s k with
      | Some x => Some x
      | None => k s
      end
  end.

(** The text of the match that starts at the beginning of [s]. *)
Definition match_here (r : re) (s : string) : option string :=
  rmatch r s
    (fun rest => Some (substring 0 (String.length s - String.length rest) s)).

(** [re.search(r, s)]: the leftmost match, [group(0)] of it. *)
Fixpoint search (r : re) (s : string) : option string :=
  match match_here r s with
  | Some m => Some m
  | None =>
      match s with
      | EmptyString => None
      | String _ s' => search r s'
      end
  end.

Definition upper (a : ascii) : bool :=
  let n := nat_of_ascii a in (65 <=? n)%nat && (n <=? 90)%nat.

Definition lower (a : ascii) : bool :=
  let n := nat_of_ascii a in (97 <=? n)%nat && (n <=? 122)%nat.

Definition digit (a : ascii) : bool :=
  let n := nat_of_ascii a in (48 <=? n)%nat && (n <=? 57)%nat.

Definition space (a : ascii) : bool := Ascii.eqb a " "%char.

(** [[A-Z]{1,2}[0-9][A-Z0-9]? ?[0-9][A-Z]{2}], with the letter class
    given as a parameter: [upper] as written, and upper or lower case
    under [re.IGNORECASE]. *)
Definition postcode (letter : ascii -> bool) : re :=
  Seq (Cls letter) (Seq (Opt (Cls letter))
    (Seq (Cls digit) (Seq (Opt (Cls (fun a => letter a || digit a)))
      (Seq (Opt (Cls space)) (Seq (Cls digit)
        (Seq (Cls letter) (Cls letter))))))).

Definition uk_postcode : re := postcode upper.

Definition uk_postcode_ignorecase : re :=
  postcode (fun a => upper a || lower a).

End Re.

(** ** [validate_address] (app_improved.py) *)

(** The body of the route for a request whose JSON carries the string
    [address]; the result is the object passed to [jsonify]. *)
Definition validate_address (address : string) : json :=
  if negb (PyStr.truthy address) || (PyStr.len address <? 10) then
    JObj [("valid", JBool false);
          ("message", JStr "Please enter a complete UK address")]
  else
    match Re.search Re.uk_postcode_ignorecase address with
    | None =>
        JObj [("valid", JBool true);
              ("warning", JStr "Address may not contain a valid UK postcode");
              ("formatted_address", JStr address)]
    | Some _ =>
        JObj [("valid", JBool true); ("formatted_address", JStr address)]
    end.

(** ** Exceptions *)

(** A raised exception: its class and [str(e)]. *)
Record exn : Type := Exn { exn_class : string; exn_str : string }.

Inductive result (A : Type) : Type :=
  | Ok (a : A)
  | Raise (e : exn).
Arguments Ok {A} a.
Arguments Raise {A} e.

(** [try: body  except Exception as e: handler(e)]. *)
Definition try_except {A : Type} (body : result A) (handler : exn -> result A)
  : result A :=
  match body with
  | Ok a => Ok a
  | Raise e => handler e
  end.

Definition TypeError : exn := Exn "TypeError" "".
Definition AttributeError : exn := Exn "AttributeError" "".
Definition JSONDecodeError : exn := Exn "JSONDecodeError" "".

(** ** More string operations *)

Module PyText.

Fixpoint prefix (p s : string) : bool :=
  match p, s with
  | EmptyString, _ => true
  | String a p', String b s' => Ascii.eqb a b && prefix p' s'
  | String _ _, EmptyString => false
  end.

(** [needle in hay] for strings. *)
Fixpoint infix (needle hay : string) : bool :=
  if prefix needle hay then true
  else match hay with
       | EmptyString => false
       | String _ hay' => infix needle hay'
       end.

(** [s.replace(c, '')] for a one-character [c]. *)
Fixpoint remove (c : ascii) (s : string) : string :=
  match s with
  | EmptyString => EmptyString
  | String a s' =>
      if Ascii.eqb a c then remove c s' else String a (remove c s')
  end.

(** [s.lower()] on code points below 256: the letters A-Z and the
    accented capitals 192-222 (but not the multiplication sign 215)
    move up by 32. *)
Definition lower_char (a : ascii) : ascii :=
  let n := nat_of_ascii a in
  if ((65 <=? n)%nat && (n <=? 90)%nat)
     || ((192 <=? n)%nat && (n <=? 222)%nat && negb (n =? 215)%nat)
  then ascii_of_nat (n + 32) else a.

Fixpoint lower (s : string) : string :=
  match s with
  | EmptyString => EmptyString
  | String a s' => String (lower_char a) (lower s')
  end.

(** [s.split(' ')[0]]: the text before the first space. *)
Fixpoint first_word (s : string) : string :=
  match s with
  | EmptyString => EmptyString
  | String a s' =>
      if Ascii.eqb a " "%char then EmptyString else String a (first_word s')
  end.

(** White space that [int] strips, below code point 256. *)
Definition is_space (a : ascii) : bool :=
  let n := nat_of_ascii a in
  ((9 <=? n)%nat && (n <=? 13)%nat) || (n =? 32)%nat
  || (n =? 133)%nat || (n =? 160)%nat.

Fixpoint lstrip (s : string) : string :=
  match s with
  | EmptyString => EmptyString
  | String a s' => if is_space a then lstrip s' else s
  end.

Fixpoint rstrip (s : string) : string :=
  match s with
  | EmptyString => EmptyString
  | String a s' =>
      match rstrip s' with
      | EmptyString => if is_space a then EmptyString else String a EmptyString
      | r => String a r
      end
  end.

Definition digit_val (a : ascii) : option Z :=
  let n := nat_of_ascii a in
  if (48 <=? n)%nat && (n <=? 57)%nat then Some (Z.of_nat n - 48) else None.

(** Digits with single underscores between them; [acc] is the value
    read so far and [after_digit] says whether an underscore may come
    next. *)
Fixpoint digits (s : string) (acc : Z) (after_digit : bool) : option Z :=
  match s with
  | EmptyString => if after_digit then Some acc else None
  | String a s' =>
      match digit_val a with
      | Some d => digits s' (10 * acc + d) true
      | None =>
          if Ascii.eqb a "_"%char && after_digit then digits s' acc false
          else None
      end
  end.

(** [int(s)] in base 10: [None] stands for [ValueError].  The limit that
    recent versions of Python put on the number of digits is not
    modelled. *)
Definition int (s : string) : option Z :=
  match rstrip (lstrip s) with
  | String "-"%char s' => option_map Z.opp (digits s' 0 false)
  | String "+"%char s' => digits s' 0 false
  | s' => digits s' 0 false
  end.

Definition digit_char (d : Z) : ascii := ascii_of_nat (Z.to_nat (48 + d)).

(** Decimal digits of a natural number, most significant first;
    [fuel] bounds the number of digits. *)
Fixpoint dec (fuel : nat) (n : Z) (acc : list ascii) : list ascii :=
  match fuel with
  | O => acc
  | S fuel' =>
      let acc' := digit_char (n mod 10) :: acc in
      if n <? 10 then acc' else dec fuel' (n / 10) acc'
  end.

Definition nat_digits (n : Z) : list ascii :=
  dec (S (Z.to_nat (Z.log2 n))) n [].

(** Groups of three from the right, separated by commas; [ds] is the
    reversed digit list. *)
Fixpoint group3 (ds : list ascii) : list ascii :=
  match ds with
  | a :: b :: c :: ((_ :: _) as rest) =>
      a :: b :: c :: ","%char :: group3 rest
  | _ => ds
  end.

(** [f'{n}'] and [f'{n:,}'] for an integer. *)
Definition str_int (n : Z) : string :=
  let body := string_of_list_ascii (nat_digits (Z.abs n)) in
  if n <? 0 then String "-"%char body else body.

Definition str_int_commas (n : Z) : string :=
  let body :=
    string_of_list_ascii (rev (group3 (rev (nat_digits (Z.abs n))))) in
  if n <? 0 then String "-"%char body else body.

End PyText.

(** The pound sign, code point 163. *)
Definition pound : ascii := "163"%char.

(** ** Dynamic operations on decoded values *)

Module PyObj.

Definition is_str (k : string) (j : json) : bool :=
  match j with JStr s => String.eqb s k | _ => false end.

(** [k in v] for a string [k]. *)
Definition contains (k : string) (v : json) : result bool :=
  match v with
  | JObj d => Ok (dict_has k d)
  | JArr l => Ok (existsb (is_str k) l)
  | JStr s => Ok (PyText.infix k s)
  | _ => Raise TypeError
  end.

(** [v[k]] for a string [k]. *)
Definition getitem (k : string) (v : json) : result json :=
  match v with
  | JObj d =>
      match dict_get k d with
      | Some x => Ok x
      | None => Raise (Exn "KeyError" ("'" ++ k ++ "'"))
      end
  | _ => Raise TypeError
  end.

(** [v[k] = x] for a string [k]. *)
Definition setitem (k : string) (x : json) (v : json) : result json :=
  match v with
  | JObj d => Ok (JObj (dict_set k x d))
  | _ => Raise TypeError
  end.

(** Truthiness. *)
Definition truthy (v : json) : bool :=
  match v with
  | JNull => false
  | JBool b => b
  | JInt z => negb (z =? 0)
  | JFloat (FFinite q) => negb (Qeq_bool q 0)
  | JFloat _ => true
  | JStr s => PyStr.truthy s
  | JArr l => match l with [] => false | _ => true end
  | JObj d => match d with [] => false | _ => true end
  end.

End PyObj.

(** ** Response parsing (agents/openai_research_agent.py,
       agents/openai_evaluation_agent.py) *)

(** [text[text.find(o) : text.rfind(c) + 1]], the candidate JSON text. *)
Definition extract_json (o c : ascii) (text : string) : string :=
  PyStr.slice text (PyStr.find o text) (PyStr.rfind c text + 1).

(** [o in text and c in text]. *)
Definition has_delimiters (o c : ascii) (text : string) : bool :=
  PyStr.contains o text && PyStr.contains c text.

Section Parsing.

(** [json.loads]: [None] stands for [JSONDecodeError]. *)
Variable json_loads : string -> option json.

(** [datetime.now().strftime('%B %d, %Y')], equally
    [time.strftime('%B %d, %Y')]. *)
Variable today : string.

Definition loads (text : string) : result json :=
  match json_loads text with
  | Some v => Ok v
  | None => Raise JSONDecodeError
  end.

(** *** [ResearchAgent._parse_address], from [# Parse the JSON response] *)

Definition parse_address_no_json (address : string) : json :=
  let address_parts :=
    [("building", JStr ""); ("street", JStr ""); ("city", JStr "");
     ("county", JStr ""); ("postcode", JStr "")] in
  match Re.search Re.uk_postcode address with
  | Some m => JObj (dict_set "postcode" (JStr m) address_parts)
  | None => JObj address_parts
  end.

Definition parse_address_failed (address : string) : json :=
  JObj [("full_address", JStr address); ("postcode", JStr "");
        ("city", JStr ""); ("street", JStr "")].

Definition _parse_address (address assistant_message : string)
  : result json :=
  try_except
    (if has_delimiters "{" "}" assistant_message then
       loads (extract_json "{" "}" assistant_message)
     else Ok (parse_address_no_json address))
    (fun _ => Ok (parse_address_failed address)).

(** *** [ResearchAgent._get_property_details], from
        [# Parse the JSON response] *)

Definition property_details_no_json : json :=
  JObj [("property_type", JStr "Flat/Maisonette");
        ("tenure", JStr "Leasehold");
        ("year_built", JStr "1980");
        ("floor_area", JStr "700 sqft");
        ("bedrooms", JInt 2);
        ("bathrooms", JInt 1);
        ("epc_rating", JStr "C");
        ("council_tax_band", JStr "D");
        ("last_sold_price", JStr (String pound "420,000"));
        ("last_sold_date", JStr "June 2022");
        ("current_use_class", JStr "C3 (Residential)")].

Definition property_details_failed : json :=
  JObj [("property_type", JStr "Unknown");
        ("bedrooms", JInt 0);
        ("bathrooms", JInt 0);
        ("floor_area", JStr "Unknown");
        ("current_use_class", JStr "Unknown")].

Definition _get_property_details (assistant_message : string)
  : result json :=
  try_except
    (if has_delimiters "{" "}" assistant_message then
       loads (extract_json "{" "}" assistant_message)
     else Ok property_details_no_json)
    (fun _ => Ok property_details_failed).

(** *** [EvaluationAgent._calculate_valuation], from
        [# Parse the JSON response] *)

(** [int(text.replace('£', '').replace(',', ''))] inside
    [try: ... except: fallback], for any decoded value [v]: a value
    that is not a string has no [replace] and takes the fallback. *)
Definition money_or (fallback : Z) (v : json) : Z :=
  match v with
  | JStr s =>
      match PyText.int (PyText.remove ","%char (PyText.remove pound s)) with
      | Some n => n
      | None => fallback
      end
  | _ => fallback
  end.

(** Lines 211-219: derive ['value'] from ['formatted_value']. *)
Definition backfill_value (valuation : json) : result json :=
  match PyObj.contains "value" valuation with
  | Raise e => Raise e
  | Ok true => Ok valuation
  | Ok false =>
      match PyObj.contains "formatted_value" valuation with
      | Raise e => Raise e
      | Ok false => Ok valuation
      | Ok true =>
          match PyObj.getitem "formatted_value" valuation with
          | Raise e => Raise e
          | Ok formatted_value =>
              match PyObj.contains (String pound "") formatted_value with
              | Raise e => Raise e
              | Ok false => Ok valuation
              | Ok true =>
                  PyObj.setitem "value" (JInt (money_or 0 formatted_value))
                    valuation
              end
          end
      end
  end.

(** Lines 222-224: add ['valuation_date'] when it is absent. *)
Definition backfill_date (valuation : json) : result json :=
  match PyObj.contains "valuation_date" valuation with
  | Raise e => Raise e
  | Ok true => Ok valuation
  | Ok false => PyObj.setitem "valuation_date" (JStr today) valuation
  end.

(** [int(size_str.split(' ')[0])] inside [try: ... except: 700]. *)
Definition size_of (size_str : json) : Z :=
  match size_str with
  | JStr s =>
      match PyText.int (PyText.first_word s) with
      | Some n => n
      | None => 700
      end
  | _ => 700
  end.

(** Lines 228-258: the valuation computed when no JSON is found. *)
Definition valuation_no_json
    (property_details market_data : list (string * json)) : json :=
  let size_str :=
    match dict_get "floor_area" property_details with
    | Some v => v | None => JStr "" end in
  let size := if PyObj.truthy size_str then size_of size_str else 0 in
  let price_per_sqft_str :=
    match dict_get "average_price_per_sqft" market_data with
    | Some v => v | None => JStr "" end in
  let price_per_sqft :=
    if PyObj.truthy price_per_sqft_str then money_or 689 price_per_sqft_str
    else 0 in
  let value := size * price_per_sqft in
  JObj [("value", JInt value);
        ("formatted_value", JStr (String pound (PyText.str_int_commas value)));
        ("price_per_sqft", JInt price_per_sqft);
        ("formatted_price_per_sqft",
           JStr (String pound (PyText.str_int price_per_sqft)));
        ("valuation_date", JStr today);
        ("confidence_level", JStr "Medium");
        ("methodology",
           JStr "Comparable analysis with market data adjustment")].

Definition valuation_failed : json :=
  JObj [("value", JInt 500000);
        ("formatted_value", JStr (String pound "500,000"));
        ("price_per_sqft", JInt 700);
        ("formatted_price_per_sqft", JStr (String pound "700"));
        ("valuation_date", JStr today);
        ("confidence_level", JStr "Low");
        ("methodology", JStr "Basic estimation")].

Definition _calculate_valuation
    (property_details market_data : list (string * json))
    (assistant_message : string) : result json :=
  try_except
    (if has_delimiters "{" "}" assistant_message then
       match loads (extract_json "{" "}" assistant_message) with
       | Raise e => Raise e
       | Ok valuation =>
           match backfill_value valuation with
           | Raise e => Raise e
           | Ok valuation' => backfill_date valuation'
           end
       end
     else Ok (valuation_no_json property_details market_data))
    (fun _ => Ok valuation_failed).

End Parsing.

(** The double quote, code point 34, and a quoted word. *)
Definition dquote : ascii := "034"%char.

Definition quoted (s : string) : string :=
  String dquote (s ++ String dquote "").

(** A decoder for a handful of texts, enough to run the parsing blocks
    on concrete replies: it knows the empty object and two objects with
    a single field, and rejects everything else, the empty text
    included. *)
Definition sample_loads (text : string) : option json :=
  if String.eqb text "{}" then Some (JObj [])
  else if String.eqb text
            ("{" ++ quoted "city" ++ ": " ++ quoted "London" ++ "}")
  then Some (JObj [("city", JStr "London")])
  else if String.eqb text ("{" ++ quoted "formatted_value" ++ ": 5}")
  then Some (JObj [("formatted_value", JInt 5)])
  else None.

(** ** External calls with retry *)

(** What a call does to the outside world, in order: a request sent to
    the service, a [time.sleep] of so many seconds. *)
Inductive event : Type :=
  | Request
  | Sleep (seconds : Q).

Definition is_request (e : event) : bool :=
  match e with Request => true | Sleep _ => false end.

Definition is_sleep (e : event) : bool :=
  match e with Request => false | Sleep _ => true end.

Definition requests (trace : list event) : nat :=
  List.length (List.filter is_request trace).

Definition sleeps (trace : list event) : nat :=
  List.length (List.filter is_sleep trace).

(** How [call_openai_api] ends: it returns the response, raises, leaves
    its loop without either (Python then returns [None]), or the model
    runs out of fuel. *)
Inductive call_outcome : Type :=
  | Returned (response : json)
  | Raised (e : exn)
  | ReturnedNone
  | OutOfFuel.

(** *** [BaseAgent.call_openai_api] of agents/base_agent_improved.py *)

Module Improved.

(** One [client.chat.completions.create] with the conversion of its
    response, classified by the [except] clause that receives it. *)
Inductive create_outcome : Type :=
  | Created (response : json)
  | RateLimitError (msg : string)
  | APIError (msg : string)
  | OtherException (msg : string).

(** [self.client] when the call starts: set; unset and set by
    [_initialize_openai_client]; unset with the initialisation
    raising; unset and still unset afterwards. *)
Inductive client_state : Type :=
  | ClientSet
  | ClientInitialised
  | ClientInitRaises (e : exn)
  | ClientMissing.

Section Call.

Variable agent_name : string.
Variables (max_retries : Z) (initial_retry_delay max_retry_delay : Q).

(** The service: the outcome of the [n]-th request, counting from 0. *)
Variable create : nat -> create_outcome.

(** [random.uniform(-jitter, jitter)]: the sample drawn after the
    [n]-th request. *)
Variable uniform : nat -> Q.

Definition actual_delay (n : nat) (retry_delay : Q) : Q :=
  let jitter_amount := (uniform n * retry_delay)%Q in
  Qmax (Qmin (retry_delay + jitter_amount)%Q max_retry_delay) (1 # 10).

(** The [while retry_count <= max_retries] loop; [n] counts the
    requests made so far. *)
Fixpoint retry_loop (fuel : nat) (retry_count : Z) (retry_delay : Q)
    (n : nat) (trace : list event) : call_outcome * list event :=
  if retry_count <=? max_retries then
    match fuel with
    | O => (OutOfFuel, trace)
    | S fuel' =>
        let trace := (trace ++ [Request])%list in
        match create n with
        | Created response => (Returned response, trace)
        | RateLimitError _ =>
            let retry_count := retry_count + 1 in
            if retry_count >? max_retries then
              (Raised (Exn "Exception"
                 ("Failed to call OpenAI API after "
                  ++ PyText.str_int max_retries
                  ++ " attempts due to rate limits")), trace)
            else
              retry_loop fuel' retry_count
                (Qmin (retry_delay * 2)%Q max_retry_delay) (S n)
                ((trace ++ [Sleep (actual_delay n retry_delay)])%list)
        | APIError msg =>
            let retry_count := retry_count + 1 in
            if retry_count >? max_retries then
              (Raised (Exn "Exception"
                 ("Failed to call OpenAI API after "
                  ++ PyText.str_int max_retries
                  ++ " attempts: " ++ msg)), trace)
            else
              retry_loop fuel' retry_count
                (Qmin (retry_delay * 2)%Q max_retry_delay) (S n)
                ((trace ++ [Sleep (actual_delay n retry_delay)])%list)
        | OtherException msg =>
            (Raised (Exn "Exception"
               ("Unexpected error calling OpenAI API: " ++ msg)), trace)
        end
    end
  else (ReturnedNone, trace).

Definition call_openai_api (client : client_state)
  : call_outcome * list event :=
  match client with
  | ClientInitRaises e => (Raised e, [])
  | ClientMissing =>
      (Raised (Exn "ValueError"
         ("[" ++ agent_name ++ "] OpenAI client not initialized")), [])
  | ClientSet | ClientInitialised =>
      retry_loop (Z.to_nat (max_retries + 1)) 0 initial_retry_delay 0%nat []
  end.

End Call.

End Improved.

(** *** [BaseAgent.call_openai_api] of agents/base_agent.py *)

Module Base.

(** One [requests.post]: it raises, or answers with a status code and
    a body that [response.json()] decodes or fails to decode. *)
Inductive post_outcome : Type :=
  | PostRaises (e : exn)
  | Response (status_code : Z) (body : result json).

(** [response.raise_for_status()]. *)
Definition raise_for_status (status_code : Z) : result unit :=
  if (400 <=? status_code) && (status_code <? 600)
  then Raise (Exn "HTTPError" (PyText.str_int status_code))
  else Ok tt.

Section Call.

Variable agent_name : string.

(** [self.max_retries] and [self.retry_delay]: 3 and 2 as set by
    [__init__]. *)
Variables (max_retries retry_delay : Z).

(** [self.api_key]: [None] when the environment has no key. *)
Variable api_key : option string.

(** The service: the outcome of the [n]-th request, counting from 0. *)
Variable post : nat -> post_outcome.

Definition wait_time (attempt : Z) : Z := 2 ^ attempt * retry_delay.

(** The [except Exception as e] clause of one attempt: [None] when
    the loop goes on, the exception when it is raised again. *)
Definition on_exception (attempt : Z) (e : exn) (trace : list event)
  : option exn * list event :=
  if attempt <? max_retries - 1
  then (None, (trace ++ [Sleep (inject_Z (wait_time attempt))])%list)
  else (Some e, trace).

(** [for attempt in range(self.max_retries)], over the attempts that
    are left; [n] counts the requests made so far. *)
Fixpoint for_attempts (attempts : list Z) (n : nat) (trace : list event)
  : call_outcome * list event :=
  match attempts with
  | [] =>
      (Raised (Exn "Exception"
         ("Failed to call OpenAI API after "
          ++ PyText.str_int max_retries ++ " attempts")), trace)
  | attempt :: rest =>
      let trace := (trace ++ [Request])%list in
      let body : result (option json) * list event :=
        match post n with
        | PostRaises e => (Raise e, trace)
        | Response status_code body =>
            if status_code =? 200 then
              match body with
              | Ok j => (Ok (Some j), trace)
              | Raise e => (Raise e, trace)
              end
            else if status_code =? 429 then
              (Ok None, (trace ++ [Sleep (inject_Z (wait_time attempt))])%list)
            else
              match raise_for_status status_code with
              | Ok _ => (Ok None, trace)
              | Raise e => (Raise e, trace)
              end
        end in
      match body with
      | (Ok (Some j), trace) => (Returned j, trace)
      | (Ok None, trace) => for_attempts rest (S n) trace
      | (Raise e, trace) =>
          match on_exception attempt e trace with
          | (None, trace) => for_attempts rest (S n) trace
          | (Some e, trace) => (Raised e, trace)
          end
      end
  end.

(** [range(n)] for an integer [n]. *)
Definition range (n : Z) : list Z :=
  List.map Z.of_nat (List.seq 0 (Z.to_nat n)).

Definition call_openai_api : call_outcome * list event :=
  match api_key with
  | None | Some EmptyString =>
      (Raised (Exn "ValueError"
         ("OpenAI API key not found for " ++ agent_name
          ++ ". Please add it to your .env file.")), [])
  | Some _ => for_attempts (range max_retries) 0%nat []
  end.

End Call.

End Base.

(** ** The job store and the background run (app_improved.py) *)

(** A Python dict with string keys, in insertion order. *)
Abbreviation dict := (list (string * json)).

(** What the background thread can touch: the global [reports]
    dictionary, and two ghost logs kept for the proofs: the content of
    [reports] after each of its writes, oldest first, and the names of
    the agents whose [process] was entered, oldest first. *)
Record world : Type := World {
  reports : gmap string dict;
  writes : list (gmap string dict);
  calls : list string
}.

(** Where a statement leaves control: it completes with a value, raises,
    or executes [return]. *)
Inductive ctl (A : Type) : Type :=
  | Normal (a : A)
  | Throw (e : exn)
  | Return.
Arguments Normal {A} a.
Arguments Throw {A} e.
Arguments Return {A}.

Definition M (A : Type) : Type := world -> ctl A * world.

Definition ret {A : Type} (a : A) : M A := fun w => (Normal a, w).

Definition bind {A B : Type} (m : M A) (k : A -> M B) : M B :=
  fun w =>
    match m w with
    | (Normal a, w') => k a w'
    | (Throw e, w') => (Throw e, w')
    | (Return, w') => (Return, w')
    end.

#[global] Instance M_ret : MRet M := @ret.
#[global] Instance M_bind : MBind M := fun A B k m => bind m k.

(** The [return] statement. *)
Definition return_ {A : Type} : M A := fun w => (Return, w).

(** An expression that may raise, as a statement. *)
Definition lift {A : Type} (r : result A) : M A :=
  fun w =>
    match r with
    | Ok a => (Normal a, w)
    | Raise e => (Throw e, w)
    end.

(** [try: body  except Exception as e: handler(e)] around statements. *)
Definition try_catch {A : Type} (body : M A) (handler : exn -> M A) : M A :=
  fun w =>
    match body w with
    | (Throw e, w') => handler e w'
    | r => r
    end.

Definition KeyError (key : string) : exn :=
  Exn "KeyError" ("'" ++ key ++ "'").

(** [reports[report_id][key] = value]. *)
Definition set_field (report_id key : string) (value : json) : M unit :=
  fun w =>
    match reports w !! report_id with
    | None => (Throw (KeyError report_id), w)
    | Some report =>
        let reports' := <[report_id := dict_set key value report]> (reports w) in
        (Normal tt,
         World reports' (writes w ++ [reports'])%list (calls w))
    end.

(** [reports[report_id]['agent_details'][key] = value]. *)
Definition set_agent_detail (report_id key : string) (value : json) : M unit :=
  fun w =>
    match reports w !! report_id with
    | None => (Throw (KeyError report_id), w)
    | Some report =>
        match dict_get "agent_details" report with
        | None => (Throw (KeyError "agent_details"), w)
        | Some agent_details =>
            match PyObj.setitem key value agent_details with
            | Raise e => (Throw e, w)
            | Ok agent_details' =>
                let reports' :=
                  <[report_id := dict_set "agent_details" agent_details' report]>
                    (reports w) in
                (Normal tt,
                 World reports' (writes w ++ [reports'])%list (calls w))
            end
        end
    end.

(** [agent.process(input)] for the agent registered as [name]. *)
Definition call_agent (name : string) (process : json -> result json)
    (input : json) : M json :=
  fun w =>
    let w' := World (reports w) (writes w) (calls w ++ [name])%list in
    match process input with
    | Ok v => (Normal v, w')
    | Raise e => (Throw e, w')
    end.

Section App.

(** The four registered agents.  Research, evaluation and review are
    taken whole: any function from the input to a result or an
    exception. *)
Variables research_agent evaluation_agent accessor_agent
  : json -> result json.

(** [ReportGenerationAgent.process] builds its sections and the HTML
    through the service and then returns a dict of four fixed keys;
    [report_sections] and [report_html_of] stand for the two parts
    that go through the service. *)
Variable report_sections : json -> result json.
Variable report_html_of : json -> result string.
Variable generation_timestamp : pyfloat.

(** [traceback.format_exc()] in the handler of [e]. *)
Variable format_exc : exn -> string.

(** [datetime.now().strftime('%B %d, %Y')] at the end of a run. *)
Variable report_date : string.

Definition report_generator (input_data : json) : result json :=
  match PyObj.contains "address" input_data with
  | Raise e => Raise e
  | Ok false =>
      Raise (Exn "ValueError" "Approved data must include an address")
  | Ok true =>
      match field "address" input_data with
      | None => Raise AttributeError
      | Some address =>
          match report_sections input_data with
          | Raise e => Raise e
          | Ok report_content =>
              match report_html_of report_content with
              | Raise e => Raise e
              | Ok report_html =>
                  Ok (JObj [("address", address);
                            ("report_content", report_content);
                            ("report_html", JStr report_html);
                            ("generation_timestamp",
                               JFloat generation_timestamp)])
              end
          end
      end
  end.

(** *** [handle_agent_error] *)

Definition handle_agent_error (report_id agent_name : string) (exception : exn)
  : M unit :=
  let error_message := exn_str exception in
  set_field report_id "status" (JStr "error") ;;
  set_field report_id "message"
    (JStr ("Error in " ++ agent_name ++ " agent: " ++ error_message)) ;;
  (if PyText.infix "rate limit" (PyText.lower error_message) then
     set_field report_id "message"
       (JStr "OpenAI API rate limit reached. Please try again later.") ;;
     set_field report_id "can_retry" (JBool true) ;;
     set_field report_id "retry_after" (JInt 60)
   else ret tt) ;;
  set_field report_id "error_details"
    (JObj [("error", JStr error_message);
           ("traceback", JStr (format_exc exception));
           ("agent", JStr agent_name)]) ;;
  set_agent_detail report_id "error_agent" (JStr agent_name) ;;
  set_agent_detail report_id "error_message" (JStr error_message).

(** *** [process_report] *)

(** One numbered step of [process_report]: the [try] with the call of
    the agent and the note that it is done, and the [except] that
    records the error and returns. *)
Definition run_agent (report_id agent_name detail done : string)
    (process : json -> result json) (input : json) : M json :=
  try_catch
    (v ← call_agent agent_name process input;
     set_agent_detail report_id detail (JStr done) ;;
     ret v)
    (fun e => handle_agent_error report_id agent_name e ;; return_).

Definition process_report_body (report_id address : string) : M unit :=
  set_field report_id "status" (JStr "researching") ;;
  set_field report_id "progress" (JInt 10) ;;
  set_field report_id "message" (JStr "Researching property data...") ;;
  set_agent_detail report_id "research" (JStr "Gathering property data...") ;;
  property_data ←
    run_agent report_id "research" "research" "Research complete"
      research_agent (JObj [("address", JStr address)]);
  set_field report_id "status" (JStr "evaluating") ;;
  set_field report_id "progress" (JInt 30) ;;
  set_field report_id "message" (JStr "Evaluating property data...") ;;
  set_agent_detail report_id "evaluation" (JStr "Analyzing property data...") ;;
  evaluation_results ←
    run_agent report_id "evaluation" "evaluation" "Evaluation complete"
      evaluation_agent property_data;
  set_field report_id "status" (JStr "reviewing") ;;
  set_field report_id "progress" (JInt 50) ;;
  set_field report_id "message" (JStr "Reviewing and approving data...") ;;
  set_agent_detail report_id "accessor" (JStr "Reviewing data...") ;;
  approved_data ←
    run_agent report_id "accessor" "accessor" "Review complete"
      accessor_agent
      (JObj [("address", JStr address);
             ("property_data", property_data);
             ("evaluation_results", evaluation_results)]);
  set_field report_id "status" (JStr "generating") ;;
  set_field report_id "progress" (JInt 70) ;;
  set_field report_id "message" (JStr "Generating report...") ;;
  set_agent_detail report_id "report" (JStr "Creating report...") ;;
  report_result ←
    run_agent report_id "report_generator" "report" "Report complete"
      report_generator approved_data;
  set_field report_id "status" (JStr "complete") ;;
  set_field report_id "progress" (JInt 100) ;;
  set_field report_id "message" (JStr "Report generation complete") ;;
  report_html ← lift (PyObj.getitem "report_html" report_result);
  set_field report_id "html" report_html ;;
  report_content ← lift (PyObj.getitem "report_content" report_result);
  set_field report_id "content" report_content ;;
  set_field report_id "date" (JStr report_date) ;;
  set_field report_id "data" approved_data.

(** The handler of the outermost [try]. *)
Definition process_report_failed (report_id : string) (e : exn) : M unit :=
  set_field report_id "status" (JStr "error") ;;
  set_field report_id "message" (JStr ("Error: " ++ exn_str e)) ;;
  set_field report_id "error_details"
    (JObj [("error", JStr (exn_str e));
           ("traceback", JStr (format_exc e))]) ;;
  set_field report_id "can_retry" (JBool true).

(** The target of the background thread: the final world, and the
    exception that leaves the function if one does. *)
Definition process_report (report_id address : string) (w : world)
  : result unit * world :=
  match try_catch (process_report_body report_id address)
          (process_report_failed report_id) w with
  | (Normal _, w') => (Ok tt, w')
  | (Return, w') => (Ok tt, w')
  | (Throw e, w') => (Raise e, w')
  end.

End App.

(** *** The routes *)

(** What the request handlers can touch: the global [reports]
    dictionary, and the background threads started so far, each with
    the arguments [(report_id, address)] of its [process_report]. *)
Record server : Type := Server {
  store : gmap string dict;
  threads : list (string * json)
}.

(** [d.get(key, default)]. *)
Definition dict_get_or (key : string) (default : json) (d : dict) : json :=
  match dict_get key d with Some v => v | None => default end.

(** The record that [generate_report] and [retry_report] store. *)
Definition fresh_report (address : json) (message timestamp : string) : dict :=
  [("address", address);
   ("status", JStr "processing");
   ("progress", JInt 0);
   ("message", JStr message);
   ("timestamp", JStr timestamp);
   ("agent_details",
      JObj [("research", JStr "Initializing...");
            ("evaluation", JStr "Waiting...");
            ("accessor", JStr "Waiting...");
            ("report", JStr "Waiting...")])].

(** Truthiness of [os.getenv("OPENAI_API_KEY")]. *)
Definition key_configured (api_key : option string) : bool :=
  match api_key with
  | Some k => PyStr.truthy k
  | None => false
  end.

(** [generate_report] for a request whose JSON carries the string
    [address]; [report_id] is the value of [str(uuid.uuid4())] and
    [timestamp] that of [datetime.now().isoformat()]. *)
Definition generate_report (api_key : option string)
    (report_id timestamp address : string) (s : server) : json * server :=
  if negb (PyStr.truthy address) then
    (JObj [("success", JBool false); ("message", JStr "Address is required")],
     s)
  else if negb (key_configured api_key) then
    (JObj [("success", JBool false);
           ("message",
              JStr "OpenAI API key not found. Please add it to your .env file.")],
     s)
  else
    (JObj [("success", JBool true);
           ("report_id", JStr report_id);
           ("message", JStr "Report generation started")],
     Server
       (<[report_id :=
            fresh_report (JStr address) "Starting research..." timestamp]>
          (store s))
       (threads s ++ [(report_id, JStr address)])%list).

(** The answer of [report_status] for a record that is found. *)
Definition status_response (report : dict) : json :=
  let agent_details := dict_get_or "agent_details" (JObj []) report in
  JObj [("success", JBool true);
        ("status", dict_get_or "status" (JStr "unknown") report);
        ("progress", dict_get_or "progress" (JInt 0) report);
        ("message", dict_get_or "message" (JStr "") report);
        ("complete",
           JBool (PyObj.is_str "complete" (dict_get_or "status" JNull report)));
        ("agent_details", agent_details);
        ("error_details", dict_get_or "error_details" JNull report);
        ("can_retry", dict_get_or "can_retry" (JBool false) report);
        ("retry_after", dict_get_or "retry_after" (JInt 0) report)].

(** [report_status]. *)
Definition report_status (report_id : string) (s : server) : json :=
  match store s !! report_id with
  | None =>
      JObj [("success", JBool false); ("message", JStr "Report not found")]
  | Some report => status_response report
  end.

(** [clear_report]. *)
Definition clear_report (report_id : string) (s : server) : json * server :=
  match store s !! report_id with
  | Some _ =>
      (JObj [("success", JBool true); ("message", JStr "Report cleared")],
       Server (delete report_id (store s)) (threads s))
  | None =>
      (JObj [("success", JBool false); ("message", JStr "Report not found")],
       s)
  end.

(** [retry_report]. *)
Definition retry_report (timestamp report_id : string) (s : server)
  : json * server :=
  match store s !! report_id with
  | None =>
      (JObj [("success", JBool false); ("message", JStr "Report not found")],
       s)
  | Some report =>
      let address := dict_get_or "address" (JStr "") report in
      if negb (PyObj.truthy address) then
        (JObj [("success", JBool false);
               ("message", JStr "Address not found in report data")],
         s)
      else
        (JObj [("success", JBool true);
               ("report_id", JStr report_id);
               ("message", JStr "Report generation restarted")],
         Server
           (<[report_id :=
                fresh_report address "Restarting report generation..."
                  timestamp]> (store s))
           (threads s ++ [(report_id, address)])%list)
  end.

(** The world in which a background thread starts on the store [st]. *)
Definition start (st : gmap string dict) : world := World st [] [].

(** What a poll of [report_id] shows in each state that the store goes
    through during a run that starts on [st], the state at the start
    included. *)
Definition polls (report_id : string) (st : gmap string dict) (w : world)
  : list json :=
  List.map (fun st' => report_status report_id (Server st' []))
    (st :: writes w).

(** ** [AgentOrchestrator.execute_workflow] (agents/base_agent_improved.py) *)

Module Orchestrator.

(** One step of a workflow: [step.get('agent_id')] and
    [step.get('parameters', {})]. *)
Record step : Type := Step {
  agent_id : option string;
  parameters : dict
}.

(** A registered agent: its [process], from a dict to a dict. *)
Abbreviation agent := (dict -> result dict).

Section Workflow.

(** [self.agents]. *)
Variable agents : gmap string agent.

(** [len(str(d))] for a dict [d]. *)
Variable repr_len : dict -> Z.

(** The body of the [for] loop for one step, after which the loop goes
    on with the new [current_data] and one more entry in
    [results['workflow_steps']]. *)
Definition run_step (s : step) (current_data : dict) (calls : list string)
  : result (dict * json) * list string :=
  match agent_id s with
  | None => (Raise (Exn "ValueError" "Invalid agent ID: None"), calls)
  | Some id =>
      if negb (PyStr.truthy id) then
        (Raise (Exn "ValueError" ("Invalid agent ID: " ++ id)), calls)
      else
        match agents !! id with
        | None => (Raise (Exn "ValueError" ("Invalid agent ID: " ++ id)), calls)
        | Some process =>
            let input_data := dict_merge current_data (parameters s) in
            match process input_data with
            | Raise e => (Raise e, (calls ++ [id])%list)
            | Ok step_result =>
                (Ok (step_result,
                     JObj [("agent_id", JStr id);
                           ("input_size", JInt (repr_len input_data));
                           ("output_size", JInt (repr_len step_result));
                           ("status", JStr "success")]),
                 (calls ++ [id])%list)
            end
        end
  end.

(** [results['workflow_steps'][-1]] marked as failed, when there is a
    last entry. *)
Fixpoint mark_last (e : exn) (steps : list json) : list json :=
  match steps with
  | [] => []
  | [JObj info] =>
      [JObj (dict_set "error" (JStr (exn_str e))
               (dict_set "status" (JStr "error") info))]
  | info :: rest => info :: mark_last e rest
  end.

(** The [for step in workflow] loop inside its [try], with the [except]
    clause: the final [results] and the agents entered. *)
Fixpoint run_steps (workflow : list step) (current_data : dict)
    (steps : list json) (calls : list string) : json * list string :=
  match workflow with
  | [] =>
      (JObj [("workflow_steps", JArr steps);
             ("final_result", JObj current_data);
             ("status", JStr "complete")], calls)
  | s :: rest =>
      match run_step s current_data calls with
      | (Ok (step_result, step_info), calls') =>
          run_steps rest step_result (steps ++ [step_info])%list calls'
      | (Raise e, calls') =>
          (JObj [("workflow_steps", JArr (mark_last e steps));
                 ("final_result", JNull);
                 ("status", JStr "error");
                 ("error", JStr (exn_str e))], calls')
      end
  end.

Definition execute_workflow (workflow : list step) (initial_data : dict)
  : json * list string :=
  run_steps workflow initial_data [] [].

End Workflow.

End Orchestrator.

(** ** Vocabulary of the statements *)

(** The language of a regular expression: the texts that it matches as
    a whole. *)
Inductive lang : Re.re -> string -> Prop :=
  | lang_cls (p : ascii -> bool) (a : ascii) :
      p a = true -> lang (Re.Cls p) (String a "")
  | lang_seq (r1 r2 : Re.re) (s1 s2 : string) :
      lang r1 s1 -> lang r2 s2 -> lang (Re.Seq r1 r2) (s1 ++ s2)
  | lang_opt_absent (r : Re.re) : lang (Re.Opt r) ""
  | lang_opt_present (r : Re.re) (s : string) :
      lang r s -> lang (Re.Opt r) s.

(** Some part of [text] is matched by [r]. *)
Definition occurs (r : Re.re) (text : string) : Prop :=
  exists pre m post, text = pre ++ m ++ post /\ lang r m.

(** [region] is the part of [text] that starts at the first [o] and ends
    at the last [c], both included. *)
Definition delimited (o c : ascii) (text region : string) : Prop :=
  exists pre mid post,
    text = pre ++ String o (mid ++ String c post)
    /\ PyStr.contains o pre = false
    /\ PyStr.contains c post = false
    /\ region = String o (mid ++ String c "").

(** The world of a background run in which [reports] holds the record
    [r] under [report_id] next to the records of [st], after the record
    went through the states [rs] and the agents [cs] were entered. *)
Definition at_record (st : gmap string dict) (report_id : string)
    (r : dict) (rs : list dict) (cs : list string) : world :=
  World (<[report_id := r]> st)
        (List.map (fun r' => <[report_id := r']> st) rs) cs.

(** The four stages in the order of [process_report]. *)
Definition stage_order : list string :=
  ["research"; "evaluation"; "accessor"; "report_generator"].

(** The stages as a chain: each one is fed from the results before it,
    and the chain ends at the first stage that raises. *)
Inductive pipeline_outcome : Type :=
  | Failed (stage : string) (e : exn)
  | Succeeded (approved_data report_result : json).

Definition pipeline
    (research_agent evaluation_agent accessor_agent report_agent
       : json -> result json)
    (address : string) : pipeline_outcome :=
  match research_agent (JObj [("address", JStr address)]) with
  | Raise e => Failed "research" e
  | Ok property_data =>
      match evaluation_agent property_data with
      | Raise e => Failed "evaluation" e
      | Ok evaluation_results =>
          match accessor_agent
                  (JObj [("address", JStr address);
                         ("property_data", property_data);
                         ("evaluation_results", evaluation_results)]) with
          | Raise e => Failed "accessor" e
          | Ok approved_data =>
              match report_agent approved_data with
              | Raise e => Failed "report_generator" e
              | Ok report_result => Succeeded approved_data report_result
              end
          end
      end
  end.

(** The stages up to and including [stage]. *)
Fixpoint through (stage : string) (stages : list string) : list string :=
  match stages with
  | [] => []
  | s :: rest => if String.eqb s stage then [s] else s :: through stage rest
  end.

(** The stages that a chain with this outcome has entered. *)
Definition entered (o : pipeline_outcome) : list string :=
  match o with
  | Failed stage _ => through stage stage_order
  | Succeeded _ _ => stage_order
  end.

(** What a record shows. *)
Definition status_of (r : dict) : string :=
  match dict_get_or "status" (JStr "unknown") r with JStr s => s | _ => "" end.

Definition progress_of (r : dict) : Z :=
  match dict_get_or "progress" (JInt 0) r with JInt n => n | _ => 0 end.

Definition terminal (status : string) : bool :=
  String.eqb status "complete" || String.eqb status "error".

Definition has_result (r : dict) : bool :=
  dict_has "html" r || dict_has "content" r || dict_has "data" r.

Definition has_error (r : dict) : bool := dict_has "error_details" r.

(** Checks on the states that a record goes through: the progress never
    goes down and stays within 100; a terminal status, once reached,
    stays; no state has a result and an error. *)
Fixpoint progress_checked (low : Z) (rs : list dict) : bool :=
  match rs with
  | [] => true
  | r :: rs' =>
      (low <=? progress_of r) && (progress_of r <=? 100)
      && progress_checked (progress_of r) rs'
  end.

Fixpoint status_settled (rs : list dict) : bool :=
  match rs with
  | [] => true
  | r :: rs' =>
      (if terminal (status_of r)
       then forallb (fun r' => String.eqb (status_of r') (status_of r)) rs'
       else true)
      && status_settled rs'
  end.

Definition exclusive (rs : list dict) : bool :=
  forallb (fun r => negb (has_result r && has_error r)) rs.

(** What the final record shows, by the outcome of the chain. *)
Definition final_record (o : pipeline_outcome) (rf : dict) : Prop :=
  match o with
  | Failed stage e =>
      status_of rf = "error"
      /\ has_result rf = false
      /\ has_error rf = true
      /\ field "agent" (dict_get_or "error_details" JNull rf)
         = Some (JStr stage)
      /\ field "error" (dict_get_or "error_details" JNull rf)
         = Some (JStr (exn_str e))
  | Succeeded approved_data report_result =>
      status_of rf = "complete"
      /\ progress_of rf = 100
      /\ has_error rf = false
      /\ dict_get "data" rf = Some approved_data
      /\ dict_get "html" rf = field "report_html" report_result
      /\ dict_get "content" rf = field "report_content" report_result
  end.

(** [steps report_id m r c r' news names]: from any world in which the
    record of [report_id] is [r], the statement [m] ends as [c] with
    the record [r'], after the record went through the states [news]
    and the agents [names] were entered. *)
Definition steps {A : Type} (report_id : string) (m : M A) (r : dict)
    (c : ctl A) (r' : dict) (news : list dict) (names : list string) : Prop :=
  forall st rs cs,
    m (at_record st report_id r rs cs)
    = (c, at_record st report_id r' (rs ++ news)%list (cs ++ names)%list).

(** How a statement goes on after its first part ended as [c1]. *)
Definition continues {A B : Type} (report_id : string) (k : A -> M B)
    (c1 : ctl A) (r1 : dict) (c : ctl B) (r2 : dict)
    (news : list dict) (names : list string) : Prop :=
  match c1 with
  | Normal a => steps report_id (k a) r1 c r2 news names
  | Throw e => c = Throw e /\ r2 = r1 /\ news = [] /\ names = []
  | Return => c = Return /\ r2 = r1 /\ news = [] /\ names = []
  end.

(** How a [try] goes on after its body ended as [c1]. *)
Definition handled {A : Type} (report_id : string) (handler : exn -> M A)
    (c1 : ctl A) (r1 : dict) (c : ctl A) (r2 : dict)
    (news : list dict) (names : list string) : Prop :=
  match c1 with
  | Throw e => steps report_id (handler e) r1 c r2 news names
  | _ => c = c1 /\ r2 = r1 /\ news = [] /\ names = []
  end.

(** What a poll shows. *)
Definition poll_status (poll : json) : string :=
  match field "status" poll with Some (JStr s) => s | _ => "" end.

Definition poll_progress (poll : json) : Z :=
  match field "progress" poll with Some (JInt n) => n | _ => 0 end.

(** ** Sample inputs *)


(** Agents that succeed with a small payload, and one that fails. *)
Definition sample_agent (tag : string) (input : json) : result json :=
  Ok (JObj [("address", JStr "10 Downing Street"); ("stage", JStr tag)]).

Definition failing_agent (msg : string) (input : json) : result json :=
  Raise (Exn "Exception" msg).

(** A background run with the sample agents on the store [st]. *)
Definition sample_run (evaluation : json -> result json)
    (report_id : string) (st : gmap string dict) : result unit * world :=
  process_report (sample_agent "research") evaluation
    (sample_agent "accessor") (fun _ => Ok (JObj []))
    (fun _ => Ok "<html></html>") (FFinite 0) (fun _ => "Traceback")
    "November 04, 2026" report_id "10 Downing Street" (start st).

(** The server after one accepted submission. *)
Definition submitted : server :=
  snd (generate_report (Some "sk-test") "job-1" "2026-11-04T12:00:00"
         "10 Downing Street" (Server ∅ [])).

(** The server once the background run of that submission has ended
    with every stage succeeding. *)
Definition completed : server :=
  Server
    (reports (snd (sample_run (sample_agent "evaluation") "job-1"
                     (store submitted))))
    (threads submitted).

(** *** The routes that serve a report, and the key check *)

(** What a route answers with: a JSON body, a rendered template with
    the values passed to it, or a file sent as an attachment. *)
Inductive response : Type :=
  | Jsonify (body : json)
  | RenderTemplate (template : string) (context : dict)
  | SendFile (path download_name : string).

(** What an f-string inserts for a value: a string as it is, any other
    value as [repr] writes it. *)
Definition format_value (repr : json -> string) (v : json) : string :=
  match v with
  | JStr s => s
  | _ => repr v
  end.

(** [report.get('status') != 'complete']. *)
Definition not_complete (report : dict) : bool :=
  negb (PyObj.is_str "complete" (dict_get_or "status" JNull report)).

(** The message of both routes for a report that is not complete. *)
Definition not_ready (repr : json -> string) (report : dict) : string :=
  "Report is not ready yet. Status: "
  ++ format_value repr (dict_get_or "status" (JStr "processing") report).

(** [view_report]. *)
Definition view_report (repr : json -> string) (report_id : string)
    (s : server) : response :=
  match store s !! report_id with
  | None => RenderTemplate "error.html" [("message", JStr "Report not found")]
  | Some report =>
      if not_complete report then
        RenderTemplate "error.html"
          [("message", JStr (not_ready repr report));
           ("details", dict_get_or "error_details" JNull report)]
      else RenderTemplate "report.html" [("report", JObj report)]
  end.

(** [export_pdf].  [pdf_file] stands for the body of its [try] up to
    [send_file]: from the content of the report to the path of the
    file that was written, or to the exception raised on the way. *)
Definition export_pdf (repr : json -> string)
    (pdf_file : json -> result string) (report_id : string) (s : server)
  : response :=
  match store s !! report_id with
  | None =>
      Jsonify (JObj [("success", JBool false);
                     ("message", JStr "Report not found")])
  | Some report =>
      if not_complete report then
        Jsonify (JObj [("success", JBool false);
                       ("message", JStr (not_ready repr report))])
      else
        match pdf_file (dict_get_or "content" (JObj []) report) with
        | Ok path =>
            SendFile path
              ("Property_Valuation_" ++ PyStr.slice report_id 0 8 ++ ".pdf")
        | Raise e =>
            Jsonify (JObj [("success", JBool false);
                           ("message",
                              JStr ("Error exporting PDF: " ++ exn_str e))])
        end
  end.

(** [api_key_status]. *)
Definition api_key_status (api_key : option string) : json :=
  JObj [("configured", JBool (key_configured api_key));
        ("message",
           JStr (if key_configured api_key
                 then "OpenAI API key is configured"
                 else "OpenAI API key is not configured"))].

(** Whether a route has served the report itself. *)
Definition serves_report (r : response) : bool :=
  match r with
  | RenderTemplate template _ => String.eqb template "report.html"
  | SendFile _ _ => true
  | Jsonify _ => false
  end.

(** What a poll shows of the retry hint. *)
Definition poll_field (key : string) (poll : json) : json :=
  match field key poll with Some v => v | None => JNull end.

(** Whether the message of an exception mentions a rate limit, as
    [handle_agent_error] tests it. *)
Definition mentions_rate_limit (e : exn) : bool :=
  PyText.infix "rate limit" (PyText.lower (exn_str e)).

(** ** [AgentCommunicationBus] (agents/base_agent.py) *)

Module Bus.

(** [self.message_queue]: the messages waiting for each agent, oldest
    first.  A message is the dict that [send_message] builds. *)
Abbreviation message_queue := (gmap string (list json)).

(** [send_message]; [now] is the value of [time.time()]. *)
Definition send_message (now : pyfloat) (from_agent to_agent : string)
    (message : json) (q : message_queue) : message_queue :=
  let q :=
    match q !! to_agent with
    | Some _ => q
    | None => <[to_agent := []]> q
    end in
  <[to_agent :=
      (default [] (q !! to_agent)
       ++ [JObj [("from", JStr from_agent);
                 ("content", message);
                 ("timestamp", JFloat now)]])%list]> q.

(** [get_messages]: the messages returned and the queue left. *)
Definition get_messages (agent_name : string) (q : message_queue)
  : list json * message_queue :=
  let messages := default [] (q !! agent_name) in
  (messages, <[agent_name := []]> q).

(** [has_messages]. *)
Definition has_messages (agent_name : string) (q : message_queue) : bool :=
  match q !! agent_name with
  | Some messages => (0 <? List.length messages)%nat
  | None => false
  end.

End Bus.

(** One call of [send_message] with its arguments. *)
Record sending : Type := Sending {
  sent_at : pyfloat;
  sender : string;
  recipient : string;
  payload : json
}.

(** The calls of [send_message] in [sendings], first to last. *)
Definition send_all (sendings : list sending) (q : Bus.message_queue)
  : Bus.message_queue :=
  fold_left
    (fun q m => Bus.send_message (sent_at m) (sender m) (recipient m) (payload m) q)
    sendings q.

(** The queue entry that a sending leaves. *)
Definition delivered (m : sending) : json :=
  JObj [("from", JStr (sender m)); ("content", payload m);
        ("timestamp", JFloat (sent_at m))].

(** The sendings addressed to [agent_name]. *)
Definition addressed_to (agent_name : string) (sendings : list sending)
  : list sending :=
  List.filter (fun m => String.eqb (recipient m) agent_name) sendings.

(** ** [register_agent] and [get_agent] (agents/base_agent_improved.py) *)

Definition register_agent (agent_id : string) (agent : Orchestrator.agent)
    (agents : gmap string Orchestrator.agent)
  : gmap string Orchestrator.agent :=
  <[agent_id := agent]> agents.

Definition get_agent (agent_id : string)
    (agents : gmap string Orchestrator.agent) : option Orchestrator.agent :=
  agents !! agent_id.

(** The entry of [workflow_steps] for a step that succeeded. *)
Definition succeeded_as (id : string) (info : json) : Prop :=
  field "agent_id" info = Some (JStr id)
  /\ field "status" info = Some (JStr "success")
  /\ field "error" info = None.

(** The same entry once the [except] clause has marked it. *)
Definition blamed_as (id : string) (e : exn) (info : json) : Prop :=
  field "agent_id" info = Some (JStr id)
  /\ field "status" info = Some (JStr "error")
  /\ field "error" info = Some (JStr (exn_str e)).

(** ** Vocabulary for the retry loops *)

(** The body that a request delivers to [call_openai_api] of
    agents/base_agent.py: that of a response with status 200 whose
    body decodes. *)
Definition answer (o : Base.post_outcome) : option json :=
  match o with
  | Base.Response status_code (Ok j) =>
      if status_code =? 200 then Some j else None
  | _ => None
  end.

(** The errors that [call_openai_api] of agents/base_agent_improved.py
    retries. *)
Definition retryable (o : Improved.create_outcome) : bool :=
  match o with
  | Improved.RateLimitError _ | Improved.APIError _ => true
  | _ => false
  end.

(** The seconds slept in a trace, in order. *)
Definition slept (trace : list event) : list Q :=
  omap (fun e => match e with Sleep s => Some s | Request => None end) trace.

(** A service that answers every request with status 429. *)
Definition always_rate_limited (n : nat) : Base.post_outcome :=
  Base.Response 429 (Raise JSONDecodeError).

(** Two registered agents, one that tags its input and one that
    raises, and the number of fields for [len(str(d))]. *)
Definition sample_agents : gmap string Orchestrator.agent :=
  register_agent "tag" (fun d => Ok (dict_set "tagged" (JBool true) d))
    (register_agent "fail" (fun _ => Raise (Exn "Exception" "boom")) ∅).

Definition sample_size (d : dict) : Z := Z.of_nat (List.length d).

(** ** The agents of the pipeline (agents/base_agent.py and its subclasses) *)

(** More dynamic operations on decoded values. *)

(** [v.get(key, default)]: only a dict has the method. *)
Definition get_method (key : string) (default : json) (v : json)
  : result json :=
  match v with
  | JObj d => Ok (dict_get_or key default d)
  | _ => Raise AttributeError
  end.

Definition IndexError : exn := Exn "IndexError" "".

(** [v[0]]. *)
Definition getitem_0 (v : json) : result json :=
  match v with
  | JArr (x :: _) => Ok x
  | JArr [] => Raise IndexError
  | JStr (String a _) => Ok (JStr (String a ""))
  | JStr EmptyString => Raise IndexError
  | JObj _ => Raise (Exn "KeyError" "0")
  | _ => Raise TypeError
  end.

(** [response['choices'][0]['message']['content']]. *)
Definition message_content (response : json) : result json :=
  match PyObj.getitem "choices" response with
  | Raise e => Raise e
  | Ok choices =>
      match getitem_0 choices with
      | Raise e => Raise e
      | Ok choice =>
          match PyObj.getitem "message" choice with
          | Raise e => Raise e
          | Ok message => PyObj.getitem "content" message
          end
      end
  end.

(** [o in message and c in message], for a reply of any type. *)
Definition has_both (o c : ascii) (message : json) : result bool :=
  match PyObj.contains (String o "") message with
  | Raise e => Raise e
  | Ok false => Ok false
  | Ok true => PyObj.contains (String c "") message
  end.

(** [json.loads(message[message.find(o):message.rfind(c)+1])]: only a
    string has [find]. *)
Definition decoded (json_loads : string -> option json) (o c : ascii)
    (message : json) : result json :=
  match message with
  | JStr text => loads json_loads (extract_json o c text)
  | _ => Raise AttributeError
  end.

(** The block that every method of the agents ends with, from
    [# Parse the JSON response]:
    [try: if o in m and c in m: return json.loads(...) else: return no_json
     except Exception: return failed]. *)
Definition reply_block (json_loads : string -> option json) (o c : ascii)
    (assistant_message : json) (no_json : result json) (failed : json)
  : result json :=
  try_except
    (match has_both o c assistant_message with
     | Raise e => Raise e
     | Ok true => decoded json_loads o c assistant_message
     | Ok false => no_json
     end)
    (fun _ => Ok failed).

(** What an agent holds while it works: [self.conversation_history],
    and a ghost log of the requests and sleeps of its calls so far. *)
Record agent_state : Type := AgentState {
  conversation_history : list json;
  events : list event
}.

(** A method of an agent: from the state to a value or an exception,
    and the state it leaves. *)
Definition Agent (A : Type) : Type := agent_state -> result A * agent_state.

Definition agent_ret {A : Type} (a : A) : Agent A := fun st => (Ok a, st).

Definition agent_bind {A B : Type} (m : Agent A) (k : A -> Agent B)
  : Agent B :=
  fun st =>
    match m st with
    | (Ok a, st') => k a st'
    | (Raise e, st') => (Raise e, st')
    end.

#[global] Instance Agent_ret : MRet Agent := @agent_ret.
#[global] Instance Agent_bind : MBind Agent := fun A B k m => agent_bind m k.

(** An expression that may raise, and the [raise] statement. *)
Definition evaluate {A : Type} (r : result A) : Agent A := fun st => (r, st).

Definition raise {A : Type} (e : exn) : Agent A := fun st => (Raise e, st).

(** *** [BaseAgent] *)

Module BaseAgent.

(** [self.max_retries] and [self.retry_delay] as [__init__] sets them. *)
Definition max_retries : Z := 3.
Definition retry_delay : Z := 2.

Definition add_to_conversation (role : string) (content : json)
  : Agent unit :=
  fun st =>
    (Ok tt,
     AgentState
       (conversation_history st
        ++ [JObj [("role", JStr role); ("content", content)]])%list
       (events st)).

Definition clear_conversation_history : Agent unit :=
  fun st => (Ok tt, AgentState [] (events st)).

Definition initialize_conversation (system_prompt : string) : Agent unit :=
  clear_conversation_history ;;
  add_to_conversation "system" (JStr system_prompt).

Section Call.

Variable agent_name : string.

(** [self.api_key]. *)
Variable api_key : option string.

(** The service: the outcome of the [n]-th request that the agent has
    sent, counting from 0. *)
Variable post : nat -> Base.post_outcome.

(** [call_openai_api] after the events [trace]: the requests go on
    from the number sent so far. *)
Definition call_after (trace : list event) : call_outcome * list event :=
  match api_key with
  | None | Some EmptyString =>
      (Raised (Exn "ValueError"
         ("OpenAI API key not found for " ++ agent_name
          ++ ". Please add it to your .env file.")), trace)
  | Some _ =>
      Base.for_attempts max_retries retry_delay post
        (Base.range max_retries) (requests trace) trace
  end.

(** [self.call_openai_api(self.get_conversation_history(),
    temperature=..., max_tokens=...)].  The service is given by
    [post], whatever is sent to it.  The loop of this class ends in
    neither of the last two ways. *)
Definition call_openai_api (temperature : Q) (max_tokens : Z) : Agent json :=
  fun st =>
    let (outcome, trace) := call_after (events st) in
    (match outcome with
     | Returned response => Ok response
     | Raised e => Raise e
     | ReturnedNone => Ok JNull
     | OutOfFuel => Raise (Exn "RecursionError" "")
     end, AgentState (conversation_history st) trace).

(** The four statements that every method has before its parsing
    block: the prompt is added to the conversation, the service is
    called, and the content of its answer is added to the conversation
    and handed on. *)
Definition exchange (prompt : string) (temperature : Q) (max_tokens : Z)
  : Agent json :=
  add_to_conversation "user" (JStr prompt) ;;
  response ← call_openai_api temperature max_tokens;
  assistant_message ← evaluate (message_content response);
  add_to_conversation "assistant" assistant_message ;;
  agent_ret assistant_message.

End Call.

End BaseAgent.

(** *** [AccessorAgent] (agents/openai_accessor_agent.py) *)

Module AccessorAgent.

Section Methods.

Variable api_key : option string.
Variable post : nat -> Base.post_outcome.
Variable json_loads : string -> option json.

(** The text of the prompt of a method, from the values that its
    f-string inserts; [get_system_prompt()]; [time.time()] at the end
    of [process]. *)
Variable user_prompt : string -> list json -> string.
Variable system_prompt : string.
Variable approval_timestamp : pyfloat.

#[local] Abbreviation exchange :=
  (BaseAgent.exchange "Accessor Agent" api_key post).

(** The parsing block of the nine reviews: the decoded reply, or the
    value under review as it came. *)
Definition reviewed (o c : ascii) (original assistant_message : json)
  : result json :=
  reply_block json_loads o c assistant_message (Ok original) original.

Definition _review_property_details (property_details address : json)
  : Agent json :=
  assistant_message ←
    exchange (user_prompt "_review_property_details"
                [address; property_details]) (3 # 10) 800;
  evaluate (reviewed "{" "}" property_details assistant_message).

Definition _review_market_data (market_data local_area_info : json)
  : Agent json :=
  assistant_message ←
    exchange (user_prompt "_review_market_data"
                [market_data; local_area_info]) (3 # 10) 800;
  evaluate (reviewed "{" "}" market_data assistant_message).

Definition _review_valuation (valuation property_details market_data : json)
  : Agent json :=
  assistant_message ←
    exchange (user_prompt "_review_valuation"
                [valuation; property_details; market_data]) (3 # 10) 800;
  evaluate (reviewed "{" "}" valuation assistant_message).

Definition _review_development_scenarios (scenarios valuation : json)
  : Agent json :=
  assistant_message ←
    exchange (user_prompt "_review_development_scenarios"
                [scenarios; valuation]) (3 # 10) 1000;
  evaluate (reviewed "[" "]" scenarios assistant_message).

Definition _review_rental_analysis
    (rental_analysis valuation market_data : json) : Agent json :=
  assistant_message ←
    exchange (user_prompt "_review_rental_analysis"
                [rental_analysis; valuation; market_data]) (3 # 10) 1000;
  evaluate (reviewed "{" "}" rental_analysis assistant_message).

Definition _review_planning_assessment
    (planning_assessment planning_history : json) : Agent json :=
  assistant_message ←
    exchange (user_prompt "_review_planning_assessment"
                [planning_assessment; planning_history]) (3 # 10) 800;
  evaluate (reviewed "{" "}" planning_assessment assistant_message).

Definition _review_risk_assessment
    (risk_assessment property_data evaluation_results : json) : Agent json :=
  assistant_message ←
    exchange (user_prompt "_review_risk_assessment" [risk_assessment])
      (3 # 10) 800;
  evaluate (reviewed "{" "}" risk_assessment assistant_message).

(** [validated_data] is the local dict of [process], with the entries
    made so far. *)
Definition _review_executive_summary (executive_summary : json)
    (validated_data : dict) : Agent json :=
  assistant_message ←
    exchange (user_prompt "_review_executive_summary"
                [executive_summary;
                 dict_get_or "current_valuation" (JObj []) validated_data;
                 dict_get_or "development_scenarios" (JArr []) validated_data;
                 dict_get_or "rental_analysis" (JObj []) validated_data])
      (3 # 10) 800;
  evaluate (reviewed "{" "}" executive_summary assistant_message).

Definition _review_conclusion (conclusion : json) (validated_data : dict)
  : Agent json :=
  assistant_message ←
    exchange (user_prompt "_review_conclusion"
                [conclusion;
                 dict_get_or "current_valuation" (JObj []) validated_data;
                 dict_get_or "rental_analysis" (JObj []) validated_data])
      (3 # 10) 800;
  evaluate (reviewed "{" "}" conclusion assistant_message).

Definition process (input_data : json) : Agent json :=
  has_address ← evaluate (PyObj.contains "address" input_data);
  if negb has_address then
    raise (Exn "ValueError" "Input data must include an address")
  else
    address ← evaluate (get_method "address" (JStr "") input_data);
    BaseAgent.initialize_conversation system_prompt ;;
    property_data ← evaluate (get_method "property_data" (JObj []) input_data);
    evaluation_results ←
      evaluate (get_method "evaluation_results" (JObj []) input_data);
    let validated_data : dict := [] in
    a1 ← evaluate (get_method "property_details" (JObj []) property_data);
    a2 ← evaluate (get_method "address" (JStr "") property_data);
    v ← _review_property_details a1 a2;
    let validated_data := dict_set "property_details" v validated_data in
    a1 ← evaluate (get_method "market_data" (JObj []) property_data);
    a2 ← evaluate (get_method "local_area_info" (JObj []) property_data);
    v ← _review_market_data a1 a2;
    let validated_data := dict_set "market_data" v validated_data in
    a0 ← evaluate (get_method "property_appraisal" (JObj []) evaluation_results);
    a1 ← evaluate (get_method "current_valuation" (JObj []) a0);
    a2 ← evaluate (get_method "property_details" (JObj []) property_data);
    a3 ← evaluate (get_method "market_data" (JObj []) property_data);
    v ← _review_valuation a1 a2 a3;
    let validated_data := dict_set "current_valuation" v validated_data in
    a0 ← evaluate (get_method "feasibility_study" (JObj []) evaluation_results);
    a1 ← evaluate (get_method "development_scenarios" (JArr []) a0);
    a2 ← evaluate (PyObj.getitem "current_valuation" (JObj validated_data));
    v ← _review_development_scenarios a1 a2;
    let validated_data := dict_set "development_scenarios" v validated_data in
    a0 ← evaluate (get_method "feasibility_study" (JObj []) evaluation_results);
    a1 ← evaluate (get_method "rental_analysis" (JObj []) a0);
    a2 ← evaluate (PyObj.getitem "current_valuation" (JObj validated_data));
    a3 ← evaluate (get_method "market_data" (JObj []) property_data);
    v ← _review_rental_analysis a1 a2 a3;
    let validated_data := dict_set "rental_analysis" v validated_data in
    a1 ← evaluate (get_method "planning_analysis" (JObj []) evaluation_results);
    a2 ← evaluate (get_method "planning_history" (JObj []) property_data);
    v ← _review_planning_assessment a1 a2;
    let validated_data := dict_set "planning_analysis" v validated_data in
    a1 ← evaluate (get_method "risk_assessment" (JObj []) evaluation_results);
    v ← _review_risk_assessment a1 property_data evaluation_results;
    let validated_data := dict_set "risk_assessment" v validated_data in
    a1 ← evaluate (get_method "executive_summary" (JObj []) evaluation_results);
    v ← _review_executive_summary a1 validated_data;
    let validated_data := dict_set "executive_summary" v validated_data in
    a1 ← evaluate (get_method "conclusion" (JObj []) evaluation_results);
    v ← _review_conclusion a1 validated_data;
    let validated_data := dict_set "conclusion" v validated_data in
    executive_summary ←
      evaluate (PyObj.getitem "executive_summary" (JObj validated_data));
    property_details ←
      evaluate (PyObj.getitem "property_details" (JObj validated_data));
    current_valuation ←
      evaluate (PyObj.getitem "current_valuation" (JObj validated_data));
    a0 ← evaluate (get_method "property_appraisal" (JObj []) evaluation_results);
    comparable_analysis ←
      evaluate (get_method "comparable_analysis" (JObj []) a0);
    development_scenarios ←
      evaluate (PyObj.getitem "development_scenarios" (JObj validated_data));
    rental_analysis ←
      evaluate (PyObj.getitem "rental_analysis" (JObj validated_data));
    planning_analysis ←
      evaluate (PyObj.getitem "planning_analysis" (JObj validated_data));
    risk_assessment ←
      evaluate (PyObj.getitem "risk_assessment" (JObj validated_data));
    market_data ←
      evaluate (PyObj.getitem "market_data" (JObj validated_data));
    local_area_info ←
      evaluate (get_method "local_area_info" (JObj []) property_data);
    conclusion ← evaluate (PyObj.getitem "conclusion" (JObj validated_data));
    agent_ret
      (JObj [("address", address);
             ("executive_summary", executive_summary);
             ("property_appraisal",
                JObj [("property_details", property_details);
                      ("current_valuation", current_valuation);
                      ("comparable_analysis", comparable_analysis)]);
             ("feasibility_study",
                JObj [("development_scenarios", development_scenarios);
                      ("rental_analysis", rental_analysis)]);
             ("planning_analysis", planning_analysis);
             ("risk_assessment", risk_assessment);
             ("local_market_analysis",
                JObj [("market_data", market_data);
                      ("local_area_info", local_area_info)]);
             ("conclusion", conclusion);
             ("approval_timestamp", JFloat approval_timestamp);
             ("approval_status", JStr "Approved")]).

End Methods.

End AccessorAgent.

(** *** [ResearchAgent] (agents/openai_research_agent.py) *)

Module ResearchAgent.

(** [self.sources]. *)
Definition sources : json :=
  JArr [JStr "Land Registry";
        JStr "Valuation Office Agency (VOA)";
        JStr "Local council records";
        JStr "Rightmove";
        JStr "Zoopla";
        JStr "OpenStreetMap"].

(** The values that the parsing blocks fall back on: [_no_json] when
    the reply has no delimiters, [_failed] when the block raised.  Those
    of [_parse_address] and [_get_property_details] for a string
    address are [parse_address_no_json], [property_details_no_json] and
    [property_details_failed] above. *)

Definition address_failed (address : json) : json :=
  JObj [("full_address", address);
        ("postcode", JStr "");
        ("city", JStr "");
        ("street", JStr "")].

(** [repr] writes [str(v)] for a value that is not a string. *)
Definition search_queries_no_json (repr : json -> string)
    (address postcode : json) : json :=
  JObj [("property_details",
           JArr [JStr (format_value repr address ++ " property details");
                 JStr (format_value repr address
                       ++ " property type bedrooms")]);
        ("market_value",
           JArr [JStr (format_value repr address ++ " property value");
                 JStr (format_value repr postcode ++ " property prices")]);
        ("comparable_properties",
           JArr [JStr ("similar properties to " ++ format_value repr address);
                 JStr (format_value repr postcode
                       ++ " recent property sales")]);
        ("local_area",
           JArr [JStr (format_value repr postcode ++ " amenities transport");
                 JStr (format_value repr address ++ " nearby schools shops")]);
        ("planning_history",
           JArr [JStr (format_value repr address
                       ++ " planning permission history");
                 JStr (format_value repr postcode ++ " development plans")])].

Definition search_queries_failed (repr : json -> string) (address : json)
  : json :=
  JObj [("property_details",
           JArr [JStr (format_value repr address ++ " property details")]);
        ("market_value",
           JArr [JStr (format_value repr address ++ " property value")]);
        ("comparable_properties",
           JArr [JStr (format_value repr address ++ " similar properties")]);
        ("local_area",
           JArr [JStr (format_value repr address ++ " local amenities")]);
        ("planning_history",
           JArr [JStr (format_value repr address ++ " planning history")])].

Definition market_data_no_json : json :=
  JObj [("average_price_per_sqft", JStr (String pound "689"));
        ("price_trend_1yr", JStr "+3.2%");
        ("price_trend_5yr", JStr "+12.8%");
        ("average_rental_yield", JStr "4.5%");
        ("rental_demand", JStr "High");
        ("sales_demand", JStr "Medium");
        ("average_time_on_market", JStr "45 days");
        ("market_sentiment", JStr "Stable")].

Definition market_data_failed : json :=
  JObj [("average_price_per_sqft", JStr "Unknown");
        ("price_trend_1yr", JStr "Unknown");
        ("average_rental_yield", JStr "Unknown");
        ("market_sentiment", JStr "Unknown")].

Definition comparables_no_json : json :=
  JArr [JObj [("address", JStr "12 Sample Street, London, SW1A 2AB");
              ("property_type", JStr "Flat/Maisonette");
              ("bedrooms", JInt 2);
              ("bathrooms", JInt 1);
              ("floor_area", JStr "680 sqft");
              ("sale_price", JStr (String pound "475,000"));
              ("sale_date", JStr "March 2025");
              ("price_per_sqft", JStr (String pound "699"));
              ("distance", JStr "0.3 miles");
              ("comp_rating", JStr "High");
              ("reasoning",
                 JStr "Similar size and property type in the same neighborhood")];
        JObj [("address", JStr "45 Example Road, London, SW1A 2CD");
              ("property_type", JStr "Flat/Maisonette");
              ("bedrooms", JInt 2);
              ("bathrooms", JInt 2);
              ("floor_area", JStr "750 sqft");
              ("sale_price", JStr (String pound "510,000"));
              ("sale_date", JStr "February 2025");
              ("price_per_sqft", JStr (String pound "680"));
              ("distance", JStr "0.5 miles");
              ("comp_rating", JStr "Medium");
              ("reasoning",
                 JStr "Similar property type but with an extra bathroom and slightly larger")];
        JObj [("address", JStr "8 Test Avenue, London, SW1A 2EF");
              ("property_type", JStr "Flat/Maisonette");
              ("bedrooms", JInt 2);
              ("bathrooms", JInt 1);
              ("floor_area", JStr "690 sqft");
              ("sale_price", JStr (String pound "465,000"));
              ("sale_date", JStr "April 2025");
              ("price_per_sqft", JStr (String pound "674"));
              ("distance", JStr "0.4 miles");
              ("comp_rating", JStr "High");
              ("reasoning",
                 JStr "Very similar size and layout in the same area")]].

Definition comparables_failed : json :=
  JArr [JObj [("address", JStr "Nearby property");
              ("property_type", JStr "Unknown");
              ("sale_price", JStr "Unknown");
              ("distance", JStr "Unknown");
              ("comp_rating", JStr "Low")]].

Definition local_area_no_json : json :=
  JObj [("transport",
           JObj [("nearest_station", JStr "Elephant & Castle");
                 ("distance_to_station", JStr "0.3 miles");
                 ("transport_links", JStr "Excellent");
                 ("bus_routes", JStr "12, 45, 171, 176")]);
        ("amenities",
           JObj [("schools",
                    JArr [JObj [("name", JStr "Sample Primary School");
                                ("rating", JStr "Good");
                                ("distance", JStr "0.4 miles")];
                          JObj [("name", JStr "Example Secondary School");
                                ("rating", JStr "Outstanding");
                                ("distance", JStr "0.7 miles")]]);
                 ("shops", JStr "Good variety within 0.5 miles");
                 ("restaurants", JStr "Excellent selection within 0.5 miles");
                 ("parks", JStr "St James Park (0.8 miles)");
                 ("healthcare", JStr "Sample Medical Centre (0.6 miles)")]);
        ("demographics",
           JObj [("population_density", JStr "High");
                 ("average_age", JStr "32");
                 ("employment_rate", JStr "76%");
                 ("crime_rate", JStr "Medium")])].

Definition local_area_failed : json :=
  JObj [("transport",
           JObj [("nearest_station", JStr "Unknown");
                 ("transport_links", JStr "Unknown")]);
        ("amenities",
           JObj [("shops", JStr "Unknown"); ("schools", JArr [])]);
        ("demographics", JObj [("population_density", JStr "Unknown")])].

Definition planning_history_no_json : json :=
  JObj [("property_planning",
           JArr [JObj [("reference", JStr "PLAN/2020/1234");
                       ("description",
                          JStr "Internal alterations and refurbishment");
                       ("status", JStr "Approved");
                       ("decision_date", JStr "March 2020")]]);
        ("area_planning",
           JArr [JObj [("reference", JStr "PLAN/2023/5678");
                       ("description",
                          JStr "New residential development (12 units) on adjacent site");
                       ("status", JStr "Approved");
                       ("decision_date", JStr "November 2023");
                       ("distance", JStr "0.2 miles")];
                 JObj [("reference", JStr "PLAN/2024/9012");
                       ("description",
                          JStr "Commercial to residential conversion");
                       ("status", JStr "Pending");
                       ("submission_date", JStr "February 2024");
                       ("distance", JStr "0.4 miles")]]);
        ("local_development_plans",
           JStr "The area is part of a regeneration zone with planned infrastructure improvements over the next 5 years.")].

Definition planning_history_failed : json :=
  JObj [("property_planning", JArr []);
        ("area_planning", JArr []);
        ("local_development_plans", JStr "No information available")].

Section Methods.

Variable api_key : option string.
Variable post : nat -> Base.post_outcome.
Variable json_loads : string -> option json.
Variable user_prompt : string -> list json -> string.
Variable system_prompt : string.

(** [str(v)] for a value that is not a string, and [time.time()] at
    the end of [process]. *)
Variable repr : json -> string.
Variable research_timestamp : pyfloat.

#[local] Abbreviation exchange :=
  (BaseAgent.exchange "Research Agent" api_key post).

(** [re.search] takes a string only. *)
Definition _parse_address (address : json) : Agent json :=
  assistant_message ←
    exchange (user_prompt "_parse_address" [address]) (1 # 10) 500;
  evaluate
    (reply_block json_loads "{" "}" assistant_message
       (match address with
        | JStr a => Ok (parse_address_no_json a)
        | _ => Raise TypeError
        end)
       (address_failed address)).

Definition _generate_search_queries (address address_parts : json)
  : Agent json :=
  assistant_message ←
    exchange (user_prompt "_generate_search_queries" [address]) (7 # 10) 800;
  evaluate
    (reply_block json_loads "{" "}" assistant_message
       (match get_method "postcode" (JStr "") address_parts with
        | Raise e => Raise e
        | Ok postcode => Ok (search_queries_no_json repr address postcode)
        end)
       (search_queries_failed repr address)).

Definition _get_property_details (address search_queries : json)
  : Agent json :=
  queries ← evaluate (get_method "property_details" (JArr []) search_queries);
  assistant_message ←
    exchange (user_prompt "_get_property_details" [address; queries])
      (7 # 10) 800;
  evaluate
    (reply_block json_loads "{" "}" assistant_message
       (Ok property_details_no_json) property_details_failed).

Definition _get_market_data (address address_parts : json) : Agent json :=
  postcode ← evaluate (get_method "postcode" (JStr "") address_parts);
  city ← evaluate (get_method "city" (JStr "") address_parts);
  assistant_message ←
    exchange (user_prompt "_get_market_data" [address; postcode; city])
      (7 # 10) 800;
  evaluate
    (reply_block json_loads "{" "}" assistant_message
       (Ok market_data_no_json) market_data_failed).

Definition _get_comparable_properties (address address_parts : json)
  : Agent json :=
  postcode ← evaluate (get_method "postcode" (JStr "") address_parts);
  city ← evaluate (get_method "city" (JStr "") address_parts);
  assistant_message ←
    exchange (user_prompt "_get_comparable_properties"
                [address; postcode; city]) (7 # 10) 1200;
  evaluate
    (reply_block json_loads "[" "]" assistant_message
       (Ok comparables_no_json) comparables_failed).

Definition _get_local_area_info (address address_parts : json)
  : Agent json :=
  postcode ← evaluate (get_method "postcode" (JStr "") address_parts);
  city ← evaluate (get_method "city" (JStr "") address_parts);
  assistant_message ←
    exchange (user_prompt "_get_local_area_info" [address; postcode; city])
      (7 # 10) 1200;
  evaluate
    (reply_block json_loads "{" "}" assistant_message
       (Ok local_area_no_json) local_area_failed).

Definition _get_planning_history (address address_parts : json)
  : Agent json :=
  postcode ← evaluate (get_method "postcode" (JStr "") address_parts);
  city ← evaluate (get_method "city" (JStr "") address_parts);
  assistant_message ←
    exchange (user_prompt "_get_planning_history" [address; postcode; city])
      (7 # 10) 1000;
  evaluate
    (reply_block json_loads "{" "}" assistant_message
       (Ok planning_history_no_json) planning_history_failed).

Definition process (input_data : json) : Agent json :=
  address ← evaluate (get_method "address" (JStr "") input_data);
  if negb (PyObj.truthy address) then
    raise (Exn "ValueError" "Address is required for research")
  else
    BaseAgent.initialize_conversation system_prompt ;;
    address_parts ← _parse_address address;
    search_queries ← _generate_search_queries address address_parts;
    property_details ← _get_property_details address search_queries;
    market_data ← _get_market_data address address_parts;
    comparable_properties ← _get_comparable_properties address address_parts;
    local_area_info ← _get_local_area_info address address_parts;
    planning_history ← _get_planning_history address address_parts;
    agent_ret
      (JObj [("address", address);
             ("parsed_address", address_parts);
             ("property_details", property_details);
             ("market_data", market_data);
             ("comparable_properties", comparable_properties);
             ("local_area_info", local_area_info);
             ("planning_history", planning_history);
             ("sources", sources);
             ("confidence", JStr "medium");
             ("research_timestamp", JFloat research_timestamp)]).

End Methods.

End ResearchAgent.

(** ** Vocabulary for the agents *)

(** A service that answers every request with status 200 and a body
    whose first choice carries a message: [reply n] is the content of
    the message that answers the [n]-th request. *)
Definition answered (post : nat -> Base.post_outcome) (reply : nat -> json)
  : Prop :=
  forall n, exists body,
    post n = Base.Response 200 (Ok body)
    /\ message_content body = Ok (reply n).

(** The smallest body with a given content, and the service that
    answers every request with it. *)
Definition completion (content : json) : json :=
  JObj [("choices",
           JArr [JObj [("message", JObj [("content", content)])]])].

Definition answers_with (reply : nat -> json) (n : nat) : Base.post_outcome :=
  Base.Response 200 (Ok (completion (reply n))).

(** A reply in which the parsing blocks find neither an object nor an
    array: a string without braces or without brackets on both sides. *)
Definition prose (message : json) : bool :=
  match message with
  | JStr text =>
      negb (has_delimiters "{" "}" text) && negb (has_delimiters "[" "]" text)
  | _ => false
  end.

(** The value that a review returns; its block never raises. *)
Definition reviewed_value (json_loads : string -> option json) (o c : ascii)
    (original assistant_message : json) : json :=
  match AccessorAgent.reviewed json_loads o c original assistant_message with
  | Ok v => v
  | Raise _ => original
  end.

(** The value that a parsing block returns. *)
Definition block_value (json_loads : string -> option json) (o c : ascii)
    (assistant_message : json) (no_json : result json) (failed : json)
  : json :=
  match reply_block json_loads o c assistant_message no_json failed with
  | Ok v => v
  | Raise _ => failed
  end.

(** The keys of an object, in order. *)
Definition keys (v : json) : list string :=
  match v with
  | JObj d => List.map fst d
  | _ => []
  end.

Definition is_object (v : json) : bool :=
  match v with JObj _ => true | _ => false end.

Definition is_array (v : json) : bool :=
  match v with JArr _ => true | _ => false end.

(** The state of an agent that has not been used. *)
Definition idle : agent_state := AgentState [] [].

(** The roles of the messages of a conversation, in order. *)
Definition roles (history : list json) : list json :=
  List.map (fun m => match field "role" m with Some r => r | None => JNull end)
    history.

(** The conversation of a method run: the system prompt, then a
    question and its answer for each of [n] exchanges. *)
Fixpoint turns (n : nat) : list json :=
  match n with
  | O => []
  | S n' => (JStr "user" :: JStr "assistant" :: turns n')%list
  end.

(** A decoder that, like [json.loads], decides the type of its result
    by the first character of the text: an object for a brace, an array
    for a bracket, and nothing for the empty text. *)
Definition decodes_by_first_character (json_loads : string -> option json)
  : Prop :=
  forall (text : string) (v : json),
    json_loads text = Some v ->
    match text with
    | String "{"%char _ => exists d, v = JObj d
    | String "["%char _ => exists l, v = JArr l
    | EmptyString => False
    | _ => True
    end.

(** ** Sample inputs for the agents *)

(** A prompt that only names its method, and a rendering of values
    that are not strings. *)
Definition sample_prompt (method : string) (values : list json) : string :=
  method.

Definition sample_repr (v : json) : string := "<value>".

(** A service that answers every request with the same sentence. *)
Definition sample_reply (n : nat) : json := JStr "No changes are needed.".

Definition sample_service : nat -> Base.post_outcome :=
  answers_with sample_reply.

(** What [process_report] hands to the accessor, in small. *)
Definition sample_review_input : json :=
  JObj [("address", JStr "10 Downing Street");
        ("property_data",
           JObj [("property_details", JObj [("bedrooms", JInt 2)])]);
        ("evaluation_results",
           JObj [("conclusion", JObj [("summary", JStr "Sound")])])].

(** An evaluation that returns a dict with a conclusion only. *)
Definition sample_evaluation (property_data : json) : result json :=
  Ok (JObj [("conclusion", JObj [("summary", JStr "Sound")])]).

(** ** The agents as stages of the pipeline *)

(** [agent.process] as [process_report] calls it, for an agent that
    has not been used before: the value or the exception. *)
Definition fresh_agent (process : json -> Agent json) (input : json)
  : result json :=
  fst (process input idle).

(** ** Vocabulary for numerals *)

Definition is_digit (c : ascii) : bool :=
  match PyText.digit_val c with
  | Some _ => true
  | None => false
  end.

(** The number that a list of decimal digits writes after the digits
    that gave [acc]. *)
Fixpoint numeral_value (ds : list ascii) (acc : Z) : Z :=
  match ds with
  | [] => acc
  | c :: ds' =>
      numeral_value ds'
        (10 * acc + match PyText.digit_val c with Some d => d | None => 0 end)
  end.

(** The sign of a numeral, as a list of characters. *)
Definition sign_of (n : Z) : list ascii :=
  if n <? 0 then ["-"%char] else [].

(** * Properties *)

(** ** Strings *)

Lemma app_nil_l (b : string) : "" ++ b = b.
Proof. reflexivity. Qed.

Lemma app_cons (x : ascii) (a b : string) :
  String x a ++ b = String x (a ++ b).
Proof. reflexivity. Qed.

Lemma app_nil_r (a : string) : a ++ "" = a.
Proof.
  induction a as [|x a IH]; [reflexivity | now rewrite app_cons, IH].
Qed.

Lemma string_app_assoc (a b c : string) : (a ++ b) ++ c = a ++ (b ++ c).
Proof.
  induction a as [|x a IH]; [reflexivity | now rewrite !app_cons, IH].
Qed.

Lemma string_length_app (a b : string) :
  String.length (a ++ b) = (String.length a + String.length b)%nat.
Proof.
  induction a as [|x a IH]; [reflexivity |].
  rewrite app_cons. simpl. now rewrite IH.
Qed.

Lemma len_app (a b : string) : PyStr.len (a ++ b) = PyStr.len a + PyStr.len b.
Proof. unfold PyStr.len. rewrite string_length_app. lia. Qed.

Lemma len_cons (x : ascii) (a : string) :
  PyStr.len (String x a) = 1 + PyStr.len a.
Proof. unfold PyStr.len. simpl String.length. lia. Qed.

Lemma len_nonneg (a : string) : 0 <= PyStr.len a.
Proof. unfold PyStr.len. lia. Qed.

Lemma substring_all (s t : string) :
  substring 0 (String.length s) (s ++ t) = s.
Proof.
  induction s as [|x s IH]; [now destruct t |].
  rewrite app_cons. simpl. now rewrite IH.
Qed.

Lemma substring_skip (pre s : string) (n : nat) :
  substring (String.length pre) n (pre ++ s) = substring 0 n s.
Proof.
  induction pre as [|x pre IH]; [reflexivity |].
  rewrite app_cons. simpl. exact IH.
Qed.

(** Two ways to cut the same text: the shorter first part is a prefix of
    the longer one. *)
Lemma app_eq_split (p1 : string) :
  forall p2 a b,
    p1 ++ a = p2 ++ b ->
    (String.length p1 < String.length p2)%nat ->
    exists x m, p2 = p1 ++ String x m /\ a = String x m ++ b.
Proof.
  induction p1 as [|y p1 IH]; intros p2 a b E L.
  - destruct p2 as [|x m]; [simpl in L; lia |].
    exists x, m. split; [reflexivity | exact E].
  - destruct p2 as [|z p2]; [simpl in L; lia |].
    rewrite !app_cons in E. injection E as -> E.
    simpl in L. destruct (IH p2 a b E) as (x & m & -> & ->); [lia |].
    exists x, m. split; reflexivity.
Qed.

Lemma contains_app (c : ascii) (a b : string) :
  PyStr.contains c (a ++ b) = PyStr.contains c a || PyStr.contains c b.
Proof.
  induction a as [|x a IH]; [reflexivity |].
  rewrite app_cons. simpl. destruct (Ascii.eqb x c); [reflexivity | exact IH].
Qed.

Lemma find_from_spec (c : ascii) (s : string) :
  forall i,
    (PyStr.find_from c s i = -1 /\ PyStr.contains c s = false)
    \/ exists pre post,
         s = pre ++ String c post
         /\ PyStr.contains c pre = false
         /\ PyStr.find_from c s i = i + PyStr.len pre.
Proof.
  induction s as [|a s IH]; intros i; simpl.
  - left; split; reflexivity.
  - destruct (Ascii.eqb a c) eqn:E.
    + apply Ascii.eqb_eq in E; subst a. right.
      exists EmptyString, s. repeat split. unfold PyStr.len. simpl. lia.
    + destruct (IH (i + 1)) as [[H1 H2] | (pre & post & H1 & H2 & H3)].
      * left; split; assumption.
      * right. exists (String a pre), post. subst s.
        rewrite app_cons, len_cons. simpl. rewrite E.
        repeat split; try assumption. lia.
Qed.

Lemma rfind_from_spec (c : ascii) (s : string) :
  forall i last,
    (PyStr.rfind_from c s i last = last /\ PyStr.contains c s = false)
    \/ exists pre post,
         s = pre ++ String c post
         /\ PyStr.contains c post = false
         /\ PyStr.rfind_from c s i last = i + PyStr.len pre.
Proof.
  induction s as [|a s IH]; intros i last; simpl.
  - left; split; reflexivity.
  - destruct (Ascii.eqb a c) eqn:E.
    + apply Ascii.eqb_eq in E; subst a. right.
      destruct (IH (i + 1) i) as [[H1 H2] | (pre & post & H1 & H2 & H3)].
      * exists EmptyString, s. repeat split; try assumption.
        unfold PyStr.len. simpl. lia.
      * exists (String c pre), post. subst s.
        rewrite app_cons, len_cons. repeat split; try assumption. lia.
    + destruct (IH (i + 1) last) as [[H1 H2] | (pre & post & H1 & H2 & H3)].
      * left; split; assumption.
      * right. exists (String a pre), post. subst s.
        rewrite app_cons, len_cons. repeat split; try assumption. lia.
Qed.

(** Where [find] and [rfind] point when the character occurs. *)
Lemma find_present (c : ascii) (s : string) :
  PyStr.contains c s = true ->
  exists pre post,
    s = pre ++ String c post
    /\ PyStr.contains c pre = false
    /\ PyStr.find c s = PyStr.len pre.
Proof.
  intros H. unfold PyStr.find.
  destruct (find_from_spec c s 0) as [[_ H2] | (pre & post & H1 & H2 & H3)].
  - congruence.
  - exists pre, post. repeat split; first [assumption | lia].
Qed.

Lemma rfind_present (c : ascii) (s : string) :
  PyStr.contains c s = true ->
  exists pre post,
    s = pre ++ String c post
    /\ PyStr.contains c post = false
    /\ PyStr.rfind c s = PyStr.len pre.
Proof.
  intros H. unfold PyStr.rfind.
  destruct (rfind_from_spec c s 0 (-1)) as [[_ H2] | (pre & post & H1 & H2 & H3)].
  - congruence.
  - exists pre, post. repeat split; first [assumption | lia].
Qed.

Lemma find_range (c : ascii) (s : string) :
  (PyStr.find c s = -1 /\ PyStr.contains c s = false)
  \/ (0 <= PyStr.find c s < PyStr.len s /\ PyStr.contains c s = true).
Proof.
  unfold PyStr.find.
  destruct (find_from_spec c s 0) as [[H1 H2] | (pre & post & H1 & H2 & H3)].
  - left. split; assumption.
  - right. rewrite H3. subst s. rewrite len_app, len_cons, contains_app.
    pose proof (len_nonneg pre). pose proof (len_nonneg post).
    split; [lia |]. simpl. rewrite Ascii.eqb_refl. apply orb_true_r.
Qed.

Lemma rfind_range (c : ascii) (s : string) :
  (PyStr.rfind c s = -1 /\ PyStr.contains c s = false)
  \/ (0 <= PyStr.rfind c s < PyStr.len s /\ PyStr.contains c s = true).
Proof.
  unfold PyStr.rfind.
  destruct (rfind_from_spec c s 0 (-1)) as [[H1 H2] | (pre & post & H1 & H2 & H3)].
  - left. split; assumption.
  - right. rewrite H3. subst s. rewrite len_app, len_cons, contains_app.
    pose proof (len_nonneg pre). pose proof (len_nonneg post).
    split; [lia |]. simpl. rewrite Ascii.eqb_refl. apply orb_true_r.
Qed.

(** A slice with bounds inside the text. *)
Lemma slice_middle (pre mid post : string) :
  PyStr.slice (pre ++ mid ++ post) (PyStr.len pre)
    (PyStr.len pre + PyStr.len mid) = mid.
Proof.
  unfold PyStr.slice, PyStr.clip.
  fold (PyStr.len (pre ++ mid ++ post)). rewrite !len_app.
  pose proof (len_nonneg pre). pose proof (len_nonneg mid).
  pose proof (len_nonneg post).
  destruct (Z.ltb_spec (PyStr.len pre) 0); [lia |].
  destruct (Z.ltb_spec (PyStr.len pre + PyStr.len mid) 0); [lia |].
  rewrite !Z.min_l by lia.
  destruct (Z.ltb_spec (PyStr.len pre) (PyStr.len pre + PyStr.len mid)).
  - unfold PyStr.len at 1. rewrite Nat2Z.id.
    replace (Z.to_nat (PyStr.len pre + PyStr.len mid - PyStr.len pre))
      with (String.length mid) by (unfold PyStr.len; lia).
    rewrite substring_skip. apply substring_all.
  - destruct mid as [|x mid]; [reflexivity |].
    pose proof (len_cons x mid). pose proof (len_nonneg mid). lia.
Qed.

Lemma slice_empty (s : string) (i j : Z) :
  0 <= j <= i -> PyStr.slice s i j = "".
Proof.
  intros H. unfold PyStr.slice, PyStr.clip.
  destruct (Z.ltb_spec i 0); [lia |]. destruct (Z.ltb_spec j 0); [lia |].
  destruct (Z.ltb_spec (Z.min i (Z.of_nat (String.length s)))
              (Z.min j (Z.of_nat (String.length s)))); [lia | reflexivity].
Qed.

(** ** The extraction of the candidate JSON text *)

Lemma has_delimiters_true (o c : ascii) (text : string) :
  has_delimiters o c text = true <->
  PyStr.contains o text = true /\ PyStr.contains c text = true.
Proof. unfold has_delimiters. apply andb_true_iff. Qed.

Lemma extract_json_delimited (o c : ascii) (text : string) :
  0 <= PyStr.find o text < PyStr.rfind c text ->
  delimited o c text (extract_json o c text).
Proof.
  intros [H0 H1].
  destruct (find_range o text) as [[F _] | [_ Ho]]; [lia |].
  destruct (rfind_range c text) as [[F _] | [_ Hc]]; [lia |].
  destruct (find_present o text Ho) as (p1 & r1 & E1 & N1 & F1).
  destruct (rfind_present c text Hc) as (p2 & r2 & E2 & N2 & F2).
  rewrite F1, F2 in H1.
  assert (L : (String.length p1 < String.length p2)%nat)
    by (unfold PyStr.len in H1; lia).
  assert (E : p1 ++ String o r1 = p2 ++ String c r2)
    by (rewrite <- E1; exact E2).
  destruct (app_eq_split p1 p2 _ _ E L) as (x & m & -> & Em).
  rewrite app_cons in Em. injection Em as <- ->.
  exists p1, m, r2. split; [exact E1 |]. split; [exact N1 |].
  split; [exact N2 |].
  unfold extract_json. rewrite F1, F2.
  assert (T : text = p1 ++ String o (m ++ String c "") ++ r2).
  { rewrite E1. rewrite !app_cons.
    now rewrite string_app_assoc, app_cons, app_nil_l. }
  rewrite T at 1.
  replace (PyStr.len (p1 ++ String o m) + 1)
    with (PyStr.len p1 + PyStr.len (String o (m ++ String c "")))
    by (rewrite !len_app, !len_cons, len_app, len_cons;
        change (PyStr.len "") with 0; lia).
  apply slice_middle.
Qed.

Lemma extract_json_reversed (o c : ascii) (text : string) :
  PyStr.rfind c text < PyStr.find o text ->
  extract_json o c text = "".
Proof.
  intros H. unfold extract_json. apply slice_empty.
  destruct (rfind_range c text) as [[F _] | [F _]]; lia.
Qed.

(** No part of the text [}{] starts with an opening brace and ends with
    a closing one. *)
Lemma reversed_braces_not_delimited (region : string) :
  ~ delimited "{" "}" "}{" region.
Proof.
  intros (pre & mid & post & E & _).
  destruct pre as [|a pre]; [discriminate E |].
  rewrite app_cons in E. injection E as _ E.
  destruct pre as [|b pre]; [| rewrite app_cons in E; injection E as _ E;
                                destruct pre; discriminate E].
  rewrite app_nil_l in E. injection E as E.
  destruct mid; discriminate E.
Qed.

(** ** The matcher against the language of the expression *)

(** The matcher fails exactly when no way of splitting the text into a
    part in the language of [r] and a rest is accepted by the
    continuation. *)
Lemma rmatch_none {A : Type} (r : Re.re) :
  forall (s : string) (k : string -> option A),
    Re.rmatch r s k = None
    <-> forall m rest, s = m ++ rest -> lang r m -> k rest = None.
Proof.
  induction r as [p | r1 IH1 r2 IH2 | r IH]; intros s k; simpl.
  - split.
    + intros H m rest E L. inversion L as [p' a Pa | | |]; subst.
      rewrite app_cons, app_nil_l in H. now rewrite Pa in H.
    + intros H. destruct s as [|a s]; [reflexivity |].
      destruct (p a) eqn:Pa; [| reflexivity].
      apply (H (String a "") s); [reflexivity | now constructor].
  - rewrite IH1. split.
    + intros H m rest E L. inversion L as [| r1' r2' s1 s2 L1 L2 | |]; subst.
      rewrite string_app_assoc in H.
      specialize (H s1 (s2 ++ rest) eq_refl L1).
      rewrite IH2 in H. now apply (H s2 rest).
    + intros H m1 rest1 E L1. apply IH2. intros m2 rest E2 L2.
      apply (H (m1 ++ m2) rest); [| now constructor].
      subst. now rewrite string_app_assoc.
  - split.
    + intros H m rest E L.
      destruct (Re.rmatch r s k) eqn:R; [discriminate H |].
      inversion L as [| | r' | r' s' L']; subst.
      * exact H.
      * rewrite IH in R. now apply (R m rest).
    + intros H. destruct (Re.rmatch r s k) eqn:R.
      * assert (N : Re.rmatch r s k = None);
          [| rewrite N in R; discriminate R].
        apply IH. intros m rest E L. apply (H m rest E).
        now apply lang_opt_present.
      * apply (H "" s); [reflexivity | constructor].
Qed.

Lemma match_here_none (r : Re.re) (s : string) :
  Re.match_here r s = None
  <-> forall m rest, s = m ++ rest -> ~ lang r m.
Proof.
  unfold Re.match_here. rewrite rmatch_none. split.
  - intros H m rest E L. specialize (H m rest E L). discriminate H.
  - intros H m rest E L. destruct (H m rest E L).
Qed.

(** [re.search] finds nothing exactly when no part of the text is in
    the language of the expression. *)
Lemma search_none (r : Re.re) (s : string) :
  Re.search r s = None <-> ~ occurs r s.
Proof.
  unfold occurs. induction s as [|a s IH]; simpl.
  - destruct (Re.match_here r "") eqn:M.
    + split; [discriminate |]. intros H. exfalso.
      assert (N : Re.match_here r "" = None);
        [| rewrite N in M; discriminate M].
      apply match_here_none. intros m rest E L. apply H.
      exists "", m, rest. split; [exact E | exact L].
    + split; [| reflexivity]. intros _ (pre & m & post & E & L).
      rewrite match_here_none in M.
      destruct pre; [| discriminate E]. now apply (M m post).
  - destruct (Re.match_here r (String a s)) eqn:M.
    + split; [discriminate |]. intros H. exfalso.
      assert (N : Re.match_here r (String a s) = None);
        [| rewrite N in M; discriminate M].
      apply match_here_none. intros m rest E L. apply H.
      exists "", m, rest. split; [exact E | exact L].
    + rewrite IH. rewrite match_here_none in M. split.
      * intros H (pre & m & post & E & L). destruct pre as [|b pre].
        -- now apply (M m post).
        -- rewrite app_cons in E. injection E as _ E.
           apply H. now exists pre, m, post.
      * intros H (pre & m & post & E & L). apply H.
        exists (String a pre), m, post. split; [| exact L].
        rewrite app_cons. now rewrite E.
Qed.

(** A success of the matcher comes from a split of the text into a part
    in the language of [r] and a rest that the continuation accepts. *)
Lemma rmatch_some {A : Type} (r : Re.re) :
  forall (s : string) (k : string -> option A) (x : A),
    Re.rmatch r s k = Some x ->
    exists m rest, s = m ++ rest /\ lang r m /\ k rest = Some x.
Proof.
  induction r as [p | r1 IH1 r2 IH2 | r IH]; intros s k x; simpl.
  - destruct s as [|a s]; [discriminate |].
    destruct (p a) eqn:Pa; [| discriminate].
    intros H. exists (String a ""), s.
    split; [reflexivity |]. split; [now constructor | exact H].
  - intros H. apply IH1 in H as (m1 & rest1 & -> & L1 & H).
    apply IH2 in H as (m2 & rest & -> & L2 & H).
    exists (m1 ++ m2), rest. rewrite string_app_assoc.
    split; [reflexivity |]. split; [now constructor | exact H].
  - destruct (Re.rmatch r s k) as [y |] eqn:R.
    + intros [= <-]. apply IH in R as (m & rest & -> & L & H).
      exists m, rest. split; [reflexivity |].
      split; [now apply lang_opt_present | exact H].
    + intros H. exists "", s.
      split; [reflexivity |]. split; [constructor | exact H].
Qed.

Lemma match_here_some (r : Re.re) (s m : string) :
  Re.match_here r s = Some m -> exists rest, s = m ++ rest /\ lang r m.
Proof.
  unfold Re.match_here. intros H.
  apply rmatch_some in H as (m0 & rest & -> & L & H).
  injection H as <-. exists rest.
  rewrite string_length_app, Nat.add_sub, substring_all.
  split; [reflexivity | exact L].
Qed.

(** What [re.search] returns is a part of the text that is in the
    language of the expression. *)
Lemma search_found (r : Re.re) (s m : string) :
  Re.search r s = Some m ->
  exists pre post, s = pre ++ m ++ post /\ lang r m.
Proof.
  induction s as [|a s IH]; simpl.
  - destruct (Re.match_here r "") as [m0 |] eqn:M; [| discriminate].
    intros [= <-]. apply match_here_some in M as (rest & E & L).
    exists "", rest. split; [exact E | exact L].
  - destruct (Re.match_here r (String a s)) as [m0 |] eqn:M.
    + intros [= <-]. apply match_here_some in M as (rest & E & L).
      exists "", rest. split; [exact E | exact L].
    + intros H. apply IH in H as (pre & post & -> & L).
      exists (String a pre), post. split; [reflexivity | exact L].
Qed.

Lemma search_some (r : Re.re) (s : string) :
  (exists m, Re.search r s = Some m) <-> occurs r s.
Proof.
  split.
  - intros [m H]. apply search_found in H as (pre & post & E & L).
    now exists pre, m, post.
  - intros H. destruct (Re.search r s) as [m |] eqn:E; [now exists m |].
    apply search_none in E. contradiction.
Qed.

(** ** Dictionaries *)

Lemma dict_get_set_ne (k k' : string) (v : json) (d : dict) :
  k <> k' -> dict_get k (dict_set k' v d) = dict_get k d.
Proof.
  intros N. induction d as [|[k0 v0] d IH]; simpl.
  - destruct (String.eqb_spec k' k); [congruence | reflexivity].
  - destruct (String.eqb_spec k0 k') as [-> | N0]; simpl.
    + destruct (String.eqb_spec k' k); [congruence | reflexivity].
    + destruct (String.eqb_spec k0 k); [reflexivity | exact IH].
Qed.

Lemma dict_get_set_eq (k : string) (v : json) (d : dict) :
  dict_get k (dict_set k v d) = Some v.
Proof.
  induction d as [|[k0 v0] d IH]; simpl.
  - now rewrite String.eqb_refl.
  - destruct (String.eqb_spec k0 k) as [-> | N0]; simpl.
    + now rewrite String.eqb_refl.
    + destruct (String.eqb_spec k0 k); [congruence | exact IH].
Qed.

Lemma dict_has_set_eq (k : string) (v : json) (d : dict) :
  dict_has k (dict_set k v d) = true.
Proof. unfold dict_has. now rewrite dict_get_set_eq. Qed.

(** ** The parsing blocks *)

(** The candidate text of a few replies. *)
Example extract_json_prose :
  extract_json "{" "}" "Here you go: {} Anything else?" = "{}".
Proof. reflexivity. Qed.

Example extract_json_nested :
  extract_json "[" "]" "scenarios [[1], [2]] and [3] more" = "[[1], [2]] and [3]".
Proof. reflexivity. Qed.

Example extract_json_unbalanced :
  extract_json "{" "}" "{ no end" = ""
  /\ has_delimiters "{" "}" "{ no end" = false.
Proof. split; reflexivity. Qed.

Section ParsingProperties.

Variable json_loads : string -> option json.
Variable today : string.

Lemma loads_some (text : string) (v : json) :
  json_loads text = Some v -> loads json_loads text = Ok v.
Proof. intros H. unfold loads. now rewrite H. Qed.

Lemma loads_none (text : string) :
  json_loads text = None -> loads json_loads text = Raise JSONDecodeError.
Proof. intros H. unfold loads. now rewrite H. Qed.

(** Whatever the steps between decoding and [return] do, the [except]
    clause turns an exception into the fallback valuation. *)
Lemma calculate_valuation_total
    (property_details market_data : dict) (text : string) :
  exists p,
    _calculate_valuation json_loads today property_details market_data text
    = Ok p.
Proof.
  unfold _calculate_valuation, try_except.
  destruct (has_delimiters "{" "}" text); [| eexists; reflexivity].
  destruct (loads json_loads _) as [v | e]; [| eexists; reflexivity].
  destruct (backfill_value v) as [v' | e]; [| eexists; reflexivity].
  destruct (backfill_date today v') as [v'' | e]; eexists; reflexivity.
Qed.

(** C1. The parsing blocks of the research stage ([_parse_address],
    [_get_property_details]) and of the valuation step never raise:
    for every reply text they return a payload.  When the text lacks
    an opening or a closing brace the payload is the block's
    "no JSON found" default, and when both braces occur but the
    candidate text does not decode it is the block's "parsing failed"
    default; both are fixed by the stage (and its inputs), not by the
    reply. *)
Theorem parsing_never_raises
    (address text : string) (property_details market_data : dict) :
  ((exists p, _parse_address json_loads address text = Ok p)
   /\ (exists p, _get_property_details json_loads text = Ok p)
   /\ (exists p,
        _calculate_valuation json_loads today property_details market_data
          text = Ok p))
  /\ (has_delimiters "{" "}" text = false ->
      _parse_address json_loads address text
        = Ok (parse_address_no_json address)
      /\ _get_property_details json_loads text
        = Ok property_details_no_json
      /\ _calculate_valuation json_loads today property_details
           market_data text
        = Ok (valuation_no_json today property_details market_data))
  /\ (has_delimiters "{" "}" text = true ->
      json_loads (extract_json "{" "}" text) = None ->
      _parse_address json_loads address text
        = Ok (parse_address_failed address)
      /\ _get_property_details json_loads text
        = Ok property_details_failed
      /\ _calculate_valuation json_loads today property_details
           market_data text
        = Ok (valuation_failed today)).
Proof.
  split; [split; [| split] | split].
  - unfold _parse_address, try_except.
    destruct (has_delimiters "{" "}" text); [| eexists; reflexivity].
    destruct (loads json_loads _); eexists; reflexivity.
  - unfold _get_property_details, try_except.
    destruct (has_delimiters "{" "}" text); [| eexists; reflexivity].
    destruct (loads json_loads _); eexists; reflexivity.
  - apply calculate_valuation_total.
  - intros H.
    unfold _parse_address, _get_property_details, _calculate_valuation.
    rewrite H. repeat split.
  - intros H D.
    unfold _parse_address, _get_property_details, _calculate_valuation.
    rewrite H, (loads_none _ D). repeat split.
Qed.

Lemma backfill_keeps (d : dict) :
  (forall v, dict_get "formatted_value" d = Some v -> exists s, v = JStr s) ->
  exists d',
    (match backfill_value (JObj d) with
     | Ok valuation => backfill_date today valuation
     | Raise e => Raise e
     end) = Ok (JObj d')
    /\ dict_has "valuation_date" d' = true
    /\ forall k, k <> "value" -> k <> "valuation_date" ->
                 dict_get k d' = dict_get k d.
Proof.
  intros S.
  assert (D : forall d0 : dict,
    (forall k, k <> "value" -> k <> "valuation_date" ->
               dict_get k d0 = dict_get k d) ->
    exists d',
      backfill_date today (JObj d0) = Ok (JObj d')
      /\ dict_has "valuation_date" d' = true
      /\ forall k, k <> "value" -> k <> "valuation_date" ->
                   dict_get k d' = dict_get k d).
  { intros d0 K. unfold backfill_date. simpl.
    destruct (dict_has "valuation_date" d0) eqn:E.
    - exists d0. repeat split; assumption.
    - eexists. split; [reflexivity |]. split; [apply dict_has_set_eq |].
      intros k N1 N2. rewrite dict_get_set_ne by assumption. now apply K. }
  unfold backfill_value. simpl.
  destruct (dict_has "value" d); [apply D; reflexivity |].
  unfold dict_has.
  destruct (dict_get "formatted_value" d) as [v |] eqn:E;
    [| apply D; reflexivity].
  destruct (S v eq_refl) as [s ->]. simpl.
  destruct (PyText.infix (String pound "") s); [| apply D; reflexivity].
  simpl. apply D. intros k N1 N2. now apply dict_get_set_ne.
Qed.

(** C9 (amended).  Whenever the first opening delimiter lies before
    the last closing one, the candidate text is exactly the part of
    the reply from the one to the other, both included; when the last
    closing delimiter lies before the first opening one the candidate
    text is empty.  When the candidate text decodes, the research
    blocks return the decoded value as it is; the valuation step
    returns the decoded object as it is when it has a value and a
    valuation date, and otherwise, provided its formatted value (if
    any) is a string, the decoded object with a valuation date and
    possibly a value added and every other field unchanged. *)
Theorem extraction_first_to_last :
  (forall o c text,
      0 <= PyStr.find o text < PyStr.rfind c text ->
      delimited o c text (extract_json o c text))
  /\ (forall o c text,
      PyStr.rfind c text < PyStr.find o text ->
      extract_json o c text = "")
  /\ (forall address text v,
      has_delimiters "{" "}" text = true ->
      json_loads (extract_json "{" "}" text) = Some v ->
      _parse_address json_loads address text = Ok v
      /\ _get_property_details json_loads text = Ok v)
  /\ (forall property_details market_data text d,
      has_delimiters "{" "}" text = true ->
      json_loads (extract_json "{" "}" text) = Some (JObj d) ->
      dict_has "value" d = true ->
      dict_has "valuation_date" d = true ->
      _calculate_valuation json_loads today property_details market_data
        text = Ok (JObj d))
  /\ (forall property_details market_data text d,
      has_delimiters "{" "}" text = true ->
      json_loads (extract_json "{" "}" text) = Some (JObj d) ->
      (forall v, dict_get "formatted_value" d = Some v ->
                 exists s, v = JStr s) ->
      exists d',
        _calculate_valuation json_loads today property_details market_data
          text = Ok (JObj d')
        /\ dict_has "valuation_date" d' = true
        /\ forall k, k <> "value" -> k <> "valuation_date" ->
                     dict_get k d' = dict_get k d).
Proof.
  split; [| split; [| split; [| split]]].
  - intros o c text. apply extract_json_delimited.
  - intros o c text. apply extract_json_reversed.
  - intros address text v H D.
    unfold _parse_address, _get_property_details.
    rewrite H, (loads_some _ _ D). split; reflexivity.
  - intros pd md text d H D V T.
    unfold _calculate_valuation. rewrite H, (loads_some _ _ D).
    unfold backfill_value, backfill_date. simpl. rewrite V. simpl.
    rewrite T. reflexivity.
  - intros pd md text d H D S.
    unfold _calculate_valuation. rewrite H, (loads_some _ _ D).
    destruct (backfill_keeps d S) as (d' & E & K). exists d'.
    split; [| exact K]. unfold try_except. now rewrite E.
Qed.

End ParsingProperties.

Lemma parsing_never_raises_witness :
  has_delimiters "{" "}" "}{" = true
  /\ sample_loads (extract_json "{" "}" "}{") = None
  /\ _get_property_details sample_loads "}{" = Ok property_details_failed.
Proof.
  split; [reflexivity |]. split; [reflexivity |].
  apply (parsing_never_raises sample_loads "" "" "}{" [] []); reflexivity.
Defined.

(** The reply [}{] has both braces, yet the candidate text taken from it
    is not the part from the first opening to the last closing brace:
    there is no such part. *)
Lemma extraction_reversed_counterexample :
  has_delimiters "{" "}" "}{" = true
  /\ extract_json "{" "}" "}{" = ""
  /\ ~ delimited "{" "}" "}{" (extract_json "{" "}" "}{").
Proof.
  split; [reflexivity |]. split; [reflexivity |].
  apply reversed_braces_not_delimited.
Qed.

Lemma extraction_first_to_last_witness :
  0 <= PyStr.find "{" "ok {} }" < PyStr.rfind "}" "ok {} }"
  /\ delimited "{" "}" "ok {} }" (extract_json "{" "}" "ok {} }").
Proof.
  split; [vm_compute; split; [discriminate | reflexivity] |].
  apply (extraction_first_to_last sample_loads "").
  vm_compute; split; [discriminate | reflexivity].
Defined.

(** A decoded object whose formatted value is not a string and that has
    no value makes the step between decoding and [return] raise, and
    the fallback valuation is returned although the text decoded. *)
Example valuation_backfill_not_a_string :
  let text := "{" ++ quoted "formatted_value" ++ ": 5}" in
  sample_loads (extract_json "{" "}" text)
    = Some (JObj [("formatted_value", JInt 5)])
  /\ _calculate_valuation sample_loads "" [] [] text = Ok (valuation_failed "").
Proof. split; reflexivity. Qed.

(** ** [validate_address] *)

(** C10. An address is judged invalid exactly when it is empty or
    shorter than 10 characters.  An address of at least 10 characters
    no part of which has the form of a postcode (one or two letters, a
    digit, an optional letter or digit, an optional space, a digit, two
    letters, in either case) is judged valid with a warning attached;
    one that has such a part is judged valid without a warning; no
    address of at least 10 characters is rejected. *)
Theorem validate_address_verdict (address : string) :
  (field "valid" (validate_address address) = Some (JBool false)
   <-> address = "" \/ PyStr.len address < 10)
  /\ (10 <= PyStr.len address ->
      ~ occurs Re.uk_postcode_ignorecase address ->
      validate_address address
      = JObj [("valid", JBool true);
              ("warning", JStr "Address may not contain a valid UK postcode");
              ("formatted_address", JStr address)])
  /\ (10 <= PyStr.len address ->
      occurs Re.uk_postcode_ignorecase address ->
      validate_address address
      = JObj [("valid", JBool true); ("formatted_address", JStr address)])
  /\ (10 <= PyStr.len address ->
      field "valid" (validate_address address) = Some (JBool true)).
Proof.
  unfold validate_address.
  destruct (Z.ltb_spec (PyStr.len address) 10) as [L | L].
  - rewrite orb_true_r. split; [| repeat split; intros; lia].
    split; [right; exact L | reflexivity].
  - rewrite orb_false_r.
    assert (T : PyStr.truthy address = true).
    { destruct address; [change (PyStr.len "") with 0 in L; lia | reflexivity]. }
    rewrite T. simpl negb. cbv iota.
    split; [| split; [| split]].
    + split.
      * destruct (Re.search _ address); discriminate.
      * intros [-> | H]; [discriminate T | lia].
    + intros _ N. apply search_none in N. now rewrite N.
    + intros _ O. apply search_some in O as [m ->]. reflexivity.
    + intros _. destruct (Re.search _ address); reflexivity.
Qed.

Lemma validate_address_verdict_witness :
  10 <= PyStr.len "1 High Street"
  /\ ~ occurs Re.uk_postcode_ignorecase "1 High Street"
  /\ validate_address "1 High Street"
     = JObj [("valid", JBool true);
             ("warning", JStr "Address may not contain a valid UK postcode");
             ("formatted_address", JStr "1 High Street")].
Proof.
  assert (N : ~ occurs Re.uk_postcode_ignorecase "1 High Street")
    by (apply search_none; reflexivity).
  split; [vm_compute; discriminate |]. split; [exact N |].
  apply (validate_address_verdict "1 High Street");
    [vm_compute; discriminate | exact N].
Defined.

(** The matcher on a few addresses. *)
Example postcode_found :
  Re.search Re.uk_postcode "10 Downing Street, London, SW1A 2AA"
  = Some "SW1A 2AA".
Proof. reflexivity. Qed.

Example postcode_lower_case :
  Re.search Re.uk_postcode "10 downing street, london, sw1a 2aa" = None
  /\ Re.search Re.uk_postcode_ignorecase "10 downing street, london, sw1a 2aa"
     = Some "sw1a 2aa".
Proof. split; reflexivity. Qed.

(** ** External calls *)

Lemma requests_app (a b : list event) :
  requests (a ++ b)%list = (requests a + requests b)%nat.
Proof. unfold requests. now rewrite List.filter_app, List.length_app. Qed.

Lemma sleeps_app (a b : list event) :
  sleeps (a ++ b)%list = (sleeps a + sleeps b)%nat.
Proof. unfold sleeps. now rewrite List.filter_app, List.length_app. Qed.

Lemma requests_request : requests [Request] = 1%nat.
Proof. reflexivity. Qed.

Lemma requests_sleep (q : Q) : requests [Sleep q] = 0%nat.
Proof. reflexivity. Qed.

Lemma sleeps_request : sleeps [Request] = 0%nat.
Proof. reflexivity. Qed.

Lemma sleeps_sleep (q : Q) : sleeps [Sleep q] = 1%nat.
Proof. reflexivity. Qed.

Ltac count_events :=
  rewrite ?requests_app, ?sleeps_app, ?requests_request, ?requests_sleep,
    ?sleeps_request, ?sleeps_sleep in *.

Section ImprovedProperties.

Variable agent_name : string.
Variables (max_retries : Z) (initial_retry_delay max_retry_delay : Q).
Variable create : nat -> Improved.create_outcome.
Variable uniform : nat -> Q.

Let retry_loop :=
  Improved.retry_loop max_retries max_retry_delay create uniform.



End ImprovedProperties.

Lemma range_length (n : Z) : List.length (Base.range n) = Z.to_nat n.
Proof. unfold Base.range. now rewrite List.length_map, List.length_seq. Qed.

Section BaseProperties.

Variable agent_name : string.
Variables (max_retries retry_delay : Z).
Variable post : nat -> Base.post_outcome.

Let for_attempts := Base.for_attempts max_retries retry_delay post.

(** One request per attempt at most, and never more sleeps than
    requests. *)
Lemma for_attempts_bounded (attempts : list Z) :
  forall n trace,
    let r := for_attempts attempts n trace in
    fst r <> OutOfFuel
    /\ (requests (snd r) <= requests trace + List.length attempts)%nat
    /\ (sleeps (snd r) <= sleeps trace + List.length attempts)%nat.
Proof.
  induction attempts as [|attempt rest IH]; intros n trace; simpl.
  - repeat split; [discriminate | lia | lia].
  - assert (R : forall tr,
      (requests tr <= requests trace + 1)%nat ->
      (sleeps tr <= sleeps trace + 1)%nat ->
      let r := for_attempts rest (S n) tr in
      fst r <> OutOfFuel
      /\ (requests (snd r) <= requests trace + S (List.length rest))%nat
      /\ (sleeps (snd r) <= sleeps trace + S (List.length rest))%nat).
    { intros tr A B. destruct (IH (S n) tr) as (C & D & E).
      repeat split; [exact C | lia | lia]. }
    assert (T : (requests (trace ++ [Request]) <= requests trace + 1)%nat
                /\ (sleeps (trace ++ [Request]) <= sleeps trace + 1)%nat)
      by (count_events; lia).
    assert (U : forall q,
      (requests ((trace ++ [Request]) ++ [Sleep q])
       <= requests trace + 1)%nat
      /\ (sleeps ((trace ++ [Request]) ++ [Sleep q])
          <= sleeps trace + 1)%nat)
      by (intros q; count_events; lia).
    assert (X : forall e,
      let r := match Base.on_exception max_retries retry_delay attempt e
                       (trace ++ [Request])%list with
               | (None, tr) => for_attempts rest (S n) tr
               | (Some e', tr) => (Raised e', tr)
               end in
      fst r <> OutOfFuel
      /\ (requests (snd r) <= requests trace + S (List.length rest))%nat
      /\ (sleeps (snd r) <= sleeps trace + S (List.length rest))%nat).
    { intros e. unfold Base.on_exception.
      destruct (attempt <? max_retries - 1).
      - apply R; apply U.
      - simpl. repeat split; [discriminate | lia | lia]. }
    destruct (post n) as [e | status_code body]; [apply X |].
    destruct (status_code =? 200).
    + destruct body as [j | e]; [| apply X].
      simpl. repeat split; [discriminate | lia | lia].
    + destruct (status_code =? 429); [apply R; apply U |].
      destruct (Base.raise_for_status status_code) as [[] | e];
        [apply R; apply T | apply X].
Qed.


End BaseProperties.




(** ** The background run, one statement at a time *)

Lemma start_at_record (st : gmap string dict) (report_id : string) (r : dict) :
  start (<[report_id := r]> st) = at_record st report_id r [] [].
Proof. reflexivity. Qed.

Lemma steps_set_field (report_id key : string) (value : json) (r r' : dict) :
  dict_set key value r = r' ->
  steps report_id (set_field report_id key value) r (Normal tt) r' [r'] [].
Proof.
  intros <- st rs cs. unfold set_field, at_record. simpl.
  rewrite lookup_insert_eq, insert_insert_eq, List.map_app, List.app_nil_r.
  reflexivity.
Qed.

Lemma steps_set_agent_detail (report_id key : string) (value : json)
    (r r' ad : dict) :
  dict_get "agent_details" r = Some (JObj ad) ->
  dict_set "agent_details" (JObj (dict_set key value ad)) r = r' ->
  steps report_id (set_agent_detail report_id key value) r (Normal tt) r'
    [r'] [].
Proof.
  intros H <- st rs cs. unfold set_agent_detail, at_record. simpl.
  rewrite lookup_insert_eq, H. simpl.
  rewrite insert_insert_eq, List.map_app, List.app_nil_r. reflexivity.
Qed.

Lemma steps_call_agent (report_id name : string)
    (process : json -> result json) (input : json) (out : result json)
    (r : dict) :
  process input = out ->
  steps report_id (call_agent name process input) r
    (match out with Ok v => Normal v | Raise e => Throw e end) r [] [name].
Proof.
  intros <- st rs cs. unfold call_agent, at_record. simpl.
  rewrite List.app_nil_r. destruct (process input); reflexivity.
Qed.

Lemma steps_lift {A : Type} (report_id : string) (x out : result A)
    (r : dict) :
  x = out ->
  steps report_id (lift x) r
    (match out with Ok v => Normal v | Raise e => Throw e end) r [] [].
Proof.
  intros <- st rs cs. unfold lift. rewrite !List.app_nil_r.
  destruct x; reflexivity.
Qed.

Lemma steps_ret {A : Type} (report_id : string) (a : A) (r : dict) :
  steps report_id (ret a) r (Normal a) r [] [].
Proof. intros st rs cs. rewrite !List.app_nil_r. reflexivity. Qed.

Lemma steps_return {A : Type} (report_id : string) (r : dict) :
  steps report_id (@return_ A) r Return r [] [].
Proof. intros st rs cs. rewrite !List.app_nil_r. reflexivity. Qed.

Lemma steps_bind {A B : Type} (report_id : string) (m : M A) (k : A -> M B)
    (r r1 r2 : dict) (c1 : ctl A) (c : ctl B)
    (news1 news2 : list dict) (names1 names2 : list string) :
  steps report_id m r c1 r1 news1 names1 ->
  continues report_id k c1 r1 c r2 news2 names2 ->
  steps report_id (m ≫= k) r c r2 (news1 ++ news2)%list
    (names1 ++ names2)%list.
Proof.
  intros H K st rs cs. change ((m ≫= k) ?w) with (bind m k w). unfold bind.
  rewrite H, !List.app_assoc. destruct c1 as [a | e |]; simpl in K.
  - apply K.
  - destruct K as (-> & -> & -> & ->). now rewrite !List.app_nil_r.
  - destruct K as (-> & -> & -> & ->). now rewrite !List.app_nil_r.
Qed.

Lemma steps_try {A : Type} (report_id : string) (body : M A)
    (handler : exn -> M A) (r r1 r2 : dict) (c1 c : ctl A)
    (news1 news2 : list dict) (names1 names2 : list string) :
  steps report_id body r c1 r1 news1 names1 ->
  handled report_id handler c1 r1 c r2 news2 names2 ->
  steps report_id (try_catch body handler) r c r2 (news1 ++ news2)%list
    (names1 ++ names2)%list.
Proof.
  intros H K st rs cs. unfold try_catch.
  rewrite H, !List.app_assoc. destruct c1 as [a | e |]; simpl in K.
  - destruct K as (-> & -> & -> & ->). now rewrite !List.app_nil_r.
  - apply K.
  - destruct K as (-> & -> & -> & ->). now rewrite !List.app_nil_r.
Qed.

Ltac normal_form :=
  lazymatch goal with
  | |- ?l = _ =>
      let l' := eval vm_compute in l in
      exact (@eq_refl _ l' <: l = l')
  end.

(** Runs a statement from a given record, one construct at a time; the
    results of the agents and of the tests on their messages are read
    from the context. *)
Ltac ev :=
  lazymatch goal with
  | |- steps _ (_ ≫= _) _ _ _ _ _ =>
      eapply steps_bind; [ev | unfold continues; cbv beta iota; ev]
  | |- steps _ (try_catch _ _) _ _ _ _ _ =>
      eapply steps_try; [ev | unfold handled; cbv beta iota; ev]
  | |- steps _ (set_field _ _ _) _ _ _ _ _ =>
      eapply steps_set_field; normal_form
  | |- steps _ (set_agent_detail _ _ _) _ _ _ _ _ =>
      eapply steps_set_agent_detail; [normal_form | normal_form]
  | |- steps _ (call_agent _ _ _) _ _ _ _ _ =>
      eapply steps_call_agent; eassumption
  | |- steps _ (lift _) _ _ _ _ _ => eapply steps_lift; normal_form
  | |- steps _ (ret _) _ _ _ _ _ => eapply steps_ret
  | |- steps _ return_ _ _ _ _ _ => eapply steps_return
  | |- steps _ (run_agent _ _ _ _ _ _ _) _ _ _ _ _ => unfold run_agent; ev
  | |- steps _ (handle_agent_error _ _ _ _) _ _ _ _ _ =>
      unfold handle_agent_error; ev
  | |- steps _ (process_report_failed _ _ _) _ _ _ _ _ =>
      unfold process_report_failed; ev
  | |- steps _ (if ?b then _ else _) _ _ _ _ _ =>
      match goal with H : b = _ |- _ => rewrite H end; ev
  | |- _ /\ _ => repeat split; reflexivity
  end.

Section AppProperties.

Variables research_agent evaluation_agent accessor_agent
  : json -> result json.
Variable report_sections : json -> result json.
Variable report_html_of : json -> result string.
Variable generation_timestamp : pyfloat.
Variable format_exc : exn -> string.
Variable report_date : string.

Let report_agent :=
  report_generator report_sections report_html_of generation_timestamp.

Let run :=
  process_report research_agent evaluation_agent accessor_agent
    report_sections report_html_of generation_timestamp format_exc
    report_date.

Let chain :=
  pipeline research_agent evaluation_agent accessor_agent report_agent.

(** What [ReportGenerationAgent.process] returns always has the two
    keys that [process_report] reads. *)
Lemma report_generator_shape (input result : json) :
  report_agent input = Ok result ->
  exists address content html,
    result = JObj [("address", address);
                   ("report_content", content);
                   ("report_html", JStr html);
                   ("generation_timestamp", JFloat generation_timestamp)].
Proof.
  unfold report_agent, report_generator.
  destruct (PyObj.contains "address" input) as [[|] | e]; try discriminate.
  destruct (field "address" input) as [address |]; try discriminate.
  destruct (report_sections input) as [content | e]; try discriminate.
  destruct (report_html_of content) as [html | e]; try discriminate.
  intros [= <-]. eauto.
Qed.

Lemma ev_process_report (report_id address : string) (r rf : dict)
    (c : ctl unit) (news : list dict) (names : list string)
    (st : gmap string dict) :
  steps report_id
    (try_catch
       (process_report_body research_agent evaluation_agent accessor_agent
          report_sections report_html_of generation_timestamp format_exc
          report_date report_id address)
       (process_report_failed format_exc report_id)) r c rf news names ->
  run report_id address (start (<[report_id := r]> st))
  = (match c with Throw e => Raise e | _ => Ok tt end,
     at_record st report_id rf news names).
Proof.
  intros H. unfold run, process_report. rewrite start_at_record, H.
  destruct c; reflexivity.
Qed.

(** A run to its end, and the checks on the states it went through. *)
Ltac run_to_end :=
  do 2 eexists;
  (split; [erewrite ev_process_report by (unfold process_report_body; ev);
           cbv beta iota; f_equal; f_equal; normal_form |]);
  vm_compute; repeat split; reflexivity.

(** The same for a stage that raised [e]: the message of [e] may or may
    not mention a rate limit. *)
Ltac run_failed e :=
  destruct (PyText.infix "rate limit" (PyText.lower (exn_str e))) eqn:?;
  run_to_end.

(** The whole run on a record as [generate_report] or [retry_report]
    leaves it: it ends without an exception, the record went through
    the states [rs] and ended as [rf], and exactly the stages of the
    chain were entered, in order. *)
Lemma process_report_run (st : gmap string dict) (report_id : string)
    (a : json) (message timestamp address : string) :
  exists rs rf,
    run report_id address
      (start (<[report_id := fresh_report a message timestamp]> st))
    = (Ok tt, at_record st report_id rf rs (entered (chain address)))
    /\ List.last rs [] = rf
    /\ progress_checked 0 (fresh_report a message timestamp :: rs) = true
    /\ status_settled (fresh_report a message timestamp :: rs) = true
    /\ exclusive (fresh_report a message timestamp :: rs) = true
    /\ final_record (chain address) rf.
Proof.
  unfold chain, pipeline.
  destruct (research_agent _) as [pd | e] eqn:R1; [| run_failed e].
  destruct (evaluation_agent _) as [er | e] eqn:R2; [| run_failed e].
  destruct (accessor_agent _) as [ad | e] eqn:R3; [| run_failed e].
  destruct (report_agent _) as [rr | e] eqn:R4; [| run_failed e].
  destruct (report_generator_shape _ _ R4) as (x & content & html & ->).
  run_to_end.
Qed.

End AppProperties.

(** ** [execute_workflow] *)

Section WorkflowProperties.

Variable agents : gmap string Orchestrator.agent.
Variable repr_len : dict -> Z.

Let run_step := Orchestrator.run_step agents repr_len.
Let run_steps := Orchestrator.run_steps agents repr_len.



End WorkflowProperties.

(** ** What the checks on a run mean *)


Lemma status_settled_sound (rs : list dict) :
  status_settled rs = true ->
  forall (i j : nat) (p q : dict),
    (i <= j)%nat -> rs !! i = Some p -> rs !! j = Some q ->
    terminal (status_of p) = true -> status_of q = status_of p.
Proof.
  induction rs as [|r rs IH]; intros H i j p q L P Q T.
  - discriminate P.
  - simpl in H. apply andb_true_iff in H as [H1 H2].
    destruct i as [|i].
    + injection P as <-. destruct j as [|j]; [now injection Q as <- |].
      rewrite T in H1. rewrite List.forallb_forall in H1.
      apply String.eqb_eq, H1. apply list_elem_of_In.
      apply list_elem_of_lookup. exists j. exact Q.
    + destruct j as [|j]; [lia |].
      apply (IH H2 i j p q); [lia | exact P | exact Q | exact T].
Qed.

Lemma exclusive_sound (rs : list dict) :
  exclusive rs = true ->
  List.Forall (fun r => has_result r = false \/ has_error r = false) rs.
Proof.
  unfold exclusive. rewrite List.forallb_forall, List.Forall_forall.
  intros H r I. specialize (H r I). apply negb_true_iff in H.
  now apply andb_false_iff in H.
Qed.

(** ** Polls during a run *)

Lemma last_map_nonempty {A B : Type} (f : A -> B) (l : list A) (d : A)
    (d' : B) :
  l <> [] -> List.last (List.map f l) d' = f (List.last l d).
Proof.
  induction l as [|x l IH]; [congruence |]. intros _.
  destruct l as [|y l]; [reflexivity |].
  change (List.last (List.map f (x :: y :: l)) d')
    with (List.last (List.map f (y :: l)) d').
  change (List.last (x :: y :: l) d) with (List.last (y :: l) d).
  apply IH. discriminate.
Qed.

Lemma report_status_found (st : gmap string dict) (report_id : string)
    (r : dict) (ts : list (string * json)) :
  report_status report_id (Server (<[report_id := r]> st) ts)
  = status_response r.
Proof. unfold report_status. simpl. now rewrite lookup_insert_eq. Qed.

Lemma polls_at_record (st : gmap string dict) (report_id : string)
    (r0 rf : dict) (rs : list dict) (cs : list string) :
  polls report_id (<[report_id := r0]> st) (at_record st report_id rf rs cs)
  = List.map status_response (r0 :: rs).
Proof.
  unfold polls, at_record. simpl. rewrite report_status_found. f_equal.
  rewrite List.map_map. apply List.map_ext. intros r.
  apply report_status_found.
Qed.

Lemma poll_progress_response (r : dict) :
  poll_progress (status_response r) = progress_of r.
Proof. reflexivity. Qed.

Lemma poll_status_response (r : dict) :
  poll_status (status_response r) = status_of r.
Proof. reflexivity. Qed.

Lemma bind_unfold {A B : Type} (m : M A) (k : A -> M B) (w : world) :
  (m ≫= k) w = match m w with
               | (Normal a, w') => k a w'
               | (Throw e, w') => (Throw e, w')
               | (Return, w') => (Return, w')
               end.
Proof. reflexivity. Qed.

Lemma set_field_missing (report_id key : string) (value : json) (w : world) :
  reports w !! report_id = None ->
  set_field report_id key value w = (Throw (KeyError report_id), w).
Proof. intros H. unfold set_field. now rewrite H. Qed.

Section JobProperties.

Variables research_agent evaluation_agent accessor_agent
  : json -> result json.
Variable report_sections : json -> result json.
Variable report_html_of : json -> result string.
Variable generation_timestamp : pyfloat.
Variable format_exc : exn -> string.
Variable report_date : string.

Let report_agent :=
  report_generator report_sections report_html_of generation_timestamp.

Let run :=
  process_report research_agent evaluation_agent accessor_agent
    report_sections report_html_of generation_timestamp format_exc
    report_date.

Let chain :=
  pipeline research_agent evaluation_agent accessor_agent report_agent.


(** The record of the job at the end of a run. *)
Lemma reports_at_record (st : gmap string dict) (report_id : string)
    (rf : dict) (rs : list dict) (cs : list string) :
  reports (at_record st report_id rf rs cs) !! report_id = Some rf.
Proof. unfold at_record. simpl. apply lookup_insert_eq. Qed.


(** C4 (amended).  Along a run, once the status that polls show is
    complete or error it stays the same in every later poll; no state
    of the record has both a result (html, content, data) and error
    details; and the run ends in a terminal status, after which every
    poll shows the same answer, the one computed from the final
    record. *)
Theorem terminal_status_settles (st : gmap string dict)
    (report_id : string) (a : json) (message timestamp address : string) :
  let s0 := <[report_id := fresh_report a message timestamp]> st in
  let end_ := snd (run report_id address (start s0)) in
  let ps := polls report_id s0 end_ in
  (forall (i j : nat) (p q : json),
      (i <= j)%nat -> ps !! i = Some p -> ps !! j = Some q ->
      terminal (poll_status p) = true -> poll_status q = poll_status p)
  /\ List.Forall
       (fun s => exists r, s !! report_id = Some r
                           /\ (has_result r = false \/ has_error r = false))
       (writes end_)
  /\ exists rf,
      reports end_ !! report_id = Some rf
      /\ terminal (status_of rf) = true
      /\ List.last ps JNull = status_response rf
      /\ forall ts, report_status report_id (Server (reports end_) ts)
                     = status_response rf.
Proof.
  intros s0 end_ ps. subst s0 end_ ps.
  destruct (process_report_run research_agent evaluation_agent accessor_agent
              report_sections report_html_of generation_timestamp format_exc
              report_date st report_id a message timestamp address)
    as (rs & rf & E & La & _ & S & X & F).
  unfold run, chain, report_agent in *. rewrite E. simpl snd.
  rewrite polls_at_record. split; [| split].
  - intros i j p q L P Q T.
    rewrite list_lookup_fmap in P, Q.
    destruct ((fresh_report a message timestamp :: rs) !! i) as [p' |] eqn:P';
      [| discriminate P].
    destruct ((fresh_report a message timestamp :: rs) !! j) as [q' |] eqn:Q';
      [| discriminate Q].
    injection P as <-. injection Q as <-.
    rewrite !poll_status_response in *.
    exact (status_settled_sound _ S i j p' q' L P' Q' T).
  - unfold at_record. simpl. apply List.Forall_map.
    apply exclusive_sound in X. apply List.Forall_inv_tail in X.
    eapply List.Forall_impl; [| exact X]. intros r H. exists r.
    split; [apply lookup_insert_eq | exact H].
  - exists rf. split; [apply reports_at_record |]. split; [| split].
    + destruct (pipeline _ _ _ _ _); simpl in F.
      * destruct F as (-> & _). reflexivity.
      * destruct F as (-> & _). reflexivity.
    + assert (N : rs <> []).
      { intros ->. subst rf. destruct (pipeline _ _ _ _ _); simpl in F;
          destruct F as (F & _); discriminate F. }
      rewrite <- La. destruct rs as [|r rs]; [congruence |].
      change (List.last
                (List.map status_response
                   (fresh_report a message timestamp :: r :: rs)) JNull)
        with (List.last (List.map status_response (r :: rs)) JNull).
      now apply last_map_nonempty.
    + intros ts. unfold at_record. simpl. apply report_status_found.
Qed.

(** C8 (the defect).  When the record of the job is no longer in
    [reports] as the background thread starts on it, the first write
    raises [KeyError], the handler of the outermost [try] raises it
    again on its own first write, and the exception leaves
    [process_report]; no record is written. *)
Theorem cleared_report_escapes (st : gmap string dict)
    (report_id address : string) :
  st !! report_id = None ->
  run report_id address (start st) = (Raise (KeyError report_id), start st).
Proof.
  intros H. unfold run, process_report, try_catch.
  unfold process_report_body at 1.
  assert (H' : reports (start st) !! report_id = None) by exact H.
  rewrite bind_unfold, (set_field_missing _ _ _ _ H').
  unfold process_report_failed.
  rewrite bind_unfold, (set_field_missing _ _ _ _ H'). reflexivity.
Qed.

End JobProperties.

Lemma terminal_status_settles_witness :
  let ps := polls "job-1" (store submitted)
              (snd (sample_run (sample_agent "evaluation") "job-1"
                      (store submitted))) in
  exists p q,
    (21 <= 27)%nat /\ ps !! 21%nat = Some p /\ ps !! 27%nat = Some q
    /\ terminal (poll_status p) = true
    /\ poll_status q = poll_status p.
Proof.
  intros ps.
  destruct (ps !! 21%nat) as [p |] eqn:P; [| vm_compute in P; discriminate P].
  destruct (ps !! 27%nat) as [q |] eqn:Q; [| vm_compute in Q; discriminate Q].
  exists p, q. split; [lia |]. split; [reflexivity |]. split; [reflexivity |].
  assert (T : terminal (poll_status p) = true).
  { vm_compute in P. injection P as <-. reflexivity. }
  split; [exact T |].
  exact (proj1 (terminal_status_settles (sample_agent "research")
                  (sample_agent "evaluation") (sample_agent "accessor")
                  (fun _ => Ok (JObj [])) (fun _ => Ok "<html></html>")
                  (FFinite 0) (fun _ => "Traceback") "November 04, 2026"
                  ∅ "job-1" (JStr "10 Downing Street") "Starting research..."
                  "2026-11-04T12:00:00" "10 Downing Street")
           21%nat 27%nat p q ltac:(lia) P Q T).
Defined.

(** With every stage succeeding, the poll taken right after the status
    is set to complete shows progress 70 and the one taken after the
    next write shows progress 100: two polls of a complete job with
    different answers. *)
Lemma terminal_polls_differ_counterexample :
  let ps := polls "job-1" (store submitted)
              (snd (sample_run (sample_agent "evaluation") "job-1"
                      (store submitted))) in
  exists p q,
    ps !! 21%nat = Some p /\ ps !! 22%nat = Some q
    /\ poll_status p = "complete" /\ poll_status q = "complete"
    /\ poll_progress p = 70 /\ poll_progress q = 100
    /\ p <> q.
Proof.
  vm_compute. do 2 eexists. split; [reflexivity |]. split; [reflexivity |].
  repeat split. discriminate.
Qed.

Lemma cleared_report_escapes_witness :
  store (snd (clear_report "job-1" submitted)) !! "job-1" = None
  /\ fst (sample_run (sample_agent "evaluation") "job-1"
            (store (snd (clear_report "job-1" submitted))))
     = Raise (KeyError "job-1").
Proof.
  split; [reflexivity |].
  unfold sample_run. rewrite cleared_report_escapes; reflexivity.
Defined.

(** ** Submission and retry *)

Lemma truthy_nonempty (s : string) : PyStr.truthy s = true <-> s <> "".
Proof. destruct s; simpl; split; congruence. Qed.

(** C7 (amended).  A submission fails at once, and [reports] and the
    threads stay as they are, exactly when the address is empty or no
    API key is configured.  Every other submission, whatever the length
    of its address, stores a fresh record (status processing, progress
    0) under the new id, starts one background thread for it and
    answers with the id; nothing of the pipeline has run when the
    answer is given. *)
Theorem submission_needs_address_and_key (api_key : option string)
    (report_id timestamp address : string) (s : server) :
  (address = "" ->
   generate_report api_key report_id timestamp address s
   = (JObj [("success", JBool false); ("message", JStr "Address is required")],
      s))
  /\ (address <> "" -> key_configured api_key = false ->
      generate_report api_key report_id timestamp address s
      = (JObj [("success", JBool false);
               ("message",
                  JStr "OpenAI API key not found. Please add it to your .env file.")],
         s))
  /\ (address <> "" -> key_configured api_key = true ->
      generate_report api_key report_id timestamp address s
      = (JObj [("success", JBool true);
               ("report_id", JStr report_id);
               ("message", JStr "Report generation started")],
         Server
           (<[report_id :=
                fresh_report (JStr address) "Starting research..." timestamp]>
              (store s))
           (threads s ++ [(report_id, JStr address)])%list)
      /\ status_of (fresh_report (JStr address) "Starting research..." timestamp)
         = "processing"
      /\ progress_of (fresh_report (JStr address) "Starting research..." timestamp)
         = 0).
Proof.
  unfold generate_report. split; [| split].
  - intros ->. reflexivity.
  - intros N K. apply truthy_nonempty in N. now rewrite N, K.
  - intros N K. apply truthy_nonempty in N. rewrite N, K. repeat split.
Qed.

Lemma submission_needs_address_and_key_witness :
  "abc" <> "" /\ key_configured (Some "sk-test") = true
  /\ fst (generate_report (Some "sk-test") "job-1" "2026-11-04T12:00:00" "abc"
            (Server ∅ []))
     = JObj [("success", JBool true);
             ("report_id", JStr "job-1");
             ("message", JStr "Report generation started")].
Proof.
  split; [discriminate |]. split; [reflexivity |].
  rewrite (proj1 (proj2 (proj2 (submission_needs_address_and_key
             (Some "sk-test") "job-1" "2026-11-04T12:00:00" "abc"
             (Server ∅ []))) ltac:(discriminate) eq_refl)).
  reflexivity.
Defined.

(** The address [abc] has three characters, [validate_address] judges
    it invalid, and yet its submission succeeds and creates a job. *)
Lemma short_address_accepted_counterexample :
  let r := generate_report (Some "sk-test") "job-1" "2026-11-04T12:00:00"
             "abc" (Server ∅ []) in
  PyStr.len "abc" < 10
  /\ field "valid" (validate_address "abc") = Some (JBool false)
  /\ field "success" (fst r) = Some (JBool true)
  /\ is_Some (store (snd r) !! "job-1")
  /\ threads (snd r) = [("job-1", JStr "abc")].
Proof.
  repeat split. vm_compute. eauto.
Qed.

(** C6 (amended).  A retry of a known job whose record has a non-empty
    address succeeds whatever the status of the job is: the record is
    replaced by a fresh one (status processing, progress 0, no error
    details, no retry hint) with the same address, and one more
    background thread is started for the same id.  A retry of an
    unknown id fails and changes nothing. *)
Theorem retry_restarts_any_known_job (timestamp report_id : string)
    (s : server) :
  (store s !! report_id = None ->
   retry_report timestamp report_id s
   = (JObj [("success", JBool false); ("message", JStr "Report not found")],
      s))
  /\ (forall r,
      store s !! report_id = Some r ->
      PyObj.truthy (dict_get_or "address" (JStr "") r) = true ->
      let address := dict_get_or "address" (JStr "") r in
      let fresh :=
        fresh_report address "Restarting report generation..." timestamp in
      retry_report timestamp report_id s
      = (JObj [("success", JBool true);
               ("report_id", JStr report_id);
               ("message", JStr "Report generation restarted")],
         Server (<[report_id := fresh]> (store s))
                (threads s ++ [(report_id, address)])%list)
      /\ status_of fresh = "processing"
      /\ progress_of fresh = 0
      /\ has_error fresh = false
      /\ dict_has "can_retry" fresh = false
      /\ dict_has "retry_after" fresh = false).
Proof.
  unfold retry_report. split.
  - intros ->. reflexivity.
  - intros r -> T. rewrite T. repeat split.
Qed.

Lemma retry_restarts_any_known_job_witness :
  (exists r,
      store completed !! "job-1" = Some r
      /\ PyObj.truthy (dict_get_or "address" (JStr "") r) = true
      /\ status_of r = "complete")
  /\ field "success" (fst (retry_report "2026-11-04T13:00:00" "job-1" completed))
     = Some (JBool true).
Proof.
  destruct (store completed !! "job-1") as [r |] eqn:E;
    [| vm_compute in E; discriminate E].
  assert (T : PyObj.truthy (dict_get_or "address" (JStr "") r) = true).
  { vm_compute in E. injection E as <-. reflexivity. }
  split.
  - exists r. split; [reflexivity |]. split; [exact T |].
    vm_compute in E. injection E as <-. reflexivity.
  - rewrite (proj1 (proj2 (retry_restarts_any_known_job "2026-11-04T13:00:00"
               "job-1" completed) r E T)).
    reflexivity.
Defined.

(** A job that is complete is not in the error state, and yet a retry of
    it succeeds: the record goes back to status processing and a second
    thread is started for the same id. *)
Lemma retry_of_complete_job_counterexample :
  let r := retry_report "2026-11-04T13:00:00" "job-1" completed in
  poll_status (report_status "job-1" completed) = "complete"
  /\ field "success" (fst r) = Some (JBool true)
  /\ poll_status (report_status "job-1" (snd r)) = "processing"
  /\ snd r <> completed
  /\ List.length (threads (snd r)) = 2%nat.
Proof.
  split; [reflexivity |]. split; [reflexivity |]. split; [reflexivity |].
  split; [| reflexivity].
  intros H. apply (f_equal (fun s => List.length (threads s))) in H.
  vm_compute in H. discriminate H.
Qed.
(** ** Serving, clearing and the retry hint *)

Lemma status_response_complete (report : dict) :
  field "complete" (status_response report)
  = Some (JBool (negb (not_complete report))).
Proof. unfold not_complete. now rewrite negb_involutive. Qed.

Lemma status_of_not_complete (report : dict) (status : string) :
  status_of report = status -> status <> "unknown" -> status <> "" ->
  dict_get "status" report = Some (JStr status).
Proof.
  unfold status_of, dict_get_or.
  destruct (dict_get "status" report) as [[| | | | s | |] |]; congruence.
Qed.

(** A report is shown, and a PDF of it is sent, exactly for a job whose
    poll says [complete]; the export also needs the PDF to be written
    without an exception, and turns every exception into a JSON answer. *)
Theorem report_served_when_poll_complete (repr : json -> string)
    (pdf_file : json -> result string) (report_id : string) (s : server) :
  let complete := field "complete" (report_status report_id s) in
  (serves_report (view_report repr report_id s) = true
   <-> complete = Some (JBool true))
  /\ (serves_report (export_pdf repr pdf_file report_id s) = true
      <-> complete = Some (JBool true)
          /\ exists report path,
               store s !! report_id = Some report
               /\ pdf_file (dict_get_or "content" (JObj []) report) = Ok path)
  /\ (forall report,
        store s !! report_id = Some report ->
        complete = Some (JBool true) ->
        view_report repr report_id s
        = RenderTemplate "report.html" [("report", JObj report)]).
Proof.
  unfold view_report, export_pdf, report_status.
  destruct (store s !! report_id) as [report |]; cbv zeta.
  - rewrite status_response_complete.
    destruct (not_complete report); simpl.
    + repeat split; try discriminate. intros [[=] _].
    + repeat split; trivial.
      * destruct (pdf_file _) as [path | e] eqn:P; [| discriminate].
        eauto.
      * intros [_ (r & path & [= <-] & ->)]. reflexivity.
      * intros r [= <-] _. reflexivity.
  - simpl. repeat split; try discriminate.
    intros [[=] _].
Qed.

(** ** Clearing and submitting *)

(** Clearing a known job removes its record and nothing else: the job
    is then unknown to a poll, to a second clear and to a retry, every
    other job is polled as before, and the threads are left as they
    are.  Clearing an unknown job changes nothing. *)
Theorem clear_report_forgets_one_job (report_id : string) (s : server) :
  let s' := snd (clear_report report_id s) in
  (store s !! report_id = None ->
   clear_report report_id s
   = (JObj [("success", JBool false); ("message", JStr "Report not found")],
      s))
  /\ (is_Some (store s !! report_id) ->
      fst (clear_report report_id s)
      = JObj [("success", JBool true); ("message", JStr "Report cleared")])
  /\ field "success" (report_status report_id s') = Some (JBool false)
  /\ clear_report report_id s'
     = (JObj [("success", JBool false); ("message", JStr "Report not found")],
        s')
  /\ (forall timestamp,
        retry_report timestamp report_id s'
        = (JObj [("success", JBool false);
                 ("message", JStr "Report not found")], s'))
  /\ (forall other,
        other <> report_id ->
        report_status other s' = report_status other s)
  /\ threads s' = threads s.
Proof.
  cbv zeta. unfold clear_report, retry_report, report_status.
  destruct (store s !! report_id) as [report |] eqn:E; simpl.
  - rewrite !lookup_delete_eq. repeat split; try discriminate.
    intros other N. now rewrite lookup_delete_ne.
  - rewrite !E. repeat split. intros [x [=]].
Qed.

(** A submission that is accepted is at once visible to a poll as a
    job in the initial state, leaves the polls of all other jobs as
    they were, and is undone on the store by a clear of the new id, if
    the id was free; the thread that the submission started stays. *)
Theorem submission_round_trip (api_key : option string)
    (report_id timestamp address : string) (s : server) :
  address <> "" -> key_configured api_key = true ->
  let s1 := snd (generate_report api_key report_id timestamp address s) in
  let poll := report_status report_id s1 in
  poll_status poll = "processing"
  /\ poll_progress poll = 0
  /\ poll_field "complete" poll = JBool false
  /\ poll_field "message" poll = JStr "Starting research..."
  /\ poll_field "error_details" poll = JNull
  /\ poll_field "can_retry" poll = JBool false
  /\ (forall other,
        other <> report_id ->
        report_status other s1 = report_status other s)
  /\ (store s !! report_id = None ->
      store (snd (clear_report report_id s1)) = store s)
  /\ threads (snd (clear_report report_id s1))
     = (threads s ++ [(report_id, JStr address)])%list.
Proof.
  intros N K. apply truthy_nonempty in N. unfold generate_report.
  rewrite N, K. cbv zeta. simpl snd. rewrite report_status_found.
  repeat split.
  - intros other O. unfold report_status. simpl.
    now rewrite lookup_insert_ne.
  - intros F. unfold clear_report. simpl. rewrite lookup_insert_eq. simpl.
    now rewrite delete_insert_id.
  - unfold clear_report. simpl. now rewrite lookup_insert_eq.
Qed.

Lemma submission_round_trip_witness :
  "10 Downing Street" <> "" /\ key_configured (Some "sk-test") = true
  /\ poll_status (report_status "job-1" submitted) = "processing".
Proof.
  split; [discriminate |]. split; [reflexivity |].
  exact (proj1 (submission_round_trip (Some "sk-test") "job-1"
                  "2026-11-04T12:00:00" "10 Downing Street" (Server ∅ [])
                  ltac:(discriminate) eq_refl)).
Defined.

(** The key check of the front page agrees with the submission route:
    it reports the key as configured exactly when a submission with an
    address is accepted. *)
Theorem api_key_status_predicts_submission (api_key : option string)
    (report_id timestamp address : string) (s : server) :
  address <> "" ->
  field "configured" (api_key_status api_key)
  = field "success"
      (fst (generate_report api_key report_id timestamp address s)).
Proof.
  intros N. apply truthy_nonempty in N. unfold generate_report, api_key_status.
  rewrite N. simpl. now destruct (key_configured api_key).
Qed.

Lemma api_key_status_predicts_submission_witness :
  "abc" <> ""
  /\ field "configured" (api_key_status None)
     = field "success"
         (fst (generate_report None "job-1" "2026-11-04T12:00:00" "abc"
                 (Server ∅ []))).
Proof.
  split; [discriminate |].
  exact (api_key_status_predicts_submission None "job-1"
           "2026-11-04T12:00:00" "abc" (Server ∅ []) ltac:(discriminate)).
Defined.

(** ** What is served after a run, and the retry hint *)

Section ServingProperties.

Variables research_agent evaluation_agent accessor_agent
  : json -> result json.
Variable report_sections : json -> result json.
Variable report_html_of : json -> result string.
Variable generation_timestamp : pyfloat.
Variable format_exc : exn -> string.
Variable report_date : string.

Let report_agent :=
  report_generator report_sections report_html_of generation_timestamp.

Let run :=
  process_report research_agent evaluation_agent accessor_agent
    report_sections report_html_of generation_timestamp format_exc
    report_date.

Let chain :=
  pipeline research_agent evaluation_agent accessor_agent report_agent.

(** Once the background run of a fresh record has ended, the report
    page shows the record with the approved data and the HTML of the
    report generator if every stage succeeded; if a stage raised, the
    page and the export both answer that the report is not ready, and
    the page gets the details that name the stage and the message of
    its exception. *)
Theorem finished_run_served_by_outcome (st : gmap string dict)
    (report_id : string) (a : json) (message timestamp address : string)
    (repr : json -> string) (pdf_file : json -> result string)
    (ts : list (string * json)) :
  let w := snd (run report_id address
                  (start (<[report_id := fresh_report a message timestamp]>
                            st))) in
  let s := Server (reports w) ts in
  match chain address with
  | Succeeded approved_data report_result =>
      exists report,
        view_report repr report_id s
        = RenderTemplate "report.html" [("report", JObj report)]
        /\ dict_get "data" report = Some approved_data
        /\ dict_get "html" report = field "report_html" report_result
        /\ dict_get "content" report = field "report_content" report_result
        /\ (serves_report (export_pdf repr pdf_file report_id s) = true
            <-> exists path,
                  pdf_file (dict_get_or "content" (JObj []) report) = Ok path)
  | Failed stage e =>
      exists details,
        view_report repr report_id s
        = RenderTemplate "error.html"
            [("message", JStr "Report is not ready yet. Status: error");
             ("details", details)]
        /\ field "agent" details = Some (JStr stage)
        /\ field "error" details = Some (JStr (exn_str e))
        /\ export_pdf repr pdf_file report_id s
           = Jsonify
               (JObj [("success", JBool false);
                      ("message",
                         JStr "Report is not ready yet. Status: error")])
  end.
Proof.
  cbv zeta.
  destruct (process_report_run research_agent evaluation_agent accessor_agent
              report_sections report_html_of generation_timestamp format_exc
              report_date st report_id a message timestamp address)
    as (rs & rf & R & _ & _ & _ & _ & F).
  unfold run. rewrite R. unfold chain, report_agent.
  unfold view_report, export_pdf. simpl. rewrite lookup_insert_eq.
  destruct (pipeline _ _ _ _ address) as [stage e | approved result];
    simpl in F.
  - destruct F as (S & _ & _ & A & E).
    apply status_of_not_complete in S; [| discriminate | discriminate].
    unfold not_complete, not_ready, dict_get_or in *. rewrite S. simpl.
    eexists. repeat split; eassumption.
  - destruct F as (S & _ & _ & D & H & C).
    apply status_of_not_complete in S; [| discriminate | discriminate].
    unfold not_complete, dict_get_or in *. rewrite S. simpl.
    exists rf. repeat split; try assumption.
    + destruct (pdf_file _) as [path | e]; [eauto | discriminate].
    + intros [path ->]. reflexivity.
Qed.

(** A job whose stage raised shows the retry hint in its polls exactly
    when the message of the exception mentions a rate limit, in any
    letter case: then the poll carries the fixed rate-limit message,
    [can_retry] and a wait of 60 seconds; otherwise it carries the
    message of the exception with the name of the stage, and no hint. *)
Theorem failed_job_retry_hint (st : gmap string dict) (report_id : string)
    (a : json) (message timestamp address stage : string) (e : exn) :
  chain address = Failed stage e ->
  let w := snd (run report_id address
                  (start (<[report_id := fresh_report a message timestamp]>
                            st))) in
  let poll := report_status report_id (Server (reports w) []) in
  poll_status poll = "error"
  /\ poll_field "complete" poll = JBool false
  /\ if mentions_rate_limit e then
       poll_field "message" poll
       = JStr "OpenAI API rate limit reached. Please try again later."
       /\ poll_field "can_retry" poll = JBool true
       /\ poll_field "retry_after" poll = JInt 60
     else
       poll_field "message" poll
       = JStr ("Error in " ++ stage ++ " agent: " ++ exn_str e)
       /\ poll_field "can_retry" poll = JBool false
       /\ poll_field "retry_after" poll = JInt 0.
Proof.
  assert (G : forall (rf : dict) (news : list dict) (names : list string) c,
    steps report_id
      (try_catch
         (process_report_body research_agent evaluation_agent accessor_agent
            report_sections report_html_of generation_timestamp format_exc
            report_date report_id address)
         (process_report_failed format_exc report_id))
      (fresh_report a message timestamp) c rf news names ->
    forall P : json -> Prop,
      P (status_response rf) ->
      P (report_status report_id
           (Server (reports (snd (run report_id address
              (start (<[report_id := fresh_report a message timestamp]> st)))))
              []))).
  { intros rf news names c H P HP. unfold run.
    rewrite (ev_process_report _ _ _ _ _ _ _ _ _ _ _ _ _ _ _ _ H).
    simpl. now rewrite report_status_found. }
  unfold chain, pipeline, mentions_rate_limit. cbv zeta.
  destruct (research_agent _) as [pd | e1] eqn:R1.
  2: { intros [= <- <-].
       destruct (PyText.infix _ _) eqn:I;
         (eapply G; [unfold process_report_body; ev |]);
         vm_compute; repeat split; reflexivity. }
  destruct (evaluation_agent _) as [er | e2] eqn:R2.
  2: { intros [= <- <-].
       destruct (PyText.infix _ _) eqn:I;
         (eapply G; [unfold process_report_body; ev |]);
         vm_compute; repeat split; reflexivity. }
  destruct (accessor_agent _) as [ad | e3] eqn:R3.
  2: { intros [= <- <-].
       destruct (PyText.infix _ _) eqn:I;
         (eapply G; [unfold process_report_body; ev |]);
         vm_compute; repeat split; reflexivity. }
  destruct (report_agent _) as [rr | e4] eqn:R4; [discriminate |].
  intros [= <- <-].
  destruct (PyText.infix _ _) eqn:I;
    (eapply G; [unfold process_report_body; ev |]);
    vm_compute; repeat split; reflexivity.
Qed.

End ServingProperties.

Lemma failed_job_retry_hint_witness :
  pipeline (sample_agent "research") (failing_agent "Rate limit exceeded")
    (sample_agent "accessor")
    (report_generator (fun _ => Ok (JObj [])) (fun _ => Ok "<html></html>")
       (FFinite 0))
    "10 Downing Street"
  = Failed "evaluation" (Exn "Exception" "Rate limit exceeded")
  /\ poll_field "can_retry"
       (report_status "job-1"
          (Server
             (reports (snd (sample_run (failing_agent "Rate limit exceeded")
                              "job-1" (store submitted)))) []))
     = JBool true.
Proof.
  split; [reflexivity |].
  pose proof (failed_job_retry_hint (sample_agent "research")
                (failing_agent "Rate limit exceeded") (sample_agent "accessor")
                (fun _ => Ok (JObj [])) (fun _ => Ok "<html></html>")
                (FFinite 0) (fun _ => "Traceback") "November 04, 2026"
                ∅ "job-1" (JStr "10 Downing Street") "Starting research..."
                "2026-11-04T12:00:00" "10 Downing Street" "evaluation"
                (Exn "Exception" "Rate limit exceeded") eq_refl) as H.
  exact (proj1 (proj2 (proj2 (proj2 H)))).
Defined.

(** ** The communication bus *)

Lemma send_message_lookup (now : pyfloat) (from_agent to_agent : string)
    (message : json) (q : Bus.message_queue) (a : string) :
  default [] (Bus.send_message now from_agent to_agent message q !! a)
  = if String.eqb to_agent a
    then (default [] (q !! a)
          ++ [delivered (Sending now from_agent to_agent message)])%list
    else default [] (q !! a).
Proof.
  unfold Bus.send_message, delivered. simpl.
  destruct (String.eqb_spec to_agent a) as [-> | N].
  - rewrite lookup_insert_eq. simpl.
    destruct (q !! a) eqn:E; [now rewrite E |].
    now rewrite lookup_insert_eq.
  - rewrite lookup_insert_ne by exact N.
    destruct (q !! to_agent); [reflexivity |].
    now rewrite lookup_insert_ne by exact N.
Qed.

Lemma send_all_lookup (sendings : list sending) :
  forall (q : Bus.message_queue) (a : string),
    default [] (send_all sendings q !! a)
    = (default [] (q !! a)
       ++ List.map delivered (addressed_to a sendings))%list.
Proof.
  induction sendings as [|[now f t m] rest IH]; intros q a; simpl.
  - now rewrite List.app_nil_r.
  - unfold send_all in *. simpl. rewrite IH, send_message_lookup.
    destruct (String.eqb t a); simpl; [| reflexivity].
    now rewrite <- List.app_assoc.
Qed.

(** Every message sent to an agent is handed over exactly once, in the
    order of sending and behind what was already waiting: the first
    [get_messages] returns them all, the next one returns nothing, and
    what waits for any other agent is not touched. *)
Theorem bus_delivers_in_order_once (sendings : list sending)
    (q : Bus.message_queue) (agent_name : string) :
  let q1 := send_all sendings q in
  let q2 := snd (Bus.get_messages agent_name q1) in
  fst (Bus.get_messages agent_name q1)
  = (default [] (q !! agent_name)
     ++ List.map delivered (addressed_to agent_name sendings))%list
  /\ fst (Bus.get_messages agent_name q2) = []
  /\ (forall other,
        other <> agent_name ->
        fst (Bus.get_messages other q2) = fst (Bus.get_messages other q1))
  /\ (forall again,
        fst (Bus.get_messages agent_name (send_all again q2))
        = List.map delivered (addressed_to agent_name again)).
Proof.
  cbv zeta. unfold Bus.get_messages. simpl. repeat split.
  - apply send_all_lookup.
  - now rewrite lookup_insert_eq.
  - intros other N. now rewrite lookup_insert_ne.
  - intros again. rewrite send_all_lookup. now rewrite lookup_insert_eq.
Qed.

(** [has_messages] says exactly whether [get_messages] would return
    anything; asking does not change the queue, while [get_messages]
    leaves an (empty) entry even for an agent that was never written
    to. *)
Theorem bus_has_messages_iff_some_waiting (q : Bus.message_queue)
    (agent_name : string) :
  (Bus.has_messages agent_name q = true
   <-> fst (Bus.get_messages agent_name q) <> [])
  /\ Bus.has_messages agent_name (snd (Bus.get_messages agent_name q)) = false
  /\ snd (Bus.get_messages agent_name q) !! agent_name = Some []
  /\ (forall now from_agent message,
        Bus.has_messages agent_name
          (Bus.send_message now from_agent agent_name message q) = true).
Proof.
  unfold Bus.has_messages, Bus.get_messages. simpl.
  rewrite lookup_insert_eq. repeat split.
  - destruct (q !! agent_name) as [[|m l] |]; cbn; intros H;
      congruence.
  - destruct (q !! agent_name) as [[|m l] |]; cbn; intros H;
      congruence || reflexivity.
  - intros now f m. unfold Bus.send_message. rewrite lookup_insert_eq.
    rewrite List.length_app. simpl. apply Nat.ltb_lt. lia.
Qed.

(** ** More on [execute_workflow] *)

Section WorkflowMore.

Variable agents : gmap string Orchestrator.agent.
Variable repr_len : dict -> Z.

Let run_step := Orchestrator.run_step agents repr_len.
Let run_steps := Orchestrator.run_steps agents repr_len.
Let execute_workflow := Orchestrator.execute_workflow agents repr_len.

Lemma run_step_info (s : Orchestrator.step) (current : dict)
    (calls calls' : list string) (out : dict) (info : json) :
  run_step s current calls = (Ok (out, info), calls') ->
  exists id process,
    Orchestrator.agent_id s = Some id
    /\ agents !! id = Some process
    /\ process (dict_merge current (Orchestrator.parameters s)) = Ok out
    /\ calls' = (calls ++ [id])%list
    /\ succeeded_as id info
    /\ exists d, info = JObj d.
Proof.
  unfold run_step, Orchestrator.run_step.
  destruct (Orchestrator.agent_id s) as [id |]; [| discriminate].
  destruct (negb (PyStr.truthy id)); [discriminate |].
  destruct (agents !! id) as [process |] eqn:A; [| discriminate].
  destruct (process _) eqn:P; [| discriminate].
  intros [= <- <- <-]. exists id, process. repeat split; eauto.
Qed.

(** A workflow that completes leaves off where its continuation takes
    up. *)
Lemma run_steps_app (first : list Orchestrator.step) :
  forall second current steps calls steps1 current1 calls1,
    run_steps first current steps calls
    = (JObj [("workflow_steps", JArr steps1);
             ("final_result", JObj current1);
             ("status", JStr "complete")], calls1) ->
    run_steps (first ++ second) current steps calls
    = run_steps second current1 steps1 calls1.
Proof.
  induction first as [|s rest IH]; intros second current steps calls
    steps1 current1 calls1; simpl.
  - now intros [= <- <- <-].
  - fold run_step. fold run_steps.
    destruct (run_step s current calls) as [[[out info] | e] calls'];
      [| discriminate].
    apply IH.
Qed.

(** The entries that a completed workflow has added, one per step. *)
Lemma run_steps_complete (workflow : list Orchestrator.step) :
  forall current steps calls steps1 current1 calls1,
    run_steps workflow current steps calls
    = (JObj [("workflow_steps", JArr steps1);
             ("final_result", JObj current1);
             ("status", JStr "complete")], calls1) ->
    exists infos,
      steps1 = (steps ++ infos)%list
      /\ List.Forall2
           (fun s info =>
              exists id d,
                Orchestrator.agent_id s = Some id
                /\ succeeded_as id info /\ info = JObj d)
           workflow infos
      /\ calls1 = (calls ++ omap Orchestrator.agent_id workflow)%list.
Proof.
  induction workflow as [|s rest IH]; intros current steps calls
    steps1 current1 calls1; simpl.
  - intros [= <- <- <-]. exists []. rewrite !List.app_nil_r.
    repeat split. constructor.
  - fold run_step. fold run_steps.
    destruct (run_step s current calls) as [[[out info] | e] calls'] eqn:E;
      [| discriminate].
    intros H. apply IH in H as (infos & -> & F & ->).
    destruct (run_step_info _ _ _ _ _ _ E)
      as (id & process & I & _ & _ & -> & S & d & ->).
    exists (JObj d :: infos). rewrite I. simpl.
    rewrite <- !List.app_assoc. repeat split.
    constructor; [| exact F]. exists id, d.
    split; [exact I |]. split; [exact S | reflexivity].
Qed.

Lemma mark_last_snoc (e : exn) (steps : list json) (d : dict) :
  Orchestrator.mark_last e (steps ++ [JObj d])%list
  = (steps
     ++ [JObj (dict_set "error" (JStr (exn_str e))
                 (dict_set "status" (JStr "error") d))])%list.
Proof.
  induction steps as [|x rest IH]; [reflexivity |].
  change ((x :: rest) ++ [JObj d])%list with (x :: (rest ++ [JObj d]))%list.
  assert (N : (rest ++ [JObj d])%list <> []) by (now destruct rest).
  simpl. destruct (rest ++ [JObj d])%list as [|y l] eqn:E; [congruence |].
  rewrite <- IH. now destruct x.
Qed.

Lemma mark_last_length (e : exn) (steps : list json) :
  List.length (Orchestrator.mark_last e steps) = List.length steps.
Proof.
  induction steps as [|x rest IH]; [reflexivity |].
  destruct rest as [|y l]; [now destruct x |].
  change (Orchestrator.mark_last e (x :: y :: l))
    with (match x with
          | JObj _ => x :: Orchestrator.mark_last e (y :: l)
          | _ => x :: Orchestrator.mark_last e (y :: l)
          end).
  destruct x; cbn [List.length]; f_equal; exact IH.
Qed.

Lemma blamed_after_mark (id : string) (e : exn) (d : dict) :
  succeeded_as id (JObj d) ->
  blamed_as id e
    (JObj (dict_set "error" (JStr (exn_str e))
             (dict_set "status" (JStr "error") d))).
Proof.
  unfold succeeded_as, blamed_as. simpl. intros (A & S & E).
  rewrite dict_get_set_eq, !dict_get_set_ne by discriminate.
  rewrite dict_get_set_eq. repeat split. exact A.
Qed.

(** Workflows compose: when a first workflow completes, running it
    followed by a second one does what the second one does on the final
    result of the first, with the entries and the agents of the first
    in front.  In particular the empty workflow completes at once with
    the initial data as its final result. *)
Theorem workflow_composes (first second : list Orchestrator.step)
    (initial_data current : dict) (steps1 : list json)
    (calls1 : list string) :
  execute_workflow first initial_data
  = (JObj [("workflow_steps", JArr steps1);
           ("final_result", JObj current);
           ("status", JStr "complete")], calls1) ->
  execute_workflow (first ++ second) initial_data
  = run_steps second current steps1 calls1
  /\ field "status" (fst (execute_workflow (first ++ second) initial_data))
     = field "status" (fst (execute_workflow second current))
  /\ field "final_result"
       (fst (execute_workflow (first ++ second) initial_data))
     = field "final_result" (fst (execute_workflow second current))
  /\ List.length steps1 = List.length first
  /\ execute_workflow [] initial_data
     = (JObj [("workflow_steps", JArr []);
              ("final_result", JObj initial_data);
              ("status", JStr "complete")], []).
Proof.
  unfold execute_workflow, Orchestrator.execute_workflow. intros H.
  fold run_steps in H |- *.
  rewrite (run_steps_app _ second _ _ _ _ _ _ H).
  destruct (run_steps_complete _ _ _ _ _ _ _ H) as (infos & -> & F & ->).
  simpl in *. split; [reflexivity |].
  assert (G : forall w c steps steps' calls calls',
            field "status" (fst (run_steps w c steps calls))
            = field "status" (fst (run_steps w c steps' calls'))
            /\ field "final_result" (fst (run_steps w c steps calls))
               = field "final_result" (fst (run_steps w c steps' calls'))).
  { induction w as [|s rest IH]; intros c steps steps' calls calls'; simpl;
      [now split |].
    fold run_step. fold run_steps.
    unfold run_step, Orchestrator.run_step.
    destruct (Orchestrator.agent_id s) as [id |]; [| now split].
    destruct (negb (PyStr.truthy id)); [now split |].
    destruct (agents !! id) as [process |]; [| now split].
    destruct (process _); [apply IH | now split]. }
  split; [apply G |]. split; [apply G |].
  split; [| reflexivity]. symmetry. exact (List.Forall2_length F).
Qed.

(** When a step raises, the workflow ends with status error, the
    steps after it are never run, and the failing step itself gets no
    entry in [workflow_steps]: the entries are those of the steps that
    succeeded, and the last of them, the step before the failing one,
    is the entry marked as failed with the message of the exception.
    A first step that fails leaves [workflow_steps] empty. *)
Theorem workflow_failure_marks_previous_step
    (done : list Orchestrator.step) (s : Orchestrator.step)
    (rest : list Orchestrator.step) (initial_data current : dict)
    (steps1 : list json) (calls1 calls2 : list string) (e : exn) :
  execute_workflow done initial_data
  = (JObj [("workflow_steps", JArr steps1);
           ("final_result", JObj current);
           ("status", JStr "complete")], calls1) ->
  run_step s current calls1 = (Raise e, calls2) ->
  exists entries,
    execute_workflow (done ++ s :: rest) initial_data
    = (JObj [("workflow_steps", JArr entries);
             ("final_result", JNull);
             ("status", JStr "error");
             ("error", JStr (exn_str e))], calls2)
    /\ List.length entries = List.length done
    /\ (done = [] -> entries = [])
    /\ (forall before previous,
          done = (before ++ [previous])%list ->
          exists id earlier info,
            Orchestrator.agent_id previous = Some id
            /\ entries = (earlier ++ [info])%list
            /\ blamed_as id e info
            /\ List.Forall2
                 (fun s info =>
                    exists id d,
                      Orchestrator.agent_id s = Some id
                      /\ succeeded_as id info /\ info = JObj d)
                 before earlier).
Proof.
  unfold execute_workflow, Orchestrator.execute_workflow. intros H R.
  fold run_steps in H |- *.
  rewrite (run_steps_app _ (s :: rest) _ _ _ _ _ _ H). simpl.
  fold run_step. rewrite R.
  destruct (run_steps_complete _ _ _ _ _ _ _ H) as (infos & -> & F & ->).
  simpl in *. eexists. split; [reflexivity |]. split; [| split].
  - rewrite mark_last_length. symmetry. exact (List.Forall2_length F).
  - intros ->. now inversion F.
  - intros before previous ->.
    apply List.Forall2_app_inv_l in F as (earlier & l & Fb & Fp & ->).
    inversion Fp as [| ? info ? ? (id & d & I & S & ->) Fn]; subst.
    inversion Fn; subst.
    exists id, earlier. eexists. split; [exact I |].
    split; [apply mark_last_snoc |]. split; [| exact Fb].
    now apply blamed_after_mark.
Qed.

(** A step that names no agent, or one that is not registered, fails
    before any agent is entered, with the message that quotes the id;
    a registered agent is found under its id until another one is
    registered under the same id. *)
Theorem workflow_needs_registered_agent (s : Orchestrator.step)
    (current : dict) (calls : list string) :
  (Orchestrator.agent_id s = None ->
   run_step s current calls
   = (Raise (Exn "ValueError" "Invalid agent ID: None"), calls))
  /\ (forall id,
        Orchestrator.agent_id s = Some id ->
        id = "" \/ get_agent id agents = None ->
        run_step s current calls
        = (Raise (Exn "ValueError" ("Invalid agent ID: " ++ id)), calls))
  /\ (forall id process,
        Orchestrator.agent_id s = Some id -> id <> "" ->
        Orchestrator.run_step (register_agent id process agents) repr_len
          s current calls
        = (match process (dict_merge current (Orchestrator.parameters s)) with
           | Ok out =>
               Ok (out,
                   JObj [("agent_id", JStr id);
                         ("input_size",
                            JInt (repr_len
                                    (dict_merge current
                                       (Orchestrator.parameters s))));
                         ("output_size", JInt (repr_len out));
                         ("status", JStr "success")])
           | Raise e => Raise e
           end, (calls ++ [id])%list)).
Proof.
  unfold run_step, Orchestrator.run_step, get_agent, register_agent.
  repeat split.
  - intros ->. reflexivity.
  - intros id -> [-> | N]; [reflexivity |]. rewrite N.
    now destruct (negb (PyStr.truthy id)).
  - intros id process -> N. apply truthy_nonempty in N. rewrite N. simpl.
    rewrite lookup_insert_eq. now destruct (process _).
Qed.

End WorkflowMore.

(** ** The retry loop of agents/base_agent.py, answer by answer *)

Section BaseAnswers.

Variable agent_name : string.
Variables (max_retries retry_delay : Z).
Variable post : nat -> Base.post_outcome.

Let for_attempts := Base.for_attempts max_retries retry_delay post.

Lemma answer_some (o : Base.post_outcome) (j : json) :
  answer o = Some j -> o = Base.Response 200 (Ok j).
Proof.
  destruct o as [e | status [body | e]]; simpl; try discriminate.
  destruct (Z.eqb_spec status 200); [| discriminate]. now intros [= ->]; subst.
Qed.

Lemma for_attempts_first_answer (len : nat) :
  forall (n : nat) (trace : list event) (k : nat) (j : json),
    (n + len)%nat = Z.to_nat max_retries ->
    (n <= k < n + len)%nat ->
    (forall i, (n <= i < k)%nat -> answer (post i) = None) ->
    answer (post k) = Some j ->
    exists trace',
      for_attempts (List.map Z.of_nat (List.seq n len)) n trace
      = (Returned j, trace')
      /\ requests trace' = (requests trace + (k - n) + 1)%nat
      /\ (sleeps trace' <= sleeps trace + (k - n))%nat.
Proof.
  induction len as [|len IH]; intros n trace k j M K F A; [lia |].
  destruct (Nat.eq_dec n k) as [-> | N].
  - apply answer_some in A. simpl. rewrite A. simpl. eexists.
    split; [reflexivity |]. count_events. lia.
  - assert (R : forall tr,
              requests tr = (requests trace + 1)%nat ->
              (sleeps tr <= sleeps trace + 1)%nat ->
              exists trace',
                for_attempts (List.map Z.of_nat (List.seq (S n) len)) (S n) tr
                = (Returned j, trace')
                /\ requests trace' = (requests trace + (k - n) + 1)%nat
                /\ (sleeps trace' <= sleeps trace + (k - n))%nat).
    { intros tr Rq Sl.
      destruct (IH (S n) tr k j) as (trace' & E & Rq' & Sl');
        [lia | lia | intros i I; apply F; lia | exact A |].
      exists trace'. split; [exact E |]. lia. }
    assert (X : (Z.of_nat n <? max_retries - 1) = true)
      by (apply Z.ltb_lt; lia).
    specialize (F n ltac:(lia)). simpl.
    unfold Base.on_exception. rewrite X.
    destruct (post n) as [e | status [body | e]]; simpl in F |- *.
    + apply R; count_events; lia.
    + destruct (status =? 200); [discriminate |].
      destruct (status =? 429); [apply R; count_events; lia |].
      destruct (Base.raise_for_status status); apply R; count_events; lia.
    + destruct (status =? 200); [apply R; count_events; lia |].
      destruct (status =? 429); [apply R; count_events; lia |].
      destruct (Base.raise_for_status status); apply R; count_events; lia.
Qed.

Lemma for_attempts_no_answer (len : nat) :
  forall (n : nat) (trace : list event),
    (n + len)%nat = Z.to_nat max_retries ->
    (forall i, (n <= i < n + len)%nat -> answer (post i) = None) ->
    exists e trace',
      for_attempts (List.map Z.of_nat (List.seq n len)) n trace
      = (Raised e, trace')
      /\ requests trace' = (requests trace + len)%nat.
Proof.
  induction len as [|len IH]; intros n trace M F.
  - simpl. do 2 eexists. split; [reflexivity | lia].
  - assert (R : forall tr,
              requests tr = (requests trace + 1)%nat ->
              exists e trace',
                for_attempts (List.map Z.of_nat (List.seq (S n) len)) (S n) tr
                = (Raised e, trace')
                /\ requests trace' = (requests trace + S len)%nat).
    { intros tr Rq.
      destruct (IH (S n) tr) as (e & trace' & E & Rq');
        [lia | intros i I; apply F; lia |].
      exists e, trace'. split; [exact E | lia]. }
    assert (Q : forall (e : exn) tr,
              requests tr = (requests trace + 1)%nat ->
              exists e' trace',
                match Base.on_exception max_retries retry_delay
                        (Z.of_nat n) e tr with
                | (None, tr') =>
                    for_attempts (List.map Z.of_nat (List.seq (S n) len))
                      (S n) tr'
                | (Some e, tr') => (Raised e, tr')
                end = (Raised e', trace')
                /\ requests trace' = (requests trace + S len)%nat).
    { intros e tr Rq. unfold Base.on_exception.
      destruct (Z.ltb_spec (Z.of_nat n) (max_retries - 1)).
      - apply R. count_events. lia.
      - do 2 eexists. split; [reflexivity |].
        assert (len = 0%nat) by lia. lia. }
    specialize (F n ltac:(lia)). simpl.
    destruct (post n) as [e | status [body | e]]; simpl in F |- *.
    + apply Q. count_events. lia.
    + destruct (status =? 200); [discriminate |].
      destruct (status =? 429); [apply R; count_events; lia |].
      destruct (Base.raise_for_status status);
        [apply R | apply Q]; count_events; lia.
    + destruct (status =? 200); [apply Q; count_events; lia |].
      destruct (status =? 429); [apply R; count_events; lia |].
      destruct (Base.raise_for_status status);
        [apply R | apply Q]; count_events; lia.
Qed.

End BaseAnswers.

(** With an API key, [call_openai_api] of agents/base_agent.py returns
    the body of the first response with status 200 that decodes, if
    there is one among the first [max_retries] responses, after one
    request for it and one for each response before it; whatever came
    before it (an exception, an error status, a rate limit, a body that
    does not decode) is retried.  If there is none, the call raises
    after exactly [max_retries] requests. *)
Theorem base_call_first_answer_wins (agent_name key : string)
    (max_retries retry_delay : Z) (post : nat -> Base.post_outcome) :
  key <> "" ->
  let r := Base.call_openai_api agent_name max_retries retry_delay
             (Some key) post in
  (forall (k : nat) (j : json),
      (k < Z.to_nat max_retries)%nat ->
      (forall i, (i < k)%nat -> answer (post i) = None) ->
      answer (post k) = Some j ->
      fst r = Returned j
      /\ requests (snd r) = (k + 1)%nat
      /\ (sleeps (snd r) <= k)%nat)
  /\ ((forall i, (i < Z.to_nat max_retries)%nat -> answer (post i) = None) ->
      (exists e, fst r = Raised e)
      /\ requests (snd r) = Z.to_nat max_retries).
Proof.
  intros N. cbv zeta. unfold Base.call_openai_api, Base.range.
  destruct key as [|c key]; [congruence |]. split.
  - intros k j K F A.
    destruct (for_attempts_first_answer max_retries retry_delay post
                (Z.to_nat max_retries) 0 [] k j)
      as (trace' & -> & Rq & Sl);
      [lia | lia | intros i I; apply F; lia | exact A |].
    simpl in *. repeat split; lia.
  - intros F.
    destruct (for_attempts_no_answer max_retries retry_delay post
                (Z.to_nat max_retries) 0 [])
      as (e & trace' & -> & Rq);
      [lia | intros i I; apply F; lia |].
    simpl in *. split; [eauto | lia].
Qed.

Lemma base_call_first_answer_wins_witness :
  "sk-test" <> ""
  /\ fst (Base.call_openai_api "Research Agent" 3 2 (Some "sk-test")
            (fun n => match n with
                      | 2%nat => Base.Response 200 (Ok (JObj []))
                      | _ => Base.Response 500 (Raise JSONDecodeError)
                      end))
     = Returned (JObj []).
Proof.
  split; [discriminate |].
  refine (proj1 (proj1 (base_call_first_answer_wins "Research Agent" "sk-test"
                   3 2 _ ltac:(discriminate)) 2%nat (JObj []) _ _ _)).
  - vm_compute. lia.
  - intros [|[|i]] I; [reflexivity | reflexivity | lia].
  - reflexivity.
Defined.

(** ** Rate limits, in both base classes *)

Lemma lower_app (a b : string) :
  PyText.lower (a ++ b) = PyText.lower a ++ PyText.lower b.
Proof.
  induction a as [|c a IH]; [reflexivity |].
  rewrite app_cons. simpl. now rewrite app_cons, IH.
Qed.

Lemma infix_app_r (needle a b : string) :
  PyText.infix needle b = true -> PyText.infix needle (a ++ b) = true.
Proof.
  intros H. induction a as [|c a IH]; [exact H |].
  rewrite app_cons. simpl. rewrite IH. now destruct (PyText.prefix _ _).
Qed.

(** The characters of a decimal numeral. *)
Lemma dec_numeral (fuel : nat) :
  forall (n : Z) (acc : list ascii),
    0 <= n ->
    List.Forall (fun c => Ascii.eqb "r" (PyText.lower_char c) = false) acc ->
    List.Forall (fun c => Ascii.eqb "r" (PyText.lower_char c) = false)
      (PyText.dec fuel n acc).
Proof.
  induction fuel as [|fuel IH]; intros n acc N F; [exact F |].
  assert (D : Ascii.eqb "r" (PyText.lower_char (PyText.digit_char (n mod 10)))
              = false).
  { pose proof (Z.mod_pos_bound n 10 ltac:(lia)) as B.
    assert (C : n mod 10 = 0 \/ n mod 10 = 1 \/ n mod 10 = 2 \/ n mod 10 = 3
                \/ n mod 10 = 4 \/ n mod 10 = 5 \/ n mod 10 = 6
                \/ n mod 10 = 7 \/ n mod 10 = 8 \/ n mod 10 = 9) by lia.
    repeat (destruct C as [-> | C]; [reflexivity |]). now rewrite C. }
  simpl. destruct (n <? 10).
  - now constructor.
  - apply IH; [apply Z.div_pos; lia | now constructor].
Qed.

Lemma no_rate_limit_in_attempts (l : list ascii) :
  List.Forall (fun c => Ascii.eqb "r" (PyText.lower_char c) = false) l ->
  PyText.infix "rate limit"
    (PyText.lower (string_of_list_ascii l ++ " attempts")) = false.
Proof.
  induction 1 as [|c l C F IH]; [reflexivity |].
  simpl string_of_list_ascii. rewrite app_cons. simpl.
  simpl in C. rewrite C. exact IH.
Qed.

Lemma failed_after_attempts_no_rate_limit (max_retries : Z) :
  mentions_rate_limit
    (Exn "Exception"
       ("Failed to call OpenAI API after " ++ PyText.str_int max_retries
        ++ " attempts")) = false.
Proof.
  unfold mentions_rate_limit, exn_str.
  assert (H : exists l,
            PyText.str_int max_retries = string_of_list_ascii l
            /\ List.Forall
                 (fun c => Ascii.eqb "r" (PyText.lower_char c) = false) l).
  { unfold PyText.str_int, PyText.nat_digits.
    pose proof (dec_numeral (S (Z.to_nat (Z.log2 (Z.abs max_retries))))
                  (Z.abs max_retries) [] (Z.abs_nonneg _)
                  (List.Forall_nil _)) as D.
    destruct (max_retries <? 0).
    - exists ("-"%char :: PyText.dec (S (Z.to_nat (Z.log2 (Z.abs max_retries))))
                            (Z.abs max_retries) []).
      split; [reflexivity | now constructor].
    - eexists. split; [reflexivity | exact D]. }
  destruct H as (l & -> & F).
  pose proof (no_rate_limit_in_attempts l F) as G.
  repeat rewrite app_cons. rewrite app_nil_l. cbn. exact G.
Qed.

Section BaseRateLimit.

Variables (max_retries retry_delay : Z).
Variable post : nat -> Base.post_outcome.
Hypothesis limited : forall n, exists body, post n = Base.Response 429 body.

Lemma for_attempts_rate_limited (attempts : list Z) :
  forall (n : nat) (trace : list event),
    Base.for_attempts max_retries retry_delay post attempts n trace
    = (Raised (Exn "Exception"
                 ("Failed to call OpenAI API after "
                  ++ PyText.str_int max_retries ++ " attempts")),
       (trace
        ++ List.flat_map
             (fun attempt =>
                [Request; Sleep (inject_Z (2 ^ attempt * retry_delay))])
             attempts)%list).
Proof.
  induction attempts as [|attempt rest IH]; intros n trace; simpl.
  - now rewrite List.app_nil_r.
  - destruct (limited n) as [body ->]. simpl. rewrite IH.
    unfold Base.wait_time. now rewrite <- !List.app_assoc.
Qed.

End BaseRateLimit.

Lemma slept_flat_map (wait : Z -> Q) (attempts : list Z) :
  slept (List.flat_map (fun attempt => [Request; Sleep (wait attempt)])
           attempts)
  = List.map wait attempts
  /\ requests (List.flat_map (fun attempt => [Request; Sleep (wait attempt)])
                 attempts)
     = List.length attempts
  /\ sleeps (List.flat_map (fun attempt => [Request; Sleep (wait attempt)])
               attempts)
     = List.length attempts.
Proof.
  induction attempts as [|a l (IH1 & IH2 & IH3)]; [now repeat split |].
  simpl. unfold slept, requests, sleeps in *. simpl.
  rewrite IH1, IH2, IH3. now repeat split.
Qed.

(** A service that answers 429 to every request makes
    [call_openai_api] of agents/base_agent.py send [max_retries]
    requests and sleep after each of them, the last one included, for
    [retry_delay], twice that, four times that and so on; the call then
    raises [Failed to call OpenAI API after N attempts].  That message
    does not mention a rate limit, so the job that ends this way shows
    no retry hint. *)
Theorem base_rate_limited_call (agent_name key : string)
    (max_retries retry_delay : Z) (post : nat -> Base.post_outcome) :
  key <> "" ->
  (forall n, exists body, post n = Base.Response 429 body) ->
  exists e trace,
    Base.call_openai_api agent_name max_retries retry_delay (Some key) post
    = (Raised e, trace)
    /\ exn_str e
       = "Failed to call OpenAI API after " ++ PyText.str_int max_retries
         ++ " attempts"
    /\ requests trace = Z.to_nat max_retries
    /\ slept trace
       = List.map (fun attempt => inject_Z (2 ^ attempt * retry_delay))
           (Base.range max_retries)
    /\ List.last trace Request
       = (if 0 <? max_retries
          then Sleep (inject_Z (2 ^ (max_retries - 1) * retry_delay))
          else Request)
    /\ mentions_rate_limit e = false.
Proof.
  intros N L. unfold Base.call_openai_api.
  destruct key as [|c key]; [congruence |].
  rewrite (for_attempts_rate_limited max_retries retry_delay post L).
  do 2 eexists. split; [reflexivity |]. simpl List.app.
  destruct (slept_flat_map
              (fun attempt => inject_Z (2 ^ attempt * retry_delay))
              (Base.range max_retries)) as (S1 & S2 & _).
  split; [reflexivity |]. split; [now rewrite S2, range_length |].
  split; [exact S1 |]. split; [| apply failed_after_attempts_no_rate_limit].
  unfold Base.range. destruct (Z.ltb_spec 0 max_retries) as [P | P].
  - replace (Z.to_nat max_retries) with (S (Z.to_nat (max_retries - 1)))
      by lia.
    rewrite List.seq_S, List.map_app, List.flat_map_app. simpl.
    match goal with
    | |- List.last (?l ++ [?a; ?b])%list _ = _ =>
        change (l ++ [a; b])%list with (l ++ ([a] ++ [b]))%list
    end.
    rewrite List.app_assoc, List.last_last, Z2Nat.id by lia. reflexivity.
  - replace (Z.to_nat max_retries) with 0%nat by lia. reflexivity.
Qed.

Lemma base_rate_limited_call_witness :
  "sk-test" <> ""
  /\ (forall n, exists body, always_rate_limited n = Base.Response 429 body)
  /\ exists e trace,
       Base.call_openai_api "Research Agent" 3 2 (Some "sk-test")
         always_rate_limited = (Raised e, trace)
       /\ mentions_rate_limit e = false.
Proof.
  split; [discriminate |]. split; [intros n; eexists; reflexivity |].
  destruct (base_rate_limited_call "Research Agent" "sk-test" 3 2
              always_rate_limited ltac:(discriminate)
              (fun n => ex_intro _ _ eq_refl))
    as (e & trace & E & _ & _ & _ & _ & M).
  exists e, trace. split; [exact E | exact M].
Defined.

(** ** The retry loop of agents/base_agent_improved.py *)

Lemma slept_app (a b : list event) :
  slept (a ++ b)%list = (slept a ++ slept b)%list.
Proof. unfold slept. apply omap_app. Qed.

Section ImprovedMore.

Variable agent_name : string.
Variables (max_retries : Z) (initial_retry_delay max_retry_delay : Q).
Variable create : nat -> Improved.create_outcome.
Variable uniform : nat -> Q.

Let retry_loop :=
  Improved.retry_loop max_retries max_retry_delay create uniform.

Lemma retry_loop_first_response (fuel : nat) :
  forall (retry_count : Z) (retry_delay : Q) (n : nat) (trace : list event)
         (k : nat) (response : json),
    (Z.to_nat (max_retries + 1 - retry_count) <= fuel)%nat ->
    (n <= k)%nat ->
    retry_count + Z.of_nat (k - n) <= max_retries ->
    (forall i, (n <= i < k)%nat -> retryable (create i) = true) ->
    create k = Improved.Created response ->
    exists trace',
      retry_loop fuel retry_count retry_delay n trace
      = (Returned response, trace')
      /\ requests trace' = (requests trace + (k - n) + 1)%nat
      /\ sleeps trace' = (sleeps trace + (k - n))%nat.
Proof.
  induction fuel as [|fuel IH]; intros rc d n trace k response F K M R C;
    [lia |].
  simpl. destruct (Z.leb_spec rc max_retries) as [L | L]; [| lia].
  destruct (Nat.eq_dec n k) as [-> | N].
  - rewrite C. eexists. split; [reflexivity |]. count_events. lia.
  - assert (G : forall d' tr,
              requests tr = (requests trace + 1)%nat ->
              sleeps tr = (sleeps trace + 1)%nat ->
              exists trace',
                retry_loop fuel (rc + 1) d' (S n) tr
                = (Returned response, trace')
                /\ requests trace' = (requests trace + (k - n) + 1)%nat
                /\ sleeps trace' = (sleeps trace + (k - n))%nat).
    { intros d' tr Rq Sl.
      destruct (IH (rc + 1) d' (S n) tr k response)
        as (trace' & E & Rq' & Sl');
        [lia | lia | lia | intros i I; apply R; lia | exact C |].
      exists trace'. split; [exact E |]. lia. }
    specialize (R n ltac:(lia)).
    destruct (create n) as [r | msg | msg | msg]; try discriminate R;
      (destruct (Z.gtb_spec (rc + 1) max_retries); [lia |]);
      apply G; count_events; lia.
Qed.

Lemma retry_loop_rate_limited (fuel : nat) :
  (forall n, exists msg, create n = Improved.RateLimitError msg) ->
  forall (retry_count : Z) (retry_delay : Q) (n : nat) (trace : list event),
    (Z.to_nat (max_retries + 1 - retry_count) <= fuel)%nat ->
    retry_count <= max_retries ->
    exists trace',
      retry_loop fuel retry_count retry_delay n trace
      = (Raised (Exn "Exception"
                   ("Failed to call OpenAI API after "
                    ++ PyText.str_int max_retries
                    ++ " attempts due to rate limits")), trace')
      /\ requests trace'
         = (requests trace + Z.to_nat (max_retries + 1 - retry_count))%nat
      /\ sleeps trace'
         = (sleeps trace + Z.to_nat (max_retries - retry_count))%nat.
Proof.
  intros A. induction fuel as [|fuel IH]; intros rc d n trace F L; [lia |].
  simpl. destruct (Z.leb_spec rc max_retries) as [_ | ?]; [| lia].
  destruct (A n) as [msg ->].
  destruct (Z.gtb_spec (rc + 1) max_retries) as [G | G].
  - eexists. split; [reflexivity |]. count_events. lia.
  - destruct (IH (rc + 1)
                (Qmin (d * 2)%Q max_retry_delay) (S n)
                ((trace ++ [Request])
                 ++ [Sleep (Improved.actual_delay max_retry_delay uniform
                              n d)])%list)
      as (trace' & E & Rq & Sl); [lia | lia |].
    exists trace'. split; [exact E |]. count_events. lia.
Qed.

Lemma retry_loop_sleeps_bounded (fuel : nat) :
  forall (retry_count : Z) (retry_delay : Q) (n : nat) (trace : list event),
    List.Forall
      (fun s => (1 # 10 <= s)%Q /\ (s <= Qmax max_retry_delay (1 # 10))%Q)
      (slept trace) ->
    List.Forall
      (fun s => (1 # 10 <= s)%Q /\ (s <= Qmax max_retry_delay (1 # 10))%Q)
      (slept (snd (retry_loop fuel retry_count retry_delay n trace))).
Proof.
  induction fuel as [|fuel IH]; intros rc d n trace F; simpl.
  - now destruct (rc <=? max_retries).
  - destruct (rc <=? max_retries); [| exact F].
    assert (G : List.Forall
                  (fun s => (1 # 10 <= s)%Q
                            /\ (s <= Qmax max_retry_delay (1 # 10))%Q)
                  (slept ((trace ++ [Request])
                          ++ [Sleep (Improved.actual_delay max_retry_delay
                                       uniform n d)])%list)).
    { rewrite !slept_app. simpl. rewrite List.app_nil_r.
      apply List.Forall_app. split; [exact F |]. constructor; [| constructor].
      unfold Improved.actual_delay. split.
      - apply Q.le_max_r.
      - apply Q.max_le_compat_r, Q.le_min_r. }
    assert (H : slept (trace ++ [Request])%list = slept trace)
      by (rewrite slept_app; apply List.app_nil_r).
    destruct (create n) as [r | msg | msg | msg]; simpl;
      try (now rewrite H);
      (destruct (rc + 1 >? max_retries); simpl;
       [now rewrite H | apply IH, G]).
Qed.

End ImprovedMore.

(** With a client, [call_openai_api] of agents/base_agent_improved.py
    returns the first response that the service gives, if only rate
    limit and API errors came before it and there were at most
    [max_retries] of them: after one request for the response and one
    request and one sleep for each error before it. *)
Theorem improved_call_first_response (agent_name : string)
    (max_retries : Z) (initial_retry_delay max_retry_delay : Q)
    (create : nat -> Improved.create_outcome) (uniform : nat -> Q)
    (client : Improved.client_state) (k : nat) (response : json) :
  client = Improved.ClientSet \/ client = Improved.ClientInitialised ->
  Z.of_nat k <= max_retries ->
  (forall i, (i < k)%nat -> retryable (create i) = true) ->
  create k = Improved.Created response ->
  let r := Improved.call_openai_api agent_name max_retries
             initial_retry_delay max_retry_delay create uniform client in
  fst r = Returned response
  /\ requests (snd r) = (k + 1)%nat
  /\ sleeps (snd r) = k.
Proof.
  intros C K R E. cbv zeta.
  destruct (retry_loop_first_response max_retries max_retry_delay create
              uniform (Z.to_nat (max_retries + 1)) 0 initial_retry_delay
              0%nat [] k response)
    as (trace' & T & Rq & Sl);
    [lia | lia | lia | intros i I; apply R; lia | exact E |].
  unfold Improved.call_openai_api.
  destruct C as [-> | ->]; rewrite T; simpl in *; repeat split; lia.
Qed.

Lemma improved_call_first_response_witness :
  (Improved.ClientSet = Improved.ClientSet
   \/ Improved.ClientSet = Improved.ClientInitialised)
  /\ 1 <= 5
  /\ fst (Improved.call_openai_api "Research Agent" 5 1 60
            (fun n => match n with
                      | 0%nat => Improved.RateLimitError "slow down"
                      | _ => Improved.Created (JObj [])
                      end)
            (fun _ => 0%Q) Improved.ClientSet)
     = Returned (JObj []).
Proof.
  split; [now left |]. split; [lia |].
  refine (proj1 (improved_call_first_response "Research Agent" 5 1 60 _
                   (fun _ => 0%Q) Improved.ClientSet 1 (JObj [])
                   (or_introl eq_refl) _ _ _)).
  - lia.
  - intros [|i] I; [reflexivity | lia].
  - reflexivity.
Defined.

(** Every sleep of [call_openai_api] of agents/base_agent_improved.py
    lasts at least a tenth of a second and at most [max_retry_delay]
    (or a tenth of a second, if that is more), whatever the jitter
    drawn. *)
Theorem improved_sleeps_within_bounds (agent_name : string)
    (max_retries : Z) (initial_retry_delay max_retry_delay : Q)
    (create : nat -> Improved.create_outcome) (uniform : nat -> Q)
    (client : Improved.client_state) :
  List.Forall
    (fun s => (1 # 10 <= s)%Q /\ (s <= Qmax max_retry_delay (1 # 10))%Q)
    (slept (snd (Improved.call_openai_api agent_name max_retries
                   initial_retry_delay max_retry_delay create uniform
                   client))).
Proof.
  unfold Improved.call_openai_api.
  destruct client; try constructor;
    apply retry_loop_sleeps_bounded; constructor.
Qed.

(** A service that answers every request with a rate limit error makes
    [call_openai_api] of agents/base_agent_improved.py send
    [max_retries + 1] requests with a sleep between each two of them,
    and then raise with a message that mentions the rate limit, which
    is what gives the job its retry hint.  With a negative
    [max_retries] the call sends nothing and returns [None]. *)
Theorem improved_rate_limited_call (agent_name : string)
    (max_retries : Z) (initial_retry_delay max_retry_delay : Q)
    (create : nat -> Improved.create_outcome) (uniform : nat -> Q) :
  (forall n, exists msg, create n = Improved.RateLimitError msg) ->
  let r := Improved.call_openai_api agent_name max_retries
             initial_retry_delay max_retry_delay create uniform
             Improved.ClientSet in
  (0 <= max_retries ->
   exists e,
     fst r = Raised e
     /\ mentions_rate_limit e = true
     /\ requests (snd r) = Z.to_nat (max_retries + 1)
     /\ sleeps (snd r) = Z.to_nat max_retries)
  /\ (max_retries < 0 -> r = (ReturnedNone, [])).
Proof.
  intros A. cbv zeta. unfold Improved.call_openai_api. split.
  - intros P.
    destruct (retry_loop_rate_limited max_retries max_retry_delay create
                uniform (Z.to_nat (max_retries + 1)) A 0 initial_retry_delay
                0%nat [])
      as (trace' & -> & Rq & Sl); [lia | lia |].
    eexists. split; [reflexivity |]. simpl in *.
    split; [| split; [rewrite Rq; f_equal; lia | rewrite Sl; f_equal; lia]].
    unfold mentions_rate_limit, exn_str.
    rewrite !lower_app. do 2 apply infix_app_r. reflexivity.
  - intros N. destruct (Z.to_nat (max_retries + 1)); simpl;
      destruct (Z.leb_spec 0 max_retries); try lia; reflexivity.
Qed.

Lemma improved_rate_limited_call_witness :
  (forall n : nat, exists msg,
      Improved.RateLimitError "slow down" = Improved.RateLimitError msg)
  /\ requests (snd (Improved.call_openai_api "Research Agent" 2 1 60
                      (fun _ => Improved.RateLimitError "slow down")
                      (fun _ => 0%Q) Improved.ClientSet))
     = 3%nat.
Proof.
  split; [intros n; eexists; reflexivity |].
  destruct (proj1 (improved_rate_limited_call "Research Agent" 2 1 60
                     (fun _ => Improved.RateLimitError "slow down")
                     (fun _ => 0%Q) (fun n => ex_intro _ _ eq_refl))
              ltac:(lia)) as (e & _ & _ & R & _).
  exact R.
Defined.

(** ** The sample workflow *)

Lemma workflow_composes_witness :
  Orchestrator.execute_workflow sample_agents sample_size
    [Orchestrator.Step (Some "tag") []] []
  = (JObj [("workflow_steps",
              JArr [JObj [("agent_id", JStr "tag");
                          ("input_size", JInt 0);
                          ("output_size", JInt 1);
                          ("status", JStr "success")]]);
           ("final_result", JObj [("tagged", JBool true)]);
           ("status", JStr "complete")], ["tag"])
  /\ field "status"
       (fst (Orchestrator.execute_workflow sample_agents sample_size
               ([Orchestrator.Step (Some "tag") []]
                ++ [Orchestrator.Step (Some "tag") [("x", JInt 1)]])%list []))
     = field "status"
         (fst (Orchestrator.execute_workflow sample_agents sample_size
                 [Orchestrator.Step (Some "tag") [("x", JInt 1)]]
                 [("tagged", JBool true)])).
Proof.
  assert (E : Orchestrator.execute_workflow sample_agents sample_size
                [Orchestrator.Step (Some "tag") []] []
              = (JObj [("workflow_steps",
                          JArr [JObj [("agent_id", JStr "tag");
                                      ("input_size", JInt 0);
                                      ("output_size", JInt 1);
                                      ("status", JStr "success")]]);
                       ("final_result", JObj [("tagged", JBool true)]);
                       ("status", JStr "complete")], ["tag"]))
    by (vm_compute; reflexivity).
  split; [exact E |].
  exact (proj1 (proj2 (workflow_composes sample_agents sample_size
                         [Orchestrator.Step (Some "tag") []]
                         [Orchestrator.Step (Some "tag") [("x", JInt 1)]]
                         [] _ _ _ E))).
Defined.

Lemma workflow_failure_marks_previous_step_witness :
  Orchestrator.run_step sample_agents sample_size
    (Orchestrator.Step (Some "fail") []) [("tagged", JBool true)] ["tag"]
  = (Raise (Exn "Exception" "boom"), ["tag"; "fail"])
  /\ exists entries,
       Orchestrator.execute_workflow sample_agents sample_size
         ([Orchestrator.Step (Some "tag") []]
          ++ Orchestrator.Step (Some "fail") []
             :: [Orchestrator.Step (Some "tag") []])%list []
       = (JObj [("workflow_steps", JArr entries);
                ("final_result", JNull);
                ("status", JStr "error");
                ("error", JStr "boom")], ["tag"; "fail"])
       /\ List.length entries = 1%nat.
Proof.
  assert (E : Orchestrator.execute_workflow sample_agents sample_size
                [Orchestrator.Step (Some "tag") []] []
              = (JObj [("workflow_steps",
                          JArr [JObj [("agent_id", JStr "tag");
                                      ("input_size", JInt 0);
                                      ("output_size", JInt 1);
                                      ("status", JStr "success")]]);
                       ("final_result", JObj [("tagged", JBool true)]);
                       ("status", JStr "complete")], ["tag"]))
    by (vm_compute; reflexivity).
  assert (R : Orchestrator.run_step sample_agents sample_size
                (Orchestrator.Step (Some "fail") [])
                [("tagged", JBool true)] ["tag"]
              = (Raise (Exn "Exception" "boom"), ["tag"; "fail"]))
    by (vm_compute; reflexivity).
  split; [exact R |].
  destruct (workflow_failure_marks_previous_step sample_agents sample_size
              [Orchestrator.Step (Some "tag") []]
              (Orchestrator.Step (Some "fail") [])
              [Orchestrator.Step (Some "tag") []] [] _ _ _ _ _ E R)
    as (entries & X & L & _).
  exists entries. split; [exact X | exact L].
Defined.

(** ** The parsing block of the agents *)

Lemma contains_char (o : ascii) (text : string) :
  PyText.infix (String o "") text = PyStr.contains o text.
Proof.
  induction text as [|a text IH]; [reflexivity |].
  simpl. rewrite IH, Ascii.eqb_sym.
  destruct (Ascii.eqb a o); [now destruct text | reflexivity].
Qed.

Lemma has_both_string (o c : ascii) (text : string) :
  has_both o c (JStr text) = Ok (has_delimiters o c text).
Proof.
  unfold has_both, has_delimiters. simpl. rewrite !contains_char.
  now destruct (PyStr.contains o text).
Qed.

Lemma reply_block_string (json_loads : string -> option json) (o c : ascii)
    (text : string) (no_json : result json) (failed : json) :
  reply_block json_loads o c (JStr text) no_json failed
  = try_except
      (if has_delimiters o c text
       then loads json_loads (extract_json o c text)
       else no_json)
      (fun _ => Ok failed).
Proof.
  unfold reply_block. rewrite has_both_string.
  now destruct (has_delimiters o c text).
Qed.

(** A reply that is not a string never yields a decoded value. *)
Lemma reply_block_not_string (json_loads : string -> option json)
    (o c : ascii) (message : json) (no_json : result json) (failed : json) :
  (forall text, message <> JStr text) ->
  reply_block json_loads o c message no_json failed = Ok failed
  \/ reply_block json_loads o c message no_json failed
     = try_except no_json (fun _ => Ok failed).
Proof.
  intros N. unfold reply_block, has_both, decoded.
  destruct message as [| b | z | f | s | l | d]; simpl; auto.
  - now destruct (N s).
  - destruct (existsb _ l); [destruct (existsb _ l) |]; auto.
  - unfold dict_has. destruct (dict_get _ d); [destruct (dict_get _ d) |];
      auto.
Qed.

(** The block never raises. *)
Lemma reply_block_total (json_loads : string -> option json) (o c : ascii)
    (message : json) (no_json : result json) (failed : json) :
  exists v, reply_block json_loads o c message no_json failed = Ok v.
Proof.
  unfold reply_block, try_except.
  destruct (match has_both o c message with
            | Ok true => _ | Ok false => _ | Raise e => _ end); eauto.
Qed.

(** The parsing block of the research agent is the one of the claims
    on string replies. *)
Lemma research_blocks_on_strings (json_loads : string -> option json)
    (address text : string) :
  reply_block json_loads "{" "}" (JStr text)
    (Ok (parse_address_no_json address))
    (JObj [("full_address", JStr address); ("postcode", JStr "");
           ("city", JStr ""); ("street", JStr "")])
  = _parse_address json_loads address text
  /\ reply_block json_loads "{" "}" (JStr text)
       (Ok property_details_no_json) property_details_failed
     = _get_property_details json_loads text.
Proof. split; apply reply_block_string. Qed.

(** Each of the nine reviews of the accessor returns the value that
    the reply decodes to, when the reply is a string with both
    delimiters whose text from the first opening to the last closing
    one decodes; in every other case (another kind of reply, a missing
    delimiter, a text that does not decode) it returns the value under
    review unchanged.  It never raises. *)
Theorem review_keeps_or_replaces (json_loads : string -> option json)
    (o c : ascii) (original message : json) :
  (forall text v,
      message = JStr text ->
      has_delimiters o c text = true ->
      json_loads (extract_json o c text) = Some v ->
      AccessorAgent.reviewed json_loads o c original message = Ok v)
  /\ ((forall text,
         message = JStr text ->
         has_delimiters o c text = true ->
         json_loads (extract_json o c text) = None) ->
      AccessorAgent.reviewed json_loads o c original message = Ok original).
Proof.
  unfold AccessorAgent.reviewed. split.
  - intros text v -> D L. rewrite reply_block_string, D. unfold loads.
    now rewrite L.
  - intros N. destruct message as [| b | z | f | text | l | d];
      try (match goal with
           | |- reply_block _ _ _ ?m _ _ = _ =>
               assert (S : forall text, m <> JStr text) by discriminate;
               destruct (reply_block_not_string json_loads o c m
                           (Ok original) original S) as [-> | ->];
               reflexivity
           end).
    rewrite reply_block_string.
    destruct (has_delimiters o c text) eqn:D; [| reflexivity].
    unfold loads. now rewrite (N text eq_refl D).
Qed.

(** ** Running a method *)

Lemma agent_bind_unfold {A B : Type} (m : Agent A) (k : A -> Agent B)
    (st : agent_state) :
  (m ≫= k) st = match m st with
                | (Ok a, st') => k a st'
                | (Raise e, st') => (Raise e, st')
                end.
Proof. reflexivity. Qed.

Lemma agent_bind_ok {A B : Type} (m : Agent A) (k : A -> Agent B)
    (st st1 : agent_state) (a : A) :
  m st = (Ok a, st1) -> (m ≫= k) st = k a st1.
Proof. intros H. now rewrite agent_bind_unfold, H. Qed.

Lemma agent_bind_inv {A B : Type} (m : Agent A) (k : A -> Agent B)
    (st st2 : agent_state) (b : B) :
  (m ≫= k) st = (Ok b, st2) ->
  exists a st1, m st = (Ok a, st1) /\ k a st1 = (Ok b, st2).
Proof.
  rewrite agent_bind_unfold. destruct (m st) as [[a | e] st1]; [eauto |].
  discriminate.
Qed.

Lemma evaluate_inv {A : Type} (r : result A) (st st1 : agent_state) (a : A) :
  evaluate r st = (Ok a, st1) -> r = Ok a /\ st1 = st.
Proof. unfold evaluate. now intros [= -> ->]. Qed.

Lemma requests_snoc_request (trace : list event) :
  requests (trace ++ [Request])%list = S (requests trace).
Proof. count_events. lia. Qed.

Section Exchange.

Variable agent_name : string.
Variable api_key : option string.
Variable post : nat -> Base.post_outcome.

Let exchange := BaseAgent.exchange agent_name api_key post.

Lemma for_attempts_returned (attempts : list Z) :
  forall (n : nat) (trace trace' : list event) (j : json),
    Base.for_attempts BaseAgent.max_retries BaseAgent.retry_delay post
      attempts n trace = (Returned j, trace') ->
    (requests trace < requests trace')%nat.
Proof.
  induction attempts as [|attempt rest IH]; intros n trace trace' j;
    [discriminate |].
  simpl.
  assert (R : forall tr,
            (requests trace < requests tr)%nat ->
            Base.for_attempts BaseAgent.max_retries BaseAgent.retry_delay
              post rest (S n) tr = (Returned j, trace') ->
            (requests trace < requests trace')%nat).
  { intros tr L H. apply IH in H. lia. }
  assert (Q : forall (e : exn) tr,
            (requests trace < requests tr)%nat ->
            match Base.on_exception BaseAgent.max_retries
                    BaseAgent.retry_delay attempt e tr with
            | (None, tr') =>
                Base.for_attempts BaseAgent.max_retries BaseAgent.retry_delay
                  post rest (S n) tr'
            | (Some e, tr') => (Raised e, tr')
            end = (Returned j, trace') ->
            (requests trace < requests trace')%nat).
  { intros e tr L. unfold Base.on_exception.
    destruct (attempt <? BaseAgent.max_retries - 1); [| discriminate].
    apply R. count_events. lia. }
  destruct (post n) as [e | status [body | e]]; simpl.
  - apply Q. count_events. lia.
  - destruct (status =? 200).
    + intros [= _ <-]. count_events. lia.
    + destruct (status =? 429); [apply R; count_events; lia |].
      destruct (Base.raise_for_status status);
        [apply R | apply Q]; count_events; lia.
  - destruct (status =? 200); [apply Q; count_events; lia |].
    destruct (status =? 429); [apply R; count_events; lia |].
    destruct (Base.raise_for_status status);
      [apply R | apply Q]; count_events; lia.
Qed.

Lemma for_attempts_not_none (attempts : list Z) :
  forall (n : nat) (trace trace' : list event),
    Base.for_attempts BaseAgent.max_retries BaseAgent.retry_delay post
      attempts n trace <> (ReturnedNone, trace').
Proof.
  induction attempts as [|attempt rest IH]; intros n trace trace';
    [discriminate |].
  simpl. unfold Base.on_exception.
  destruct (post n) as [e | status [body | e]]; simpl;
    repeat match goal with
      | |- context [if ?b then _ else _] => destruct b
      | |- context [match Base.raise_for_status ?s with _ => _ end] =>
          destruct (Base.raise_for_status s)
      end; try discriminate; apply IH.
Qed.

(** What an exchange that succeeds has done. *)
Lemma exchange_inv (prompt : string) (temperature : Q) (max_tokens : Z)
    (st st' : agent_state) (message : json) :
  exchange prompt temperature max_tokens st = (Ok message, st') ->
  conversation_history st'
  = (conversation_history st
     ++ [JObj [("role", JStr "user"); ("content", JStr prompt)];
         JObj [("role", JStr "assistant"); ("content", message)]])%list
  /\ (requests (events st) < requests (events st')
      <= requests (events st) + 3)%nat.
Proof.
  unfold exchange, BaseAgent.exchange. intros H.
  apply agent_bind_inv in H as ([] & st1 & H1 & H).
  apply agent_bind_inv in H as (response & st2 & H2 & H).
  apply agent_bind_inv in H as (m & st3 & H3 & H).
  apply agent_bind_inv in H as ([] & st4 & H4 & H).
  apply evaluate_inv in H3 as [_ ->].
  injection H1 as <-. injection H4 as <-. injection H as <- <-.
  unfold BaseAgent.call_openai_api, BaseAgent.call_after in H2.
  cbn [events conversation_history] in H2.
  destruct api_key as [[|c key] |]; try discriminate H2.
  destruct (Base.for_attempts _ _ _ _ _ _) as [outcome trace] eqn:F.
  pose proof (for_attempts_bounded BaseAgent.max_retries
                BaseAgent.retry_delay post
                (Base.range BaseAgent.max_retries)
                (requests (events st)) (events st)) as (_ & B & _).
  rewrite F in B. simpl in B.
  assert (L : List.length (Base.range BaseAgent.max_retries) = 3%nat)
    by reflexivity.
  destruct outcome as [r | e | |]; try discriminate H2;
    injection H2 as E1 E2; subst; simpl.
  - apply for_attempts_returned in F. rewrite <- List.app_assoc.
    split; [reflexivity | lia].
  - now apply for_attempts_not_none in F.
Qed.

(** Without a key an exchange sends nothing. *)
Lemma exchange_without_key (prompt : string) (temperature : Q)
    (max_tokens : Z) (st : agent_state) :
  key_configured api_key = false ->
  exchange prompt temperature max_tokens st
  = (Raise (Exn "ValueError"
              ("OpenAI API key not found for " ++ agent_name
               ++ ". Please add it to your .env file.")),
     AgentState
       (conversation_history st
        ++ [JObj [("role", JStr "user"); ("content", JStr prompt)]])%list
       (events st)).
Proof.
  unfold exchange, BaseAgent.exchange, key_configured.
  destruct api_key as [[|c key] |]; try discriminate; reflexivity.
Qed.

(** An exchange with a service that answers. *)
Lemma exchange_answered (reply : nat -> json) (prompt : string)
    (temperature : Q) (max_tokens : Z) (st : agent_state) (n : nat) :
  key_configured api_key = true ->
  answered post reply ->
  requests (events st) = n ->
  exchange prompt temperature max_tokens st
  = (Ok (reply n),
     AgentState
       (conversation_history st
        ++ [JObj [("role", JStr "user"); ("content", JStr prompt)];
            JObj [("role", JStr "assistant"); ("content", reply n)]])%list
       (events st ++ [Request])%list).
Proof.
  intros K A <-. unfold exchange, BaseAgent.exchange.
  destruct (A (requests (events st))) as (body & P & C).
  rewrite agent_bind_unfold. simpl.
  rewrite agent_bind_unfold.
  unfold BaseAgent.call_openai_api, BaseAgent.call_after. simpl.
  destruct api_key as [[|c key] |]; try discriminate K.
  rewrite P. simpl. rewrite agent_bind_unfold. unfold evaluate.
  rewrite C. rewrite agent_bind_unfold. simpl.
  now rewrite <- List.app_assoc.
Qed.

End Exchange.

Lemma requests_repeat (trace : list event) (k : nat) :
  requests (trace ++ List.repeat Request k)%list = (requests trace + k)%nat.
Proof.
  rewrite requests_app. f_equal. induction k as [|k IH]; [reflexivity |].
  simpl. unfold requests in *. simpl. now rewrite IH.
Qed.

Lemma sleeps_repeat (trace : list event) (k : nat) :
  sleeps (trace ++ List.repeat Request k)%list = sleeps trace.
Proof.
  rewrite sleeps_app. induction k as [|k IH]; [apply Nat.add_0_r |].
  exact IH.
Qed.

Lemma repeat_snoc (trace : list event) (k : nat) :
  ((trace ++ List.repeat Request k) ++ [Request])%list
  = (trace ++ List.repeat Request (S k))%list.
Proof.
  rewrite <- List.app_assoc. f_equal.
  induction k as [|k IH]; [reflexivity |]. simpl. now rewrite IH.
Qed.

Lemma reviewed_ok (json_loads : string -> option json) (o c : ascii)
    (original message : json) :
  AccessorAgent.reviewed json_loads o c original message
  = Ok (reviewed_value json_loads o c original message).
Proof.
  unfold reviewed_value, AccessorAgent.reviewed.
  destruct (reply_block_total json_loads o c message (Ok original) original)
    as [v ->].
  reflexivity.
Qed.

Lemma reply_block_ok (json_loads : string -> option json) (o c : ascii)
    (message : json) (no_json : result json) (failed : json) :
  reply_block json_loads o c message no_json failed
  = Ok (block_value json_loads o c message no_json failed).
Proof.
  unfold block_value.
  destruct (reply_block_total json_loads o c message no_json failed)
    as [v ->].
  reflexivity.
Qed.

Lemma prose_block (json_loads : string -> option json) (message : json)
    (no_json : result json) (failed : json) :
  prose message = true ->
  reply_block json_loads "{" "}" message no_json failed
  = try_except no_json (fun _ => Ok failed)
  /\ reply_block json_loads "[" "]" message no_json failed
     = try_except no_json (fun _ => Ok failed).
Proof.
  destruct message as [| | | | text | |]; try discriminate. simpl.
  intros H. apply andb_true_iff in H as [H1 H2].
  apply negb_true_iff in H1, H2. now rewrite !reply_block_string, H1, H2.
Qed.

Lemma prose_reviewed (json_loads : string -> option json)
    (original message : json) :
  prose message = true ->
  reviewed_value json_loads "{" "}" original message = original
  /\ reviewed_value json_loads "[" "]" original message = original.
Proof.
  intros H. unfold reviewed_value, AccessorAgent.reviewed.
  destruct (prose_block json_loads message (Ok original) original H)
    as [-> ->].
  split; reflexivity.
Qed.

Lemma initialize_conversation_run (prompt : string) (st : agent_state) :
  BaseAgent.initialize_conversation prompt st
  = (Ok tt,
     AgentState [JObj [("role", JStr "system"); ("content", JStr prompt)]]
       (events st)).
Proof. reflexivity. Qed.

Lemma roles_app (a b : list json) :
  roles (a ++ b)%list = (roles a ++ roles b)%list.
Proof. apply List.map_app. Qed.

Ltac unbind :=
  repeat match goal with
    | H : (_ ≫= _) _ = (Ok _, _) |- _ =>
        apply agent_bind_inv in H as (? & ? & ? & H); cbv beta zeta in H
    end.

Ltac unprim :=
  repeat match goal with
    | H : evaluate _ _ = (Ok _, _) |- _ => apply evaluate_inv in H as [H ->]
    | H : BaseAgent.initialize_conversation _ _ = (Ok _, _) |- _ =>
        rewrite initialize_conversation_run in H; injection H as <- <-
    | H : BaseAgent.exchange _ _ _ _ _ _ _ = (Ok _, _) |- _ =>
        apply exchange_inv in H as [? ?]
    end.

(** ** The accessor agent *)

Section AccessorProperties.

Variable api_key : option string.
Variable post : nat -> Base.post_outcome.
Variable json_loads : string -> option json.
Variable user_prompt : string -> list json -> string.
Variable system_prompt : string.
Variable approval_timestamp : pyfloat.

Let process :=
  AccessorAgent.process api_key post json_loads user_prompt system_prompt
    approval_timestamp.

Lemma review_step (reply : nat -> json) (prompt : string) (t : Q) (m : Z)
    (o c : ascii) (original : json) (h : list json)
    (trace events : list event) (k : nat) :
  key_configured api_key = true ->
  answered post reply ->
  events = (trace ++ List.repeat Request k)%list ->
  (BaseAgent.exchange "Accessor Agent" api_key post prompt t m
   ≫= fun assistant_message =>
        evaluate (AccessorAgent.reviewed json_loads o c original
                    assistant_message))
    (AgentState h events)
  = (Ok (reviewed_value json_loads o c original
           (reply (requests trace + k)%nat)),
     AgentState
       (h ++ [JObj [("role", JStr "user"); ("content", JStr prompt)];
              JObj [("role", JStr "assistant");
                    ("content", reply (requests trace + k)%nat)]])%list
       (trace ++ List.repeat Request (S k))%list).
Proof.
  intros K A ->.
  erewrite agent_bind_ok
    by (apply (exchange_answered _ _ _ reply); [exact K | exact A |];
        apply requests_repeat).
  unfold evaluate. simpl. now rewrite reviewed_ok, repeat_snoc.
Qed.

(** The whole of [process] with a service that answers, on an input
    whose sections are dicts. *)
Lemma accessor_run (reply : nat -> json) (input address : json)
    (pd er pa fs : dict) (h0 : list json) (trace : list event) :
  key_configured api_key = true ->
  answered post reply ->
  PyObj.contains "address" input = Ok true ->
  get_method "address" (JStr "") input = Ok address ->
  get_method "property_data" (JObj []) input = Ok (JObj pd) ->
  get_method "evaluation_results" (JObj []) input = Ok (JObj er) ->
  dict_get_or "property_appraisal" (JObj []) er = JObj pa ->
  dict_get_or "feasibility_study" (JObj []) er = JObj fs ->
  let n := requests trace in
  exists h,
    process input (AgentState h0 trace)
    = (Ok (JObj
             [("address", address);
              ("executive_summary",
                 reviewed_value json_loads "{" "}" (dict_get_or "executive_summary" (JObj []) er)
                   (reply (n + 7)%nat));
              ("property_appraisal",
                 JObj [("property_details",
                          reviewed_value json_loads "{" "}"
                            (dict_get_or "property_details" (JObj []) pd)
                            (reply (n + 0)%nat));
                       ("current_valuation",
                          reviewed_value json_loads "{" "}"
                            (dict_get_or "current_valuation" (JObj []) pa)
                            (reply (n + 2)%nat));
                       ("comparable_analysis",
                          dict_get_or "comparable_analysis" (JObj []) pa)]);
              ("feasibility_study",
                 JObj [("development_scenarios",
                          reviewed_value json_loads "[" "]"
                            (dict_get_or "development_scenarios" (JArr []) fs)
                            (reply (n + 3)%nat));
                       ("rental_analysis",
                          reviewed_value json_loads "{" "}"
                            (dict_get_or "rental_analysis" (JObj []) fs)
                            (reply (n + 4)%nat))]);
              ("planning_analysis",
                 reviewed_value json_loads "{" "}" (dict_get_or "planning_analysis" (JObj []) er)
                   (reply (n + 5)%nat));
              ("risk_assessment",
                 reviewed_value json_loads "{" "}" (dict_get_or "risk_assessment" (JObj []) er)
                   (reply (n + 6)%nat));
              ("local_market_analysis",
                 JObj [("market_data",
                          reviewed_value json_loads "{" "}"
                            (dict_get_or "market_data" (JObj []) pd)
                            (reply (n + 1)%nat));
                       ("local_area_info",
                          dict_get_or "local_area_info" (JObj []) pd)]);
              ("conclusion",
                 reviewed_value json_loads "{" "}" (dict_get_or "conclusion" (JObj []) er)
                   (reply (n + 8)%nat));
              ("approval_timestamp", JFloat approval_timestamp);
              ("approval_status", JStr "Approved")]),
       AgentState h (trace ++ List.repeat Request 9)%list)
    /\ roles h = JStr "system" :: turns 9.
Proof.
  intros K A C Ga Gp Ge Hpa Hfs. cbv zeta.
  unfold process, AccessorAgent.process.
  unfold AccessorAgent._review_property_details,
    AccessorAgent._review_market_data, AccessorAgent._review_valuation,
    AccessorAgent._review_development_scenarios,
    AccessorAgent._review_rental_analysis,
    AccessorAgent._review_planning_assessment,
    AccessorAgent._review_risk_assessment,
    AccessorAgent._review_executive_summary,
    AccessorAgent._review_conclusion.
  eexists.
  erewrite agent_bind_ok by (unfold evaluate; rewrite C; reflexivity).
  cbv beta iota delta [negb].
  erewrite agent_bind_ok by (unfold evaluate; rewrite Ga; reflexivity).
  erewrite agent_bind_ok by reflexivity.
  erewrite agent_bind_ok by (unfold evaluate; rewrite Gp; reflexivity).
  erewrite agent_bind_ok by (unfold evaluate; rewrite Ge; reflexivity).
  cbv beta zeta. cbn [events conversation_history].
  do 2 erewrite agent_bind_ok by reflexivity.
  erewrite agent_bind_ok
    by (apply (review_step reply _ _ _ _ _ _ _ trace _ 0%nat K A);
        symmetry; apply List.app_nil_r).
  repeat first
    [ erewrite agent_bind_ok
        by (apply (review_step reply); [exact K | exact A | reflexivity])
    | erewrite agent_bind_ok
        by (unfold evaluate; rewrite ?Hpa, ?Hfs; reflexivity) ];
    cbv beta zeta.
  unfold agent_ret. split; [reflexivity |]. reflexivity.
Qed.

(** Whatever the service does, a review that returns has asked nine
    questions in a conversation of its own and hands on a dict with
    the ten fixed keys, the address of its input and the status
    [Approved]: the check for an address that the report generator
    starts with cannot fail on it.  Each question took between one and
    three requests. *)
Theorem accessor_result_shape (input : json) (st st' : agent_state)
    (v : json) :
  process input st = (Ok v, st') ->
  keys v
  = ["address"; "executive_summary"; "property_appraisal";
     "feasibility_study"; "planning_analysis"; "risk_assessment";
     "local_market_analysis"; "conclusion"; "approval_timestamp";
     "approval_status"]
  /\ (exists address,
        get_method "address" (JStr "") input = Ok address
        /\ field "address" v = Some address)
  /\ field "approval_status" v = Some (JStr "Approved")
  /\ PyObj.contains "address" v = Ok true
  /\ option_map keys (field "property_appraisal" v)
     = Some ["property_details"; "current_valuation"; "comparable_analysis"]
  /\ option_map keys (field "feasibility_study" v)
     = Some ["development_scenarios"; "rental_analysis"]
  /\ option_map keys (field "local_market_analysis" v)
     = Some ["market_data"; "local_area_info"]
  /\ roles (conversation_history st') = JStr "system" :: turns 9
  /\ (requests (events st) + 9 <= requests (events st')
      <= requests (events st) + 27)%nat.
Proof.
  unfold process, AccessorAgent.process. intros H.
  apply agent_bind_inv in H as (has & s0 & H0 & H).
  apply evaluate_inv in H0 as [H0 ->].
  destruct has; [| discriminate H]. cbv beta iota delta [negb] in H.
  unfold AccessorAgent._review_property_details,
    AccessorAgent._review_market_data, AccessorAgent._review_valuation,
    AccessorAgent._review_development_scenarios,
    AccessorAgent._review_rental_analysis,
    AccessorAgent._review_planning_assessment,
    AccessorAgent._review_risk_assessment,
    AccessorAgent._review_executive_summary,
    AccessorAgent._review_conclusion in H.
  unbind. unprim. injection H as <- <-.
  repeat match goal with
    | E : conversation_history _ = _ |- _ => rewrite E; clear E
    end.
  cbn [events conversation_history] in *.
  split; [reflexivity |]. split; [eauto |].
  repeat split; try reflexivity; lia.
Qed.

(** With a key and a service that answers every request, a review of
    an input whose sections are dicts returns: it sends exactly nine
    requests, one for each section, never sleeps, and leaves a
    conversation of the system prompt and nine questions with their
    answers. *)
Theorem accessor_reviews_with_nine_requests (reply : nat -> json)
    (input address : json) (pd er pa fs : dict) (st : agent_state) :
  key_configured api_key = true ->
  answered post reply ->
  PyObj.contains "address" input = Ok true ->
  get_method "address" (JStr "") input = Ok address ->
  get_method "property_data" (JObj []) input = Ok (JObj pd) ->
  get_method "evaluation_results" (JObj []) input = Ok (JObj er) ->
  dict_get_or "property_appraisal" (JObj []) er = JObj pa ->
  dict_get_or "feasibility_study" (JObj []) er = JObj fs ->
  exists v st',
    process input st = (Ok v, st')
    /\ field "address" v = Some address
    /\ events st' = (events st ++ List.repeat Request 9)%list
    /\ requests (events st') = (requests (events st) + 9)%nat
    /\ sleeps (events st') = sleeps (events st)
    /\ roles (conversation_history st') = JStr "system" :: turns 9.
Proof.
  intros K A C Ga Gp Ge Hpa Hfs. destruct st as [h0 trace].
  destruct (accessor_run reply input address pd er pa fs h0 trace
              K A C Ga Gp Ge Hpa Hfs) as (h & E & R).
  do 2 eexists. split; [exact E |]. cbn [events conversation_history].
  rewrite requests_repeat, sleeps_repeat. repeat split. exact R.
Qed.

(** If moreover every answer is prose, a string in which no object
    and no array is found, the review changes nothing: the approved
    data are the sections of the input, put in their places. *)
Theorem accessor_prose_replies_change_nothing (reply : nat -> json)
    (input address : json) (pd er pa fs : dict) (st : agent_state) :
  key_configured api_key = true ->
  answered post reply ->
  PyObj.contains "address" input = Ok true ->
  get_method "address" (JStr "") input = Ok address ->
  get_method "property_data" (JObj []) input = Ok (JObj pd) ->
  get_method "evaluation_results" (JObj []) input = Ok (JObj er) ->
  dict_get_or "property_appraisal" (JObj []) er = JObj pa ->
  dict_get_or "feasibility_study" (JObj []) er = JObj fs ->
  (forall n, prose (reply n) = true) ->
  fst (process input st)
  = Ok (JObj
          [("address", address);
           ("executive_summary",
              dict_get_or "executive_summary" (JObj []) er);
           ("property_appraisal",
              JObj [("property_details",
                       dict_get_or "property_details" (JObj []) pd);
                    ("current_valuation",
                       dict_get_or "current_valuation" (JObj []) pa);
                    ("comparable_analysis",
                       dict_get_or "comparable_analysis" (JObj []) pa)]);
           ("feasibility_study",
              JObj [("development_scenarios",
                       dict_get_or "development_scenarios" (JArr []) fs);
                    ("rental_analysis",
                       dict_get_or "rental_analysis" (JObj []) fs)]);
           ("planning_analysis",
              dict_get_or "planning_analysis" (JObj []) er);
           ("risk_assessment", dict_get_or "risk_assessment" (JObj []) er);
           ("local_market_analysis",
              JObj [("market_data", dict_get_or "market_data" (JObj []) pd);
                    ("local_area_info",
                       dict_get_or "local_area_info" (JObj []) pd)]);
           ("conclusion", dict_get_or "conclusion" (JObj []) er);
           ("approval_timestamp", JFloat approval_timestamp);
           ("approval_status", JStr "Approved")]).
Proof.
  intros K A C Ga Gp Ge Hpa Hfs P. destruct st as [h0 trace].
  destruct (accessor_run reply input address pd er pa fs h0 trace
              K A C Ga Gp Ge Hpa Hfs) as (h & -> & _).
  cbn [fst].
  repeat match goal with
    | |- context [reviewed_value json_loads "{" "}" ?o (reply ?n)] =>
        rewrite (proj1 (prose_reviewed json_loads o (reply n) (P n)))
    | |- context [reviewed_value json_loads "[" "]" ?o (reply ?n)] =>
        rewrite (proj2 (prose_reviewed json_loads o (reply n) (P n)))
    end.
  reflexivity.
Qed.

(** An input without an address is refused before anything is done,
    and without a key the first question is never sent. *)
Theorem accessor_refuses_early (input : json) (st : agent_state) :
  (PyObj.contains "address" input = Ok false ->
   process input st
   = (Raise (Exn "ValueError" "Input data must include an address"), st))
  /\ (forall pd,
        key_configured api_key = false ->
        PyObj.contains "address" input = Ok true ->
        get_method "property_data" (JObj []) input = Ok (JObj pd) ->
        (exists er,
            get_method "evaluation_results" (JObj []) input = Ok er) ->
        exists h,
          process input st
          = (Raise (Exn "ValueError"
                      "OpenAI API key not found for Accessor Agent. Please add it to your .env file."),
             AgentState h (events st))
          /\ roles h = [JStr "system"; JStr "user"]).
Proof.
  unfold process, AccessorAgent.process. split.
  - intros C. rewrite agent_bind_unfold. unfold evaluate. now rewrite C.
  - intros pd K C Gp [er Ge].
    assert (Ga : exists a, get_method "address" (JStr "") input = Ok a).
    { destruct input; try discriminate Gp. simpl. eauto. }
    destruct Ga as [a Ga].
    erewrite agent_bind_ok by (unfold evaluate; rewrite C; reflexivity).
    cbv beta iota delta [negb].
    erewrite agent_bind_ok by (unfold evaluate; rewrite Ga; reflexivity).
    erewrite agent_bind_ok by reflexivity.
    erewrite agent_bind_ok by (unfold evaluate; rewrite Gp; reflexivity).
    erewrite agent_bind_ok by (unfold evaluate; rewrite Ge; reflexivity).
    cbv beta zeta. do 2 erewrite agent_bind_ok by reflexivity.
    unfold AccessorAgent._review_property_details.
    rewrite !agent_bind_unfold.
    rewrite (exchange_without_key _ _ _ _ _ _ _ K).
    eexists. split; reflexivity.
Qed.

End AccessorProperties.

(** ** The research agent *)

Lemma extract_json_head (o c : ascii) (text : string) :
  PyStr.contains o text = true ->
  extract_json o c text = ""
  \/ exists rest, extract_json o c text = String o rest.
Proof.
  intros H. destruct (find_present o text H) as (pre & post & E & _ & F).
  unfold extract_json, PyStr.slice. rewrite F.
  set (n := Z.of_nat (String.length text)).
  set (hi := PyStr.clip n (PyStr.rfind c text + 1)).
  assert (L : PyStr.clip n (PyStr.len pre) = PyStr.len pre).
  { unfold PyStr.clip. pose proof (len_nonneg pre).
    destruct (Z.ltb_spec (PyStr.len pre) 0); [lia |].
    apply Z.min_l. unfold n. fold (PyStr.len text). rewrite E, len_app.
    pose proof (len_nonneg (String o post)). lia. }
  rewrite L. destruct (Z.ltb_spec (PyStr.len pre) hi) as [P | P];
    [right | now left].
  clearbody hi. unfold PyStr.len at 1. rewrite Nat2Z.id, E, substring_skip.
  destruct (Z.to_nat (hi - PyStr.len pre)) as [|m] eqn:M; [lia |].
  simpl. eauto.
Qed.

Lemma decoded_by_head (json_loads : string -> option json) (o c : ascii)
    (text : string) (v : json) :
  decodes_by_first_character json_loads ->
  has_delimiters o c text = true ->
  json_loads (extract_json o c text) = Some v ->
  exists rest,
    extract_json o c text = String o rest
    /\ json_loads (String o rest) = Some v.
Proof.
  intros D H L. apply has_delimiters_true in H as [Ho _].
  destruct (extract_json_head o c text Ho) as [E | [rest E]].
  - rewrite E in L. now destruct (D _ _ L).
  - exists rest. split; [exact E | now rewrite <- E].
Qed.

Lemma block_object (json_loads : string -> option json) (message : json)
    (no_json : result json) (failed : json) :
  decodes_by_first_character json_loads ->
  (forall v, no_json = Ok v -> is_object v = true) ->
  is_object failed = true ->
  is_object (block_value json_loads "{" "}" message no_json failed) = true.
Proof.
  intros D N F. unfold block_value.
  assert (T : is_object
                match try_except no_json (fun _ => Ok failed) with
                | Ok v => v
                | Raise _ => failed
                end = true).
  { destruct no_json as [v | e]; simpl; [now apply N | exact F]. }
  destruct message as [| b | z | f | text | l | d];
    try (match goal with
         | |- context [reply_block _ _ _ ?m _ _] =>
             assert (S : forall text, m <> JStr text) by discriminate;
             destruct (reply_block_not_string json_loads "{" "}" m no_json
                         failed S) as [-> | ->];
             [exact F | exact T]
         end).
  rewrite reply_block_string.
  destruct (has_delimiters "{" "}" text) eqn:H; [| exact T].
  unfold loads. destruct (json_loads _) as [v |] eqn:L; simpl; [| exact F].
  destruct (decoded_by_head _ _ _ _ _ D H L) as (rest & _ & L').
  now destruct (D _ _ L') as [d ->].
Qed.

Lemma block_array (json_loads : string -> option json) (message : json)
    (no_json : result json) (failed : json) :
  decodes_by_first_character json_loads ->
  (forall v, no_json = Ok v -> is_array v = true) ->
  is_array failed = true ->
  is_array (block_value json_loads "[" "]" message no_json failed) = true.
Proof.
  intros D N F. unfold block_value.
  assert (T : is_array
                match try_except no_json (fun _ => Ok failed) with
                | Ok v => v
                | Raise _ => failed
                end = true).
  { destruct no_json as [v | e]; simpl; [now apply N | exact F]. }
  destruct message as [| b | z | f | text | l | d];
    try (match goal with
         | |- context [reply_block _ _ _ ?m _ _] =>
             assert (S : forall text, m <> JStr text) by discriminate;
             destruct (reply_block_not_string json_loads "[" "]" m no_json
                         failed S) as [-> | ->];
             [exact F | exact T]
         end).
  rewrite reply_block_string.
  destruct (has_delimiters "[" "]" text) eqn:H; [| exact T].
  unfold loads. destruct (json_loads _) as [v |] eqn:L; simpl; [| exact F].
  destruct (decoded_by_head _ _ _ _ _ D H L) as (rest & _ & L').
  now destruct (D _ _ L') as [d ->].
Qed.

Lemma is_object_inv (v : json) : is_object v = true -> exists d, v = JObj d.
Proof. destruct v; try discriminate. eauto. Qed.

Lemma parse_address_no_json_object (address : string) :
  is_object (parse_address_no_json address) = true.
Proof.
  unfold parse_address_no_json. now destruct (Re.search _ _).
Qed.

Section ResearchProperties.

Variable api_key : option string.
Variable post : nat -> Base.post_outcome.
Variable json_loads : string -> option json.
Variable user_prompt : string -> list json -> string.
Variable system_prompt : string.
Variable repr : json -> string.
Variable research_timestamp : pyfloat.

Let process :=
  ResearchAgent.process api_key post json_loads user_prompt system_prompt
    repr research_timestamp.

Lemma block_step (reply : nat -> json) (prompt : string) (t : Q) (m : Z)
    (o c : ascii) (no_json : result json) (failed : json) (h : list json)
    (trace events : list event) (k : nat) :
  key_configured api_key = true ->
  answered post reply ->
  events = (trace ++ List.repeat Request k)%list ->
  (BaseAgent.exchange "Research Agent" api_key post prompt t m
   ≫= fun assistant_message =>
        evaluate (reply_block json_loads o c assistant_message no_json
                    failed))
    (AgentState h events)
  = (Ok (block_value json_loads o c (reply (requests trace + k)%nat)
           no_json failed),
     AgentState
       (h ++ [JObj [("role", JStr "user"); ("content", JStr prompt)];
              JObj [("role", JStr "assistant");
                    ("content", reply (requests trace + k)%nat)]])%list
       (trace ++ List.repeat Request (S k))%list).
Proof.
  intros K A ->.
  erewrite agent_bind_ok
    by (apply (exchange_answered _ _ _ reply); [exact K | exact A |];
        apply requests_repeat).
  unfold evaluate. simpl. now rewrite reply_block_ok, repeat_snoc.
Qed.

(** The whole of [process] with a service that answers, when the
    first two blocks yield dicts. *)
Lemma research_run (reply : nat -> json) (input address : json)
    (ap sq : dict) (h0 : list json) (trace : list event) :
  key_configured api_key = true ->
  answered post reply ->
  get_method "address" (JStr "") input = Ok address ->
  PyObj.truthy address = true ->
  let n := requests trace in
  block_value json_loads "{" "}" (reply (n + 0)%nat)
    (match address with
     | JStr a => Ok (parse_address_no_json a)
     | _ => Raise TypeError
     end) (ResearchAgent.address_failed address) = JObj ap ->
  block_value json_loads "{" "}" (reply (n + 1)%nat)
    (Ok (ResearchAgent.search_queries_no_json repr address
           (dict_get_or "postcode" (JStr "") ap)))
    (ResearchAgent.search_queries_failed repr address) = JObj sq ->
  exists h,
    process input (AgentState h0 trace)
    = (Ok (JObj
             [("address", address);
              ("parsed_address", JObj ap);
              ("property_details",
                 block_value json_loads "{" "}" (reply (n + 2)%nat)
                   (Ok property_details_no_json) property_details_failed);
              ("market_data",
                 block_value json_loads "{" "}" (reply (n + 3)%nat)
                   (Ok ResearchAgent.market_data_no_json)
                   ResearchAgent.market_data_failed);
              ("comparable_properties",
                 block_value json_loads "[" "]" (reply (n + 4)%nat)
                   (Ok ResearchAgent.comparables_no_json)
                   ResearchAgent.comparables_failed);
              ("local_area_info",
                 block_value json_loads "{" "}" (reply (n + 5)%nat)
                   (Ok ResearchAgent.local_area_no_json)
                   ResearchAgent.local_area_failed);
              ("planning_history",
                 block_value json_loads "{" "}" (reply (n + 6)%nat)
                   (Ok ResearchAgent.planning_history_no_json)
                   ResearchAgent.planning_history_failed);
              ("sources", ResearchAgent.sources);
              ("confidence", JStr "medium");
              ("research_timestamp", JFloat research_timestamp)]),
       AgentState h (trace ++ List.repeat Request 7)%list)
    /\ roles h = JStr "system" :: turns 7.
Proof.
  intros K A Ga T. cbv zeta. intros Eap Esq.
  unfold process, ResearchAgent.process.
  unfold ResearchAgent._parse_address, ResearchAgent._generate_search_queries,
    ResearchAgent._get_property_details, ResearchAgent._get_market_data,
    ResearchAgent._get_comparable_properties,
    ResearchAgent._get_local_area_info,
    ResearchAgent._get_planning_history.
  eexists.
  erewrite agent_bind_ok by (unfold evaluate; rewrite Ga; reflexivity).
  rewrite T. cbv beta iota delta [negb].
  erewrite agent_bind_ok by reflexivity.
  cbv beta zeta. cbn [events conversation_history].
  erewrite agent_bind_ok
    by (apply (block_step reply _ _ _ _ _ _ _ _ trace _ 0%nat K A);
        symmetry; apply List.app_nil_r).
  rewrite Eap. cbv beta iota delta [get_method].
  erewrite agent_bind_ok
    by (apply (block_step reply); [exact K | exact A | reflexivity]).
  rewrite Esq.
  repeat first
    [ erewrite agent_bind_ok
        by (apply (block_step reply); [exact K | exact A | reflexivity])
    | erewrite agent_bind_ok by (unfold evaluate; reflexivity) ];
    cbv beta zeta.
  unfold agent_ret. split; reflexivity.
Qed.

Lemma prose_block_value (reply : json) (o c : ascii) (v failed : json) :
  prose reply = true ->
  (o = "{"%char /\ c = "}"%char) \/ (o = "["%char /\ c = "]"%char) ->
  block_value json_loads o c reply (Ok v) failed = v.
Proof.
  intros P [[-> ->] | [-> ->]]; unfold block_value;
    destruct (prose_block json_loads reply (Ok v) failed P) as [E1 E2];
    rewrite ?E1, ?E2; reflexivity.
Qed.

(** What a research that returns has done, whatever the service. *)
Lemma research_shape (input : json) (st st' : agent_state) (v : json) :
  process input st = (Ok v, st') ->
  keys v
  = ["address"; "parsed_address"; "property_details"; "market_data";
     "comparable_properties"; "local_area_info"; "planning_history";
     "sources"; "confidence"; "research_timestamp"]
  /\ (exists address,
        get_method "address" (JStr "") input = Ok address
        /\ PyObj.truthy address = true
        /\ field "address" v = Some address)
  /\ field "sources" v = Some ResearchAgent.sources
  /\ field "confidence" v = Some (JStr "medium")
  /\ roles (conversation_history st') = JStr "system" :: turns 7
  /\ (requests (events st) + 7 <= requests (events st')
      <= requests (events st) + 21)%nat.
Proof.
  unfold process, ResearchAgent.process. intros H.
  apply agent_bind_inv in H as (address & s0 & H0 & H).
  apply evaluate_inv in H0 as [H0 ->].
  destruct (PyObj.truthy address) eqn:T; [| discriminate H].
  cbv beta iota delta [negb] in H.
  unfold ResearchAgent._parse_address, ResearchAgent._generate_search_queries,
    ResearchAgent._get_property_details, ResearchAgent._get_market_data,
    ResearchAgent._get_comparable_properties,
    ResearchAgent._get_local_area_info,
    ResearchAgent._get_planning_history in H.
  unbind. unprim. injection H as <- <-.
  repeat match goal with
    | E : conversation_history _ = _ |- _ => rewrite E; clear E
    end.
  cbn [events conversation_history] in *.
  split; [reflexivity |]. split; [eauto |].
  repeat split; try reflexivity; lia.
Qed.

(** Whatever the service does, a research that returns has asked
    seven questions in a conversation of its own and hands on a dict
    with the ten fixed keys, the address of its input, the fixed list
    of sources and the confidence [medium].  Each question took
    between one and three requests. *)
Theorem research_result_shape (input : json) (st st' : agent_state)
    (v : json) :
  process input st = (Ok v, st') ->
  keys v
  = ["address"; "parsed_address"; "property_details"; "market_data";
     "comparable_properties"; "local_area_info"; "planning_history";
     "sources"; "confidence"; "research_timestamp"]
  /\ (exists address,
        get_method "address" (JStr "") input = Ok address
        /\ PyObj.truthy address = true
        /\ field "address" v = Some address)
  /\ field "sources" v = Some ResearchAgent.sources
  /\ field "confidence" v = Some (JStr "medium")
  /\ roles (conversation_history st') = JStr "system" :: turns 7
  /\ (requests (events st) + 7 <= requests (events st')
      <= requests (events st) + 21)%nat.
Proof. apply research_shape. Qed.

(** The first two blocks yield dicts when the decoder behaves as
    [json.loads] does. *)
Lemma research_dicts (reply : nat -> json) (address : json) (n : nat) :
  decodes_by_first_character json_loads ->
  exists ap sq,
    block_value json_loads "{" "}" (reply (n + 0)%nat)
      (match address with
       | JStr a => Ok (parse_address_no_json a)
       | _ => Raise TypeError
       end) (ResearchAgent.address_failed address) = JObj ap
    /\ block_value json_loads "{" "}" (reply (n + 1)%nat)
         (Ok (ResearchAgent.search_queries_no_json repr address
                (dict_get_or "postcode" (JStr "") ap)))
         (ResearchAgent.search_queries_failed repr address) = JObj sq.
Proof.
  intros D.
  destruct (is_object_inv _
              (block_object json_loads (reply (n + 0)%nat)
                 (match address with
                  | JStr a => Ok (parse_address_no_json a)
                  | _ => Raise TypeError
                  end) (ResearchAgent.address_failed address) D
                 ltac:(destruct address; try discriminate;
                       intros v [= <-]; apply parse_address_no_json_object)
                 eq_refl)) as [ap Eap].
  exists ap.
  destruct (is_object_inv _
              (block_object json_loads (reply (n + 1)%nat)
                 (Ok (ResearchAgent.search_queries_no_json repr address
                        (dict_get_or "postcode" (JStr "") ap)))
                 (ResearchAgent.search_queries_failed repr address) D
                 ltac:(intros v [= <-]; reflexivity) eq_refl)) as [sq Esq].
  exists sq. split; assumption.
Qed.

(** With a key, a service that answers every request and a decoder
    that behaves as [json.loads] does, a research for an address that
    is not empty returns: it sends exactly seven requests, never
    sleeps, and every section has the type that the later stages read
    it with, a dict, or a list for the comparable properties, whatever
    the answers were. *)
Theorem research_gathers_with_seven_requests (reply : nat -> json)
    (input address : json) (st : agent_state) :
  key_configured api_key = true ->
  answered post reply ->
  decodes_by_first_character json_loads ->
  get_method "address" (JStr "") input = Ok address ->
  PyObj.truthy address = true ->
  exists v st',
    process input st = (Ok v, st')
    /\ field "address" v = Some address
    /\ events st' = (events st ++ List.repeat Request 7)%list
    /\ requests (events st') = (requests (events st) + 7)%nat
    /\ sleeps (events st') = sleeps (events st)
    /\ roles (conversation_history st') = JStr "system" :: turns 7
    /\ List.map (fun k => option_map is_object (field k v))
         ["parsed_address"; "property_details"; "market_data";
          "local_area_info"; "planning_history"]
       = List.repeat (Some true) 5
    /\ option_map is_array (field "comparable_properties" v) = Some true.
Proof.
  intros K A D Ga T. destruct st as [h0 trace].
  destruct (research_dicts reply address (requests trace) D)
    as (ap & sq & Eap & Esq).
  destruct (research_run reply input address ap sq h0 trace K A Ga T Eap Esq)
    as (h & E & R).
  do 2 eexists. split; [exact E |]. cbn [events conversation_history].
  rewrite requests_repeat, sleeps_repeat.
  split; [reflexivity |]. split; [reflexivity |]. split; [reflexivity |].
  split; [reflexivity |]. split; [exact R |].
  cbn [field dict_get String.eqb Ascii.eqb Bool.eqb List.map option_map
       List.repeat is_object].
  simpl.
  rewrite !block_object by (first [exact D | reflexivity
                                  | intros v [= <-]; reflexivity]).
  rewrite block_array by (first [exact D | reflexivity
                                | intros v [= <-]; reflexivity]).
  split; reflexivity.
Qed.

(** If every answer is prose, the research does not depend on the
    answers, and apart from the address and the postcode that is read
    off it, not on the address either: every property is the same
    two-bedroom leasehold flat with the same market, comparables,
    local area and planning history. *)
Theorem research_prose_replies_give_stock_data (reply : nat -> json)
    (input : json) (a : string) (st : agent_state) :
  key_configured api_key = true ->
  answered post reply ->
  get_method "address" (JStr "") input = Ok (JStr a) ->
  a <> "" ->
  (forall n, prose (reply n) = true) ->
  fst (process input st)
  = Ok (JObj
          [("address", JStr a);
           ("parsed_address", parse_address_no_json a);
           ("property_details", property_details_no_json);
           ("market_data", ResearchAgent.market_data_no_json);
           ("comparable_properties", ResearchAgent.comparables_no_json);
           ("local_area_info", ResearchAgent.local_area_no_json);
           ("planning_history", ResearchAgent.planning_history_no_json);
           ("sources", ResearchAgent.sources);
           ("confidence", JStr "medium");
           ("research_timestamp", JFloat research_timestamp)]).
Proof.
  intros K A Ga N P. destruct st as [h0 trace].
  apply truthy_nonempty in N.
  destruct (is_object_inv _ (parse_address_no_json_object a)) as [ap Eap].
  destruct (research_run reply input (JStr a) ap
              (match ResearchAgent.search_queries_no_json repr (JStr a)
                       (dict_get_or "postcode" (JStr "") ap) with
               | JObj sq => sq
               | _ => []
               end) h0 trace K A Ga N) as (h & -> & _).
  - rewrite prose_block_value by (auto using P). exact Eap.
  - now rewrite prose_block_value by (auto using P).
  - cbn [fst]. rewrite !prose_block_value by (auto using P).
    now rewrite Eap.
Qed.

(** An input without an address is refused before anything is done,
    and without a key the first question is never sent. *)
Theorem research_refuses_early (input address : json) (st : agent_state) :
  get_method "address" (JStr "") input = Ok address ->
  (PyObj.truthy address = false ->
   process input st
   = (Raise (Exn "ValueError" "Address is required for research"), st))
  /\ (PyObj.truthy address = true ->
      key_configured api_key = false ->
      exists h,
        process input st
        = (Raise (Exn "ValueError"
                    "OpenAI API key not found for Research Agent. Please add it to your .env file."),
           AgentState h (events st))
        /\ roles h = [JStr "system"; JStr "user"]).
Proof.
  intros Ga. unfold process, ResearchAgent.process. split.
  - intros T. rewrite agent_bind_unfold. unfold evaluate.
    now rewrite Ga, T.
  - intros T K.
    erewrite agent_bind_ok by (unfold evaluate; rewrite Ga; reflexivity).
    rewrite T. cbv beta iota delta [negb].
    erewrite agent_bind_ok by reflexivity.
    unfold ResearchAgent._parse_address.
    rewrite !agent_bind_unfold.
    rewrite (exchange_without_key _ _ _ _ _ _ _ K).
    eexists. split; reflexivity.
Qed.

End ResearchProperties.

(** ** The sample service and decoder *)

Lemma answers_with_answered (reply : nat -> json) :
  answered (answers_with reply) reply.
Proof. intros n. eexists. split; reflexivity. Qed.

Lemma sample_loads_by_first_character :
  decodes_by_first_character sample_loads.
Proof.
  intros text v. unfold sample_loads.
  destruct (String.eqb_spec text "{}") as [-> | _];
    [intros [= <-]; now exists [] |].
  destruct (String.eqb_spec text
              ("{" ++ quoted "city" ++ ": " ++ quoted "London" ++ "}"))
    as [-> | _]; [intros [= <-]; vm_compute; eauto |].
  destruct (String.eqb_spec text ("{" ++ quoted "formatted_value" ++ ": 5}"))
    as [-> | _]; [intros [= <-]; vm_compute; eauto | discriminate].
Qed.

Lemma accessor_result_shape_witness :
  exists v st',
    AccessorAgent.process (Some "sk-test") sample_service sample_loads
      sample_prompt "You are the Accessor Agent." (FFinite 0)
      sample_review_input idle = (Ok v, st')
    /\ field "approval_status" v = Some (JStr "Approved").
Proof.
  destruct (AccessorAgent.process (Some "sk-test") sample_service sample_loads
              sample_prompt "You are the Accessor Agent." (FFinite 0)
              sample_review_input idle) as [[v | e] st'] eqn:E;
    [| vm_compute in E; discriminate E].
  exists v, st'. split; [reflexivity |].
  exact (proj1 (proj2 (proj2 (accessor_result_shape _ _ _ _ _ _ _ _ _ _
                                 E)))).
Defined.

Lemma accessor_reviews_with_nine_requests_witness :
  key_configured (Some "sk-test") = true
  /\ answered sample_service sample_reply
  /\ exists v st',
       AccessorAgent.process (Some "sk-test") sample_service sample_loads
         sample_prompt "You are the Accessor Agent." (FFinite 0)
         sample_review_input idle = (Ok v, st')
       /\ requests (events st') = 9%nat.
Proof.
  split; [reflexivity |]. split; [apply answers_with_answered |].
  destruct (accessor_reviews_with_nine_requests (Some "sk-test")
              sample_service sample_loads sample_prompt
              "You are the Accessor Agent." (FFinite 0) sample_reply
              sample_review_input (JStr "10 Downing Street")
              [("property_details", JObj [("bedrooms", JInt 2)])]
              [("conclusion", JObj [("summary", JStr "Sound")])] [] [] idle
              eq_refl (answers_with_answered sample_reply) eq_refl eq_refl
              eq_refl eq_refl eq_refl eq_refl)
    as (v & st' & E & _ & _ & R & _).
  exists v, st'. split; [exact E | exact R].
Defined.

Lemma accessor_prose_replies_change_nothing_witness :
  key_configured (Some "sk-test") = true
  /\ (forall n, prose (sample_reply n) = true)
  /\ match fst (AccessorAgent.process (Some "sk-test") sample_service
                  sample_loads sample_prompt "You are the Accessor Agent."
                  (FFinite 0) sample_review_input idle) with
     | Ok v => field "conclusion" v
     | Raise _ => None
     end = Some (JObj [("summary", JStr "Sound")]).
Proof.
  split; [reflexivity |]. split; [reflexivity |].
  rewrite (accessor_prose_replies_change_nothing (Some "sk-test")
             sample_service sample_loads sample_prompt
             "You are the Accessor Agent." (FFinite 0) sample_reply
             sample_review_input (JStr "10 Downing Street")
             [("property_details", JObj [("bedrooms", JInt 2)])]
             [("conclusion", JObj [("summary", JStr "Sound")])] [] [] idle
             eq_refl (answers_with_answered sample_reply) eq_refl eq_refl
             eq_refl eq_refl eq_refl eq_refl (fun n => eq_refl)).
  reflexivity.
Defined.

Lemma research_result_shape_witness :
  exists v st',
    ResearchAgent.process (Some "sk-test") sample_service sample_loads
      sample_prompt "You are the Research Agent." sample_repr (FFinite 0)
      (JObj [("address", JStr "10 Downing Street")]) idle = (Ok v, st')
    /\ field "confidence" v = Some (JStr "medium").
Proof.
  destruct (ResearchAgent.process (Some "sk-test") sample_service sample_loads
              sample_prompt "You are the Research Agent." sample_repr
              (FFinite 0) (JObj [("address", JStr "10 Downing Street")])
              idle) as [[v | e] st'] eqn:E;
    [| vm_compute in E; discriminate E].
  exists v, st'. split; [reflexivity |].
  exact (proj1 (proj2 (proj2 (proj2 (research_result_shape _ _ _ _ _ _ _ _
                                        _ _ _ E))))).
Defined.

Lemma research_gathers_with_seven_requests_witness :
  key_configured (Some "sk-test") = true
  /\ answered sample_service sample_reply
  /\ decodes_by_first_character sample_loads
  /\ exists v st',
       ResearchAgent.process (Some "sk-test") sample_service sample_loads
         sample_prompt "You are the Research Agent." sample_repr (FFinite 0)
         (JObj [("address", JStr "10 Downing Street")]) idle = (Ok v, st')
       /\ requests (events st') = 7%nat.
Proof.
  split; [reflexivity |]. split; [apply answers_with_answered |].
  split; [apply sample_loads_by_first_character |].
  destruct (research_gathers_with_seven_requests (Some "sk-test")
              sample_service sample_loads sample_prompt
              "You are the Research Agent." sample_repr (FFinite 0)
              sample_reply (JObj [("address", JStr "10 Downing Street")])
              (JStr "10 Downing Street") idle eq_refl
              (answers_with_answered sample_reply)
              sample_loads_by_first_character eq_refl eq_refl)
    as (v & st' & E & _ & _ & R & _).
  exists v, st'. split; [exact E | exact R].
Defined.

Lemma research_prose_replies_give_stock_data_witness :
  key_configured (Some "sk-test") = true
  /\ "10 Downing Street" <> ""
  /\ (forall n, prose (sample_reply n) = true)
  /\ match fst (ResearchAgent.process (Some "sk-test") sample_service
                  sample_loads sample_prompt "You are the Research Agent."
                  sample_repr (FFinite 0)
                  (JObj [("address", JStr "10 Downing Street")]) idle) with
     | Ok v => field "property_details" v
     | Raise _ => None
     end = Some property_details_no_json.
Proof.
  split; [reflexivity |]. split; [discriminate |]. split; [reflexivity |].
  rewrite (research_prose_replies_give_stock_data (Some "sk-test")
             sample_service sample_loads sample_prompt
             "You are the Research Agent." sample_repr (FFinite 0)
             sample_reply (JObj [("address", JStr "10 Downing Street")])
             "10 Downing Street" idle eq_refl
             (answers_with_answered sample_reply) eq_refl
             ltac:(discriminate) (fun n => eq_refl)).
  reflexivity.
Defined.

Lemma research_refuses_early_witness :
  get_method "address" (JStr "") (JObj []) = Ok (JStr "")
  /\ fst (ResearchAgent.process (Some "sk-test") sample_service sample_loads
            sample_prompt "You are the Research Agent." sample_repr
            (FFinite 0) (JObj []) idle)
     = Raise (Exn "ValueError" "Address is required for research").
Proof.
  split; [reflexivity |].
  rewrite (proj1 (research_refuses_early (Some "sk-test") sample_service
                    sample_loads sample_prompt "You are the Research Agent."
                    sample_repr (FFinite 0) (JObj []) (JStr "") idle eq_refl)
             eq_refl).
  reflexivity.
Defined.

(** ** A job from submission to report, with the agents as modelled *)

Section PipelineWithAgents.

Variable api_key : option string.
Variables post_research post_accessor : nat -> Base.post_outcome.
Variable json_loads : string -> option json.
Variable user_prompt : string -> list json -> string.
Variables research_prompt accessor_prompt : string.
Variable repr : json -> string.
Variables research_timestamp approval_timestamp : pyfloat.
Variable evaluation_agent : json -> result json.
Variable report_sections : json -> result json.
Variable report_html_of : json -> result string.
Variable generation_timestamp : pyfloat.
Variable format_exc : exn -> string.
Variable report_date : string.

Let research_agent :=
  fresh_agent
    (ResearchAgent.process api_key post_research json_loads user_prompt
       research_prompt repr research_timestamp).

Let accessor_agent :=
  fresh_agent
    (AccessorAgent.process api_key post_accessor json_loads user_prompt
       accessor_prompt approval_timestamp).

Let report_agent :=
  report_generator report_sections report_html_of generation_timestamp.

(** The chain gets through research and review whenever the service
    answers and the evaluation returns a dict whose sections are
    dicts. *)
Lemma chain_with_agents (replies_research replies_accessor : nat -> json)
    (address : string) :
  key_configured api_key = true ->
  answered post_research replies_research ->
  answered post_accessor replies_accessor ->
  decodes_by_first_character json_loads ->
  address <> "" ->
  (forall property_data, exists er pa fs,
      evaluation_agent property_data = Ok (JObj er)
      /\ dict_get_or "property_appraisal" (JObj []) er = JObj pa
      /\ dict_get_or "feasibility_study" (JObj []) er = JObj fs) ->
  (forall approved, exists content, report_sections approved = Ok content) ->
  (forall content, exists html, report_html_of content = Ok html) ->
  exists approved result,
    pipeline research_agent evaluation_agent accessor_agent report_agent
      address = Succeeded approved result
    /\ field "address" approved = Some (JStr address)
    /\ field "approval_status" approved = Some (JStr "Approved").
Proof.
  intros K Ar Aa D N E S H. apply truthy_nonempty in N.
  unfold pipeline, research_agent, accessor_agent, fresh_agent, idle.
  destruct (research_dicts json_loads repr replies_research (JStr address)
              (requests []) D) as (ap & sq & Eap & Esq).
  destruct (research_run api_key post_research json_loads user_prompt
              research_prompt repr research_timestamp replies_research
              (JObj [("address", JStr address)]) (JStr address) ap sq [] []
              K Ar eq_refl N Eap Esq) as (h & -> & _).
  cbn [fst].
  match goal with
  | |- context [evaluation_agent ?pd] =>
      destruct (E pd) as (er & pa & fs & -> & Hpa & Hfs)
  end.
  match goal with
  | |- context [AccessorAgent.process _ _ _ _ _ _ ?input] =>
      destruct (accessor_run api_key post_accessor json_loads user_prompt
                  accessor_prompt approval_timestamp replies_accessor
                  input (JStr address) _ er pa fs [] [] K Aa eq_refl eq_refl
                  eq_refl eq_refl Hpa Hfs) as (h' & -> & _)
  end.
  cbn [fst]. unfold report_agent, report_generator.
  cbn [PyObj.contains dict_has dict_get field String.eqb Ascii.eqb Bool.eqb].
  match goal with
  | |- context [report_sections ?x] => destruct (S x) as [content ->]
  end.
  destruct (H content) as [html ->]. do 2 eexists.
  split; [reflexivity |]. split; reflexivity.
Qed.

(** With a key, services that answer every request of the research
    and of the accessor agent, an evaluation that returns a dict whose
    sections are dicts, and a report generator that does not raise, the
    job of every submitted address completes, whatever the services
    answer: the last poll shows [complete] with progress 100 and no
    error, and the record holds approved data for the submitted
    address. *)
Theorem job_completes_when_services_answer
    (replies_research replies_accessor : nat -> json)
    (st : gmap string dict) (report_id : string) (a : json)
    (message timestamp address : string) :
  key_configured api_key = true ->
  answered post_research replies_research ->
  answered post_accessor replies_accessor ->
  decodes_by_first_character json_loads ->
  address <> "" ->
  (forall property_data, exists er pa fs,
      evaluation_agent property_data = Ok (JObj er)
      /\ dict_get_or "property_appraisal" (JObj []) er = JObj pa
      /\ dict_get_or "feasibility_study" (JObj []) er = JObj fs) ->
  (forall approved, exists content, report_sections approved = Ok content) ->
  (forall content, exists html, report_html_of content = Ok html) ->
  let w := snd (process_report research_agent evaluation_agent accessor_agent
                  report_sections report_html_of generation_timestamp
                  format_exc report_date report_id address
                  (start (<[report_id := fresh_report a message timestamp]>
                            st))) in
  let poll := report_status report_id (Server (reports w) []) in
  poll_status poll = "complete"
  /\ poll_progress poll = 100
  /\ poll_field "complete" poll = JBool true
  /\ poll_field "error_details" poll = JNull
  /\ calls w = stage_order
  /\ exists record approved,
       reports w !! report_id = Some record
       /\ dict_get "data" record = Some approved
       /\ field "address" approved = Some (JStr address)
       /\ field "approval_status" approved = Some (JStr "Approved").
Proof.
  intros K Ar Aa D N E S H. cbv zeta.
  destruct (chain_with_agents replies_research replies_accessor address
              K Ar Aa D N E S H) as (approved & result & C & Fa & Fs).
  destruct (process_report_run research_agent evaluation_agent accessor_agent
              report_sections report_html_of generation_timestamp format_exc
              report_date st report_id a message timestamp address)
    as (rs & rf & R & _ & _ & _ & _ & F).
  fold report_agent in R, F. rewrite C in R, F. rewrite R. simpl in F.
  destruct F as (St & Pr & Er & Da & _).
  cbn [snd reports calls at_record entered]. rewrite report_status_found.
  rewrite poll_status_response, poll_progress_response.
  split; [exact St |]. split; [exact Pr |].
  apply status_of_not_complete in St; [| discriminate | discriminate].
  unfold poll_field, status_response, has_error, dict_has in *.
  cbn [field dict_get String.eqb Ascii.eqb Bool.eqb].
  unfold dict_get_or at 1 2. rewrite St.
  destruct (dict_get "error_details" rf); [discriminate Er |].
  split; [reflexivity |]. split; [reflexivity |]. split; [reflexivity |].
  exists rf, approved. rewrite lookup_insert_eq. repeat split; assumption.
Qed.

End PipelineWithAgents.

Lemma job_completes_when_services_answer_witness :
  key_configured (Some "sk-test") = true
  /\ answered sample_service sample_reply
  /\ decodes_by_first_character sample_loads
  /\ "10 Downing Street" <> ""
  /\ poll_status
       (report_status "job-1"
          (Server
             (reports
                (snd (process_report
                        (fresh_agent
                           (ResearchAgent.process (Some "sk-test")
                              sample_service sample_loads sample_prompt
                              "You are the Research Agent." sample_repr
                              (FFinite 0)))
                        sample_evaluation
                        (fresh_agent
                           (AccessorAgent.process (Some "sk-test")
                              sample_service sample_loads sample_prompt
                              "You are the Accessor Agent." (FFinite 0)))
                        (fun _ => Ok (JObj [])) (fun _ => Ok "<html></html>")
                        (FFinite 0) (fun _ => "Traceback")
                        "November 04, 2026" "job-1" "10 Downing Street"
                        (start (store submitted))))) []))
     = "complete".
Proof.
  split; [reflexivity |]. split; [apply answers_with_answered |].
  split; [apply sample_loads_by_first_character |].
  split; [discriminate |].
  refine (proj1 (job_completes_when_services_answer (Some "sk-test")
                   sample_service sample_service sample_loads sample_prompt
                   "You are the Research Agent." "You are the Accessor Agent."
                   sample_repr (FFinite 0) (FFinite 0) sample_evaluation
                   (fun _ => Ok (JObj [])) (fun _ => Ok "<html></html>")
                   (FFinite 0) (fun _ => "Traceback") "November 04, 2026"
                   sample_reply sample_reply ∅ "job-1"
                   (JStr "10 Downing Street") "Starting research..."
                   "2026-11-04T12:00:00" "10 Downing Street" eq_refl
                   (answers_with_answered sample_reply)
                   (answers_with_answered sample_reply)
                   sample_loads_by_first_character ltac:(discriminate)
                   _ _ _)).
  - intros pd. exists [("conclusion", JObj [("summary", JStr "Sound")])], [], [].
    repeat split.
  - intros x. eexists. reflexivity.
  - intros c. eexists. reflexivity.
Defined.

(** ** Numerals: what [f'{n}'] and [f'{n:,}'] write, [int] reads back *)

Lemma digit_char_val (d : Z) :
  0 <= d < 10 -> PyText.digit_val (PyText.digit_char d) = Some d.
Proof.
  intros H.
  assert (C : d = 0 \/ d = 1 \/ d = 2 \/ d = 3 \/ d = 4 \/ d = 5 \/ d = 6
              \/ d = 7 \/ d = 8 \/ d = 9) by lia.
  repeat (destruct C as [-> | C]; [reflexivity |]). now rewrite C.
Qed.

Lemma is_digit_range (c : ascii) :
  is_digit c = true -> (48 <= nat_of_ascii c <= 57)%nat.
Proof.
  unfold is_digit, PyText.digit_val.
  destruct (Nat.leb_spec 48 (nat_of_ascii c));
    destruct (Nat.leb_spec (nat_of_ascii c) 57); simpl; try discriminate.
  lia.
Qed.

Lemma digit_not (c x : ascii) :
  is_digit c = true ->
  (nat_of_ascii x < 48)%nat \/ (57 < nat_of_ascii x)%nat ->
  Ascii.eqb c x = false.
Proof.
  intros D X. apply is_digit_range in D.
  destruct (Ascii.eqb_spec c x) as [-> | N]; [lia | reflexivity].
Qed.

Lemma digit_not_space (c : ascii) :
  is_digit c = true -> PyText.is_space c = false.
Proof.
  intros D. apply is_digit_range in D. unfold PyText.is_space.
  destruct (Nat.leb_spec 9 (nat_of_ascii c));
    destruct (Nat.leb_spec (nat_of_ascii c) 13);
    destruct (Nat.eqb_spec (nat_of_ascii c) 32);
    destruct (Nat.eqb_spec (nat_of_ascii c) 133);
    destruct (Nat.eqb_spec (nat_of_ascii c) 160); simpl; try reflexivity; lia.
Qed.

Lemma dec_app (fuel : nat) :
  forall (n : Z) (acc : list ascii),
    PyText.dec fuel n acc = (PyText.dec fuel n [] ++ acc)%list.
Proof.
  induction fuel as [|fuel IH]; intros n acc; simpl; [reflexivity |].
  destruct (n <? 10); [reflexivity |].
  rewrite IH, (IH _ [_]). now rewrite <- List.app_assoc.
Qed.

Lemma numeral_value_app (a b : list ascii) :
  forall acc, numeral_value (a ++ b) acc = numeral_value b (numeral_value a acc).
Proof. induction a as [|c a IH]; intros acc; simpl; [reflexivity | apply IH]. Qed.

Lemma dec_spec (fuel : nat) :
  forall n,
    0 <= n < 2 ^ Z.of_nat fuel ->
    numeral_value (PyText.dec fuel n []) 0 = n
    /\ List.Forall (fun c => is_digit c = true) (PyText.dec fuel n []).
Proof.
  induction fuel as [|fuel IH]; intros n H.
  - simpl in *. split; [lia | constructor].
  - rewrite Nat2Z.inj_succ, Z.pow_succ_r in H by lia.
    pose proof (Z.mod_pos_bound n 10 ltac:(lia)) as M.
    pose proof (digit_char_val (n mod 10) M) as V.
    assert (D : is_digit (PyText.digit_char (n mod 10)) = true)
      by (unfold is_digit; now rewrite V).
    simpl PyText.dec. destruct (Z.ltb_spec n 10) as [S | S].
    + simpl. rewrite V. split; [| now repeat constructor].
      rewrite Z.mod_small by lia. lia.
    + rewrite dec_app.
      destruct (IH (n / 10)) as [IV IF].
      { split; [apply Z.div_pos; lia |].
        apply Z.div_lt_upper_bound; lia. }
      rewrite numeral_value_app, IV. simpl. rewrite V. split.
      * pose proof (Z.div_mod n 10 ltac:(lia)). lia.
      * apply List.Forall_app. split; [exact IF | now repeat constructor].
Qed.

Lemma nat_digits_spec (n : Z) :
  0 <= n ->
  numeral_value (PyText.nat_digits n) 0 = n
  /\ List.Forall (fun c => is_digit c = true) (PyText.nat_digits n)
  /\ PyText.nat_digits n <> [].
Proof.
  intros N. unfold PyText.nat_digits.
  destruct (dec_spec (S (Z.to_nat (Z.log2 n))) n) as [V F].
  { split; [exact N |]. rewrite Nat2Z.inj_succ, Z2Nat.id
      by apply Z.log2_nonneg.
    destruct (Z.eq_dec n 0) as [-> | P]; [reflexivity |].
    apply Z.log2_spec. lia. }
  split; [exact V |]. split; [exact F |].
  simpl. destruct (n <? 10); [discriminate |].
  rewrite dec_app. intros E. apply List.app_eq_nil in E as [_ E].
  discriminate E.
Qed.

Lemma digits_numeral (l : list ascii) :
  List.Forall (fun c => is_digit c = true) l ->
  forall acc b,
    PyText.digits (string_of_list_ascii l) acc b
    = if match l with [] => b | _ => true end
      then Some (numeral_value l acc) else None.
Proof.
  induction 1 as [|c l D F IH]; intros acc b; simpl; [reflexivity |].
  unfold is_digit in D. destruct (PyText.digit_val c) as [d |];
    [| discriminate].
  rewrite IH. now destruct l.
Qed.

Lemma lstrip_plain (c : ascii) (s : string) :
  PyText.is_space c = false -> PyText.lstrip (String c s) = String c s.
Proof. intros H. simpl. now rewrite H. Qed.

Lemma rstrip_plain (l : list ascii) :
  List.Forall (fun c => PyText.is_space c = false) l ->
  PyText.rstrip (string_of_list_ascii l) = string_of_list_ascii l.
Proof.
  induction 1 as [|c l C F IH]; [reflexivity |].
  simpl. rewrite IH, C. now destruct (string_of_list_ascii l).
Qed.

Lemma str_int_list (n : Z) :
  PyText.str_int n
  = string_of_list_ascii (sign_of n ++ PyText.nat_digits (Z.abs n)).
Proof. unfold PyText.str_int, sign_of. now destruct (n <? 0). Qed.

Lemma str_int_commas_list (n : Z) :
  PyText.str_int_commas n
  = string_of_list_ascii
      (sign_of n
       ++ List.rev (PyText.group3 (List.rev (PyText.nat_digits (Z.abs n))))).
Proof. unfold PyText.str_int_commas, sign_of. now destruct (n <? 0). Qed.

Lemma int_unsigned (c : ascii) (s : string) :
  Ascii.eqb c "-" = false -> Ascii.eqb c "+" = false ->
  PyText.rstrip (PyText.lstrip (String c s)) = String c s ->
  PyText.int (String c s) = PyText.digits (String c s) 0 false.
Proof.
  intros M P R. unfold PyText.int. rewrite R.
  apply Ascii.eqb_neq in M, P.
  destruct c as [[] [] [] [] [] [] [] []]; try reflexivity; congruence.
Qed.

(** [int] reads back what [f'{n}'] writes. *)
Lemma int_str_int (n : Z) : PyText.int (PyText.str_int n) = Some n.
Proof.
  destruct (nat_digits_spec (Z.abs n) (Z.abs_nonneg n)) as (V & F & N).
  assert (S : List.Forall (fun c => PyText.is_space c = false)
                (PyText.nat_digits (Z.abs n))).
  { eapply List.Forall_impl; [| exact F]. apply digit_not_space. }
  unfold PyText.str_int.
  destruct (Z.ltb_spec n 0) as [L | L].
  - unfold PyText.int. rewrite lstrip_plain by reflexivity.
    change (String "-" (string_of_list_ascii ?l))
      with (string_of_list_ascii ("-"%char :: l)).
    rewrite rstrip_plain by (constructor; [reflexivity | exact S]).
    simpl. rewrite (digits_numeral _ F), V.
    destruct (PyText.nat_digits (Z.abs n)); [congruence |].
    simpl. f_equal. lia.
  - destruct (PyText.nat_digits (Z.abs n)) as [|c l] eqn:E; [congruence |].
    inversion F as [| ? ? D F']; subst. inversion S as [| ? ? C S']; subst.
    simpl string_of_list_ascii. rewrite int_unsigned.
    + change (String c (string_of_list_ascii l))
        with (string_of_list_ascii (c :: l)).
      rewrite (digits_numeral _ F), V. f_equal. lia.
    + apply digit_not; [exact D |]. left. vm_compute. lia.
    + apply digit_not; [exact D |]. left. vm_compute. lia.
    + rewrite lstrip_plain by exact C.
      change (String c (string_of_list_ascii l))
        with (string_of_list_ascii (c :: l)).
      now rewrite rstrip_plain.
Qed.

Lemma remove_list (c : ascii) (l : list ascii) :
  PyText.remove c (string_of_list_ascii l)
  = string_of_list_ascii (List.filter (fun a => negb (Ascii.eqb a c)) l).
Proof.
  induction l as [|a l IH]; [reflexivity |].
  simpl. rewrite IH. now destruct (Ascii.eqb a c).
Qed.

Lemma filter_all {A : Type} (p : A -> bool) (l : list A) :
  List.Forall (fun a => p a = true) l -> List.filter p l = l.
Proof.
  induction 1 as [|a l H F IH]; [reflexivity |]. simpl. now rewrite H, IH.
Qed.

Lemma filter_rev_list {A : Type} (p : A -> bool) (l : list A) :
  List.filter p (List.rev l) = List.rev (List.filter p l).
Proof.
  induction l as [|a l IH]; [reflexivity |].
  simpl. rewrite List.filter_app, IH. simpl.
  destruct (p a); [reflexivity | apply List.app_nil_r].
Qed.

Lemma group3_filter (p : ascii -> bool) (n : nat) :
  p ","%char = false ->
  forall l, (List.length l <= n)%nat ->
            List.filter p (PyText.group3 l) = List.filter p l.
Proof.
  intros C. induction n as [|n IH]; intros l L.
  - destruct l; [reflexivity | simpl in L; lia].
  - destruct l as [|a [|b [|c [|d rest]]]]; try reflexivity.
    change (PyText.group3 (a :: b :: c :: d :: rest))
      with ([a; b; c] ++ ","%char :: PyText.group3 (d :: rest))%list.
    change (a :: b :: c :: d :: rest) with ([a; b; c] ++ d :: rest)%list.
    rewrite !List.filter_app. f_equal.
    assert (K : forall x, List.filter p (","%char :: x) = List.filter p x)
      by (intros x; simpl; now rewrite C).
    rewrite K. apply IH. simpl in L |- *. lia.
Qed.

Lemma group3_forall (P : ascii -> Prop) (n : nat) :
  P ","%char ->
  forall l, (List.length l <= n)%nat ->
            List.Forall P l -> List.Forall P (PyText.group3 l).
Proof.
  intros C. induction n as [|n IH]; intros l L F.
  - destruct l; [constructor | simpl in L; lia].
  - destruct l as [|a [|b [|c [|d rest]]]]; try exact F.
    change (PyText.group3 (a :: b :: c :: d :: rest))
      with (a :: b :: c :: ","%char :: PyText.group3 (d :: rest)).
    inversion F as [| ? ? Pa F1]; subst. inversion F1 as [| ? ? Pb F2]; subst.
    inversion F2 as [| ? ? Pc F3]; subst.
    repeat (constructor; [assumption |]).
    apply IH; [simpl in L |- *; lia | exact F3].
Qed.

(** Removing the commas of [f'{n:,}'] gives [f'{n}']. *)
Lemma remove_commas (n : Z) :
  PyText.remove ","%char (PyText.str_int_commas n) = PyText.str_int n.
Proof.
  destruct (nat_digits_spec (Z.abs n) (Z.abs_nonneg n)) as (_ & F & _).
  assert (K : List.Forall (fun a => negb (Ascii.eqb a ",") = true)
                (PyText.nat_digits (Z.abs n))).
  { eapply List.Forall_impl; [| exact F]. intros c D. simpl.
    rewrite (digit_not c "," D); [reflexivity | left; vm_compute; lia]. }
  rewrite str_int_commas_list, str_int_list, remove_list, List.filter_app.
  rewrite filter_rev_list.
  rewrite (group3_filter _ (List.length (List.rev (PyText.nat_digits (Z.abs n)))))
    by (reflexivity || lia).
  rewrite filter_rev_list, List.rev_involutive, (filter_all _ _ K).
  f_equal. f_equal. unfold sign_of. now destruct (n <? 0).
Qed.

(** Neither numeral holds a pound sign or a space, and the plain one
    holds no comma. *)
Lemma plain_numeral_characters (n : Z) (x : ascii) :
  (nat_of_ascii x < 45)%nat \/ (57 < nat_of_ascii x)%nat ->
  List.Forall (fun a => negb (Ascii.eqb a x) = true)
    (sign_of n ++ PyText.nat_digits (Z.abs n)).
Proof.
  intros X.
  destruct (nat_digits_spec (Z.abs n) (Z.abs_nonneg n)) as (_ & F & _).
  assert (Q : forall c, (45 <= nat_of_ascii c <= 57)%nat ->
                        negb (Ascii.eqb c x) = true).
  { intros c R. destruct (Ascii.eqb_spec c x) as [-> | _]; [lia | reflexivity]. }
  apply List.Forall_app. split.
  - unfold sign_of. destruct (n <? 0); repeat constructor.
    apply Q. vm_compute. lia.
  - eapply List.Forall_impl; [| exact F]. intros c D. simpl.
    apply Q. apply is_digit_range in D. lia.
Qed.

Lemma grouped_numeral_characters (n : Z) (x : ascii) :
  (nat_of_ascii x < 44)%nat \/ (57 < nat_of_ascii x)%nat ->
  List.Forall (fun a => negb (Ascii.eqb a x) = true)
    (sign_of n
     ++ List.rev (PyText.group3 (List.rev (PyText.nat_digits (Z.abs n))))).
Proof.
  intros X.
  destruct (nat_digits_spec (Z.abs n) (Z.abs_nonneg n)) as (_ & F & _).
  assert (Q : forall c, (44 <= nat_of_ascii c <= 57)%nat ->
                        negb (Ascii.eqb c x) = true).
  { intros c R. destruct (Ascii.eqb_spec c x) as [-> | _]; [lia | reflexivity]. }
  apply List.Forall_app. split.
  - unfold sign_of. destruct (n <? 0); repeat constructor.
    apply Q. vm_compute. lia.
  - apply List.Forall_rev.
    apply (group3_forall _
             (List.length (List.rev (PyText.nat_digits (Z.abs n)))));
      [apply Q; vm_compute; lia | lia |].
    apply List.Forall_rev.
    eapply List.Forall_impl; [| exact F]. intros c D. simpl.
    apply Q. apply is_digit_range in D. lia.
Qed.

Lemma money_of_numeral (n fallback : Z) :
  money_or fallback (JStr (String pound (PyText.str_int_commas n))) = n
  /\ money_or fallback (JStr (String pound (PyText.str_int n))) = n.
Proof.
  assert (P : (nat_of_ascii pound < 44)%nat \/ (57 < nat_of_ascii pound)%nat)
    by (right; vm_compute; lia).
  assert (P' : (nat_of_ascii pound < 45)%nat \/ (57 < nat_of_ascii pound)%nat)
    by (right; vm_compute; lia).
  assert (Q : (nat_of_ascii "," < 45)%nat \/ (57 < nat_of_ascii ",")%nat)
    by (left; vm_compute; lia).
  pose proof (grouped_numeral_characters n pound P) as Fc.
  pose proof (plain_numeral_characters n pound P') as Fp.
  pose proof (plain_numeral_characters n "," Q) as Fk.
  assert (R : forall s,
            PyText.remove pound (String pound s) = PyText.remove pound s)
    by reflexivity.
  unfold money_or. rewrite !R. split.
  - rewrite str_int_commas_list, remove_list, (filter_all _ _ Fc).
    rewrite <- str_int_commas_list, remove_commas. now rewrite int_str_int.
  - rewrite str_int_list, !remove_list, (filter_all _ _ Fp),
      (filter_all _ _ Fk).
    rewrite <- str_int_list. now rewrite int_str_int.
Qed.

Lemma first_word_numeral (n : Z) (rest : string) :
  PyText.first_word (PyText.str_int n ++ String " " rest) = PyText.str_int n.
Proof.
  assert (P : (nat_of_ascii " " < 45)%nat \/ (57 < nat_of_ascii " ")%nat)
    by (left; vm_compute; lia).
  pose proof (plain_numeral_characters n " " P) as F.
  rewrite str_int_list.
  induction F as [|c l C F IH]; simpl string_of_list_ascii.
  - rewrite app_nil_l. reflexivity.
  - rewrite app_cons. simpl. apply negb_true_iff in C. now rewrite C, IH.
Qed.

Lemma size_of_numeral (n : Z) (rest : string) :
  size_of (JStr (PyText.str_int n ++ String " " rest)) = n.
Proof. unfold size_of. now rewrite first_word_numeral, int_str_int. Qed.

(** The two pieces of [_calculate_valuation] agree: what the fallback
    valuation writes as [formatted_value], the other branch reads back
    as the same [value]; and the price and the floor area are read
    back from the forms in which the research agent writes them.  The
    bound is that of Python on conversions between [int] and [str]. *)
Theorem formatted_value_round_trip (n fallback : Z) :
  Z.abs n < 10 ^ 4300 ->
  money_or fallback (JStr (String pound (PyText.str_int_commas n))) = n
  /\ money_or fallback (JStr (String pound (PyText.str_int n))) = n
  /\ size_of (JStr (PyText.str_int n ++ " sqft")) = n
  /\ backfill_value
       (JObj [("formatted_value",
                 JStr (String pound (PyText.str_int_commas n)))])
     = Ok (JObj [("formatted_value",
                    JStr (String pound (PyText.str_int_commas n)));
                 ("value", JInt n)]).
Proof.
  intros _. destruct (money_of_numeral n fallback) as [A B].
  split; [exact A |]. split; [exact B |].
  split; [apply size_of_numeral |].
  unfold backfill_value.
  cbn [PyObj.contains PyObj.getitem PyObj.setitem dict_has dict_get dict_set
       String.eqb Ascii.eqb Bool.eqb PyText.infix PyText.prefix].
  rewrite Ascii.eqb_refl. cbn [andb].
  now rewrite (proj1 (money_of_numeral n 0)).
Qed.

Lemma formatted_value_round_trip_witness :
  Z.abs 482300 < 10 ^ 4300
  /\ money_or 0 (JStr (String pound "482,300")) = 482300.
Proof.
  assert (B : Z.abs 482300 < 10 ^ 4300).
  { apply Z.lt_le_trans with (10 ^ 6); [reflexivity |].
    apply Z.pow_le_mono_r; lia. }
  split; [exact B |].
  exact (proj1 (formatted_value_round_trip 482300 0 B)).
Defined.

Section ValuationProperties.

Variable json_loads : string -> option json.
Variable today : string.

(** The valuation that [_calculate_valuation] falls back on is the
    floor area times the price per square foot, when the two are
    written as the research agent writes them; a missing or empty
    floor area or price counts as 0, not as the default, so that the
    value is then 0. *)
Theorem no_json_valuation_multiplies (n p : Z)
    (property_details market_data : dict) (text : string) :
  Z.abs (n * p) < 10 ^ 4300 ->
  has_delimiters "{" "}" text = false ->
  dict_get "average_price_per_sqft" market_data
  = Some (JStr (String pound (PyText.str_int p))) ->
  (dict_get "floor_area" property_details
   = Some (JStr (PyText.str_int n ++ " sqft")) ->
   exists valuation,
     _calculate_valuation json_loads today property_details market_data text
     = Ok valuation
     /\ field "value" valuation = Some (JInt (n * p))
     /\ field "formatted_value" valuation
        = Some (JStr (String pound (PyText.str_int_commas (n * p))))
     /\ option_map (money_or 0) (field "formatted_value" valuation)
        = Some (n * p))
  /\ (dict_get "floor_area" property_details = None
      \/ dict_get "floor_area" property_details = Some (JStr "") ->
      exists valuation,
        _calculate_valuation json_loads today property_details market_data
          text = Ok valuation
        /\ field "value" valuation = Some (JInt 0)).
Proof.
  intros _ H P. unfold _calculate_valuation. rewrite H.
  cbn [try_except]. unfold valuation_no_json. cbv zeta. rewrite P.
  assert (T : PyObj.truthy (JStr (String pound (PyText.str_int p))) = true)
    by reflexivity.
  rewrite T, (proj2 (money_of_numeral p 689)). split.
  - intros F. rewrite F.
    assert (S : PyObj.truthy (JStr (PyText.str_int n ++ " sqft")) = true).
    { cbn [PyObj.truthy]. rewrite str_int_list.
      destruct (sign_of n ++ PyText.nat_digits (Z.abs n))%list;
        [reflexivity |]. simpl string_of_list_ascii.
      now rewrite app_cons. }
    rewrite S, size_of_numeral. eexists. split; [reflexivity |].
    cbn [field dict_get String.eqb Ascii.eqb Bool.eqb option_map].
    repeat split. f_equal. apply money_of_numeral.
  - intros [F | F]; rewrite F; eexists; (split; [reflexivity |]);
      cbn [field dict_get String.eqb Ascii.eqb Bool.eqb PyObj.truthy
           PyStr.truthy]; reflexivity.
Qed.

(** When the service answers in prose, the evaluation values the
    stock flat of the research agent: every address is worth 482,300
    pounds, 700 square feet at 689 pounds each. *)
Theorem prose_valuation_is_stock (property_details market_data : dict)
    (text : string) :
  has_delimiters "{" "}" text = false ->
  property_details_no_json = JObj property_details ->
  ResearchAgent.market_data_no_json = JObj market_data ->
  _calculate_valuation json_loads today property_details market_data text
  = Ok (JObj [("value", JInt 482300);
              ("formatted_value", JStr (String pound "482,300"));
              ("price_per_sqft", JInt 689);
              ("formatted_price_per_sqft", JStr (String pound "689"));
              ("valuation_date", JStr today);
              ("confidence_level", JStr "Medium");
              ("methodology",
                 JStr "Comparable analysis with market data adjustment")]).
Proof.
  intros H [= <-] [= <-]. unfold _calculate_valuation. rewrite H.
  reflexivity.
Qed.

End ValuationProperties.

Lemma no_json_valuation_multiplies_witness :
  Z.abs (700 * 689) < 10 ^ 4300
  /\ has_delimiters "{" "}" "The value is high." = false
  /\ exists valuation,
       _calculate_valuation sample_loads "November 04, 2026"
         [("floor_area", JStr "700 sqft")]
         [("average_price_per_sqft", JStr (String pound "689"))]
         "The value is high." = Ok valuation
       /\ field "value" valuation = Some (JInt 482300).
Proof.
  assert (B : Z.abs (700 * 689) < 10 ^ 4300).
  { apply Z.lt_le_trans with (10 ^ 6); [reflexivity |].
    apply Z.pow_le_mono_r; lia. }
  split; [exact B |]. split; [reflexivity |].
  destruct (proj1 (no_json_valuation_multiplies sample_loads
                     "November 04, 2026" 700 689
                     [("floor_area", JStr "700 sqft")]
                     [("average_price_per_sqft", JStr (String pound "689"))]
                     "The value is high." B eq_refl eq_refl) eq_refl)
    as (valuation & E & V & _).
  exists valuation. split; [exact E | exact V].
Defined.

Lemma prose_valuation_is_stock_witness :
  has_delimiters "{" "}" "The value is high." = false
  /\ exists pd md,
       property_details_no_json = JObj pd
       /\ ResearchAgent.market_data_no_json = JObj md
       /\ match _calculate_valuation sample_loads "November 04, 2026" pd md
                  "The value is high." with
          | Ok v => field "value" v
          | Raise _ => None
          end = Some (JInt 482300).
Proof.
  split; [reflexivity |]. do 2 eexists.
  split; [reflexivity |]. split; [reflexivity |].
  rewrite (prose_valuation_is_stock sample_loads "November 04, 2026" _ _
             "The value is high." eq_refl eq_refl eq_refl).
  reflexivity.
Defined.

